(** * cellpy: step table, cycle summary and dQ/dV converter

    A shallow embedding of the algorithmic core of cellpy
    ([cellpy/readers/cellreader.py] and [cellpy/utils/ica.py]) together with
    the properties its specification states about it.

    Numbers are IEEE binary64 values, as CPython and NumPy have them, so the
    embedding uses the kernel's primitive floats: [==] is [PrimFloat.eqb]
    (false on NaN, true on [-0.] against [0.]), [<] is [PrimFloat.ltb], and
    division by zero yields an infinity or NaN as it does for NumPy scalars.

    Reductions and filters that live inside pandas, NumPy and SciPy (mean,
    std, cumsum, interp1d, savgol_filter, ...) are not part of the repository;
    they are taken as parameters ([SeriesOps], [SciPy]). *)

From Stdlib Require Import Ascii String ZArith List Bool Floats Lia Permutation
  Sorted.
Import ListNotations.

Set Warnings "-inexact-float".

(** ** Python values, exceptions and small helpers *)

Module Py.

(** The exceptions the modelled code can let escape. *)
Inductive exn : Type :=
| NullData
| AssertionError
| TypeError
| IndexError
| KeyError
| ValueError
| OverflowError
| ZeroDivisionError
| LibraryError.

Inductive result (A : Type) : Type :=
| Ok (a : A)
| Raise (e : exn).

Arguments Ok {A} a.
Arguments Raise {A} e.

Definition bind {A B : Type} (c : result A) (k : A -> result B) : result B :=
  match c with
  | Ok a => k a
  | Raise e => Raise e
  end.

(** [for x in xs: s = body(x, s)], stopping at the first exception. *)
Fixpoint for_each {A S : Type} (xs : list A) (body : A -> S -> result S)
         (s : S) : result S :=
  match xs with
  | [] => Ok s
  | x :: xs' => bind (body x s) (for_each xs' body)
  end.

(** [int(x)] on a float: truncation toward zero; [OverflowError] on an
    infinity and [ValueError] on NaN. *)
Definition py_int (x : float) : result Z :=
  match Prim2SF x with
  | S754_nan => Raise ValueError
  | S754_infinity _ => Raise OverflowError
  | S754_zero _ => Ok 0%Z
  | S754_finite s m e =>
      let a := Z.shiftl (Z.pos m) e in
      Ok (if s then Z.opp a else a)
  end.

(** An integer as a float, rounded to nearest even. *)
Definition float_of_Z (z : Z) : float :=
  SF2Prim (binary_normalize prec emax z 0 false).

Definition float_of_nat (n : nat) : float := float_of_Z (Z.of_nat n).

(** pandas' [Series.unique()]: the distinct values in order of first
    appearance. *)
Section Unique.
Context {A : Type} (eqb : A -> A -> bool).

Fixpoint unique (l : list A) : list A :=
  match l with
  | [] => []
  | x :: l' => x :: filter (fun y => negb (eqb x y)) (unique l')
  end.
End Unique.

Definition pair_eqb (p q : Z * Z) : bool :=
  (fst p =? fst q)%Z && (snd p =? snd q)%Z.

End Py.

Import Py.

Declare Scope py_scope.
Notation "x <- c ;; k" := (bind c (fun x => k))
  (at level 61, c at next level, right associativity) : py_scope.
Notation "' p <- c ;; k" := (bind c (fun p => k))
  (at level 61, p pattern, c at next level, right associativity) : py_scope.
Open Scope py_scope.
Open Scope float_scope.

(** ** cellpy/readers/cellreader.py *)

Module CellReader.

(** pandas reductions over one float column. *)
Class SeriesOps : Type := {
  series_mean : list float -> float;
  series_std : list float -> float;
  series_max : list float -> float;
  series_min : list float -> float;
  series_pct_change : list float -> list float;
  series_cumsum : list float -> list float;
  (** [xldate_as_datetime(stamp, option="to_string")]: the arithmetic and
      the formatting are Python's [datetime], which raises on a stamp that
      is NaN, infinite or outside the dates it can hold or format. *)
  xldate_to_string : float -> result string
}.

(** One row of [dfdata], the raw time series.  [IR_pct_change] is the
    column [create_step_table] adds; it is absent ([None]) before. *)
Record sample : Type := {
  data_point : Z;
  cycle_index : Z;
  step_index : Z;
  step_time : float;
  test_time : float;
  datetime : float;
  current : float;
  voltage : float;
  charge_capacity : float;
  discharge_capacity : float;
  charge_energy : float;
  discharge_energy : float;
  internal_resistance : float;
  IR_pct_change : option float
}.

Definition set_IR_pct_change (r : sample) (v : float) : sample :=
  {| data_point := data_point r; cycle_index := cycle_index r;
     step_index := step_index r; step_time := step_time r;
     test_time := test_time r; datetime := datetime r;
     current := current r; voltage := voltage r;
     charge_capacity := charge_capacity r;
     discharge_capacity := discharge_capacity r;
     charge_energy := charge_energy r;
     discharge_energy := discharge_energy r;
     internal_resistance := internal_resistance r;
     IR_pct_change := Some v |}.

(** [df[name] = series]: row [i] gets the [i]-th value, NaN where the
    series has none. *)
Fixpoint assign_IR_pct_change (df : list sample) (col : list float)
  : list sample :=
  match df with
  | [] => []
  | r :: df' =>
      match col with
      | [] => set_IR_pct_change r nan :: assign_IR_pct_change df' []
      | v :: col' => set_IR_pct_change r v :: assign_IR_pct_change df' col'
      end
  end.

(** The step types the reader knows ([list_of_step_types]). *)
Inductive step_type : Type :=
| charge | discharge
| cv_charge | cv_discharge
| charge_cv | discharge_cv
| ocvrlx_up | ocvrlx_down | ir
| rest | not_known.

Definition list_of_step_types : list step_type :=
  [charge; discharge; cv_charge; cv_discharge; charge_cv; discharge_cv;
   ocvrlx_up; ocvrlx_down; ir; rest; not_known].

(** *** _percentage_change and _fractional_change *)

Definition _percentage_change (x0 x1 : float) (default_zero : bool) : float :=
  if x0 =? 0 then
    let difference := x1 - x0 in
    if negb (difference =? 0) && default_zero then 0 else difference
  else (x1 - x0) * 100 / x0.

Definition _fractional_change (x0 x1 : float) (default_zero : bool) : float :=
  if x1 =? 0 then
    if default_zero then 0 else nan
  else x0 / x1.

(** *** _extract_step_values *)

(** The eight descriptors kept for each of current, voltage, charge and
    discharge capacity. *)
Record descriptors : Type := {
  avr : float;
  std : float;
  max : float;
  min : float;
  start : float;
  end_ : float;
  delta : float;
  rate : float
}.

(** The list [out] of [_extract_step_values], in its order. *)
Record step_values : Type := {
  I_ : descriptors;
  V_ : descriptors;
  Charge_ : descriptors;
  Discharge_ : descriptors;
  IR : float;
  IR_change : float
}.

Section Extract.
Context {ops : SeriesOps}.

(** The block repeated for each quantity: statistics of the column,
    first and last value, percent change and its rate. *)
Definition describe (column : sample -> float) (first last : sample)
           (f : list sample) (t_delta : float) : descriptors :=
  let x_start := column first in
  let x_end := column last in
  let x_delta := _percentage_change x_start x_end true in
  {| avr := series_mean (map column f);
     std := series_std (map column f);
     max := series_max (map column f);
     min := series_min (map column f);
     start := x_start;
     end_ := x_end;
     delta := x_delta;
     rate := _fractional_change x_delta t_delta false |}.

Definition _extract_step_values (f : list sample) : result step_values :=
  match f with
  | [] => Raise IndexError
  | first :: _ =>
      let last := List.last f first in
      let t_start := step_time first in
      let t_end := step_time last in
      let t_delta := t_end - t_start in
      match IR_pct_change first with
      | None => Raise KeyError
      | Some ir_change =>
          Ok {| I_ := describe current first last f t_delta;
                V_ := describe voltage first last f t_delta;
                Charge_ := describe charge_capacity first last f t_delta;
                Discharge_ := describe discharge_capacity first last f t_delta;
                IR := internal_resistance first;
                IR_change := ir_change |}
      end
  end.
End Extract.

(** *** The step table *)

(** One row of [df_steps].  The frame is created empty, so every cell can
    be missing (pandas' NaN), which is [None] here. *)
Record step_row : Type := {
  cycle : option Z;
  step : option Z;
  values : option step_values;
  type : option step_type;
  info : option string
}.

Definition empty_step_row : step_row :=
  {| cycle := None; step := None; values := None; type := None;
     info := None |}.

Definition set_type (r : step_row) (t : step_type) : step_row :=
  {| cycle := cycle r; step := step r; values := values r;
     type := Some t; info := info r |}.

(** A numeric column of [df_steps]; a missing cell reads as NaN. *)
Definition column (g : step_values -> float) (r : step_row) : float :=
  match values r with
  | Some v => g v
  | None => nan
  end.

Fixpoint update_nth {A : Type} (n : nat) (x : A) (l : list A) : list A :=
  match l, n with
  | [], _ => []
  | _ :: l', O => x :: l'
  | y :: l', S n' => y :: update_nth n' x l'
  end.

(** The three writes to row [counter]: [iloc] raises [IndexError] outside
    the frame.  The two chained writes ([df_steps.iloc[counter][name] = x])
    go through to the frame, as they do for a frame of one dtype in the
    pandas the code was written for. *)
Definition iloc_set (df_steps : list step_row) (counter : nat)
           (c s : Z) (result : step_values) : Py.result (list step_row) :=
  match nth_error df_steps counter with
  | None => Raise IndexError
  | Some r =>
      Ok (update_nth counter
            {| cycle := Some c; step := Some s; values := Some result;
               type := type r; info := info r |} df_steps)
  end.

(** Boolean series and [df_steps.loc[mask, "type"] = label]. *)
Fixpoint mask_and (m1 m2 : list bool) : list bool :=
  match m1, m2 with
  | b1 :: m1', b2 :: m2' => (b1 && b2) :: mask_and m1' m2'
  | _, _ => []
  end.

Fixpoint loc_set_type (mask : list bool) (t : step_type)
         (df_steps : list step_row) : list step_row :=
  match df_steps with
  | [] => []
  | r :: df_steps' =>
      match mask with
      | [] => r :: df_steps'
      | b :: mask' =>
          (if b then set_type r t else r) :: loc_set_type mask' t df_steps'
      end
  end.

Definition current_limit_value_hard : float := 0.0000000000001.
Definition current_limit_value_soft : float := 0.00001.
Definition stable_current_limit_hard : float := 2.0.
Definition stable_current_limit_soft : float := 4.0.
Definition stable_voltage_limit_hard : float := 2.0.
Definition stable_voltage_limit_soft : float := 4.0.
Definition stable_charge_limit_hard : float := 2.0.
Definition stable_charge_limit_soft : float := 5.0.
Definition ir_change_limit : float := 0.00001.

(** The overwrite passes that close [create_step_table].  The masks the
    code computes and never uses ([mask_no_current_soft], [mask_current_up],
    [mask_galvanostatic], [mask_ir_changed]) are left out. *)
Definition check_step_type (df_steps : list step_row) : list step_row :=
  let average_current := column (fun v => avr (I_ v)) in
  let min_current := column (fun v => min (I_ v)) in
  let max_current := column (fun v => max (I_ v)) in
  let delta_current := column (fun v => delta (I_ v)) in
  let delta_voltage := column (fun v => delta (V_ v)) in
  let delta_charge := column (fun v => delta (Charge_ v)) in
  let delta_discharge := column (fun v => delta (Discharge_ v)) in
  let series (p : step_row -> bool) := map p df_steps in
  let mask_no_current_hard :=
    series (fun r => abs (max_current r) + abs (min_current r)
                     <? current_limit_value_hard) in
  let mask_voltage_down :=
    series (fun r => delta_voltage r <? - stable_voltage_limit_hard) in
  let mask_voltage_up :=
    series (fun r => stable_voltage_limit_hard <? delta_voltage r) in
  let mask_voltage_stable :=
    series (fun r => abs (delta_voltage r) <? stable_voltage_limit_hard) in
  let mask_current_down :=
    series (fun r => delta_current r <? - stable_current_limit_soft) in
  let mask_current_negative :=
    series (fun r => average_current r <? - current_limit_value_hard) in
  let mask_current_positive :=
    series (fun r => current_limit_value_hard <? average_current r) in
  let mask_charge_changed :=
    series (fun r => stable_charge_limit_hard <? abs (delta_charge r)) in
  let mask_discharge_changed :=
    series (fun r => stable_charge_limit_hard <? abs (delta_discharge r)) in
  let mask_no_change :=
    mask_and
      (mask_and
         (mask_and (series (fun r => delta_voltage r =? 0))
                   (series (fun r => delta_current r =? 0)))
         (series (fun r => delta_charge r =? 0)))
      (series (fun r => delta_discharge r =? 0)) in
  let df_steps :=
    loc_set_type (mask_and mask_no_current_hard mask_voltage_up)
                 ocvrlx_up df_steps in
  let df_steps :=
    loc_set_type (mask_and mask_no_current_hard mask_voltage_down)
                 ocvrlx_down df_steps in
  let df_steps :=
    loc_set_type (mask_and mask_discharge_changed mask_current_negative)
                 discharge df_steps in
  let df_steps :=
    loc_set_type (mask_and mask_charge_changed mask_current_positive)
                 charge df_steps in
  let df_steps :=
    loc_set_type
      (mask_and (mask_and mask_voltage_stable mask_current_negative)
                mask_current_down)
      cv_discharge df_steps in
  let df_steps :=
    loc_set_type
      (mask_and (mask_and mask_voltage_stable mask_current_positive)
                mask_current_down)
      cv_charge df_steps in
  loc_set_type mask_no_change ir df_steps.

(** [df.groupby([cycle, step]).size().shape[0]]: the number of groups. *)
Definition number_of_rows (df : list sample) : nat :=
  length (unique pair_eqb (map (fun r => (cycle_index r, step_index r)) df)).

Section StepTable.
Context {ops : SeriesOps}.

(** The two nested loops that fill [df_steps], threading the frame and
    [counter]. *)
Definition populate (df : list sample) (df_steps : list step_row)
  : result (list step_row * nat) :=
  let list_of_cycles := unique Z.eqb (map cycle_index df) in
  for_each list_of_cycles
    (fun c st =>
       let df_cycle := filter (fun r => (cycle_index r =? c)%Z) df in
       let steps := unique Z.eqb (map step_index df_cycle) in
       for_each steps
         (fun s '(df_steps, counter) =>
            let df_step := filter (fun r => (step_index r =? s)%Z) df_cycle in
            result <- _extract_step_values df_step ;;
            df_steps <- iloc_set df_steps counter c s result ;;
            Ok (df_steps, S counter))
         st)
    (df_steps, O).

(** [create_step_table] once the test is at hand: the new [dfdata] (with
    its [IR_pct_change] column) and the step table. *)
Definition make_step_table (dfdata : list sample)
  : result (list sample * list step_row) :=
  let df :=
    assign_IR_pct_change dfdata
      (series_pct_change (map internal_resistance dfdata)) in
  let df_steps := repeat empty_step_row (number_of_rows df) in
  '(df_steps, _) <- populate df df_steps ;;
  Ok (df, check_step_type df_steps).
End StepTable.

(** *** Datasets *)

(** The columns [_make_summary] derives, by their [summary_txt_*] names. *)
Record summary_columns : Type := {
  discharge_cap : list float;
  charge_cap : list float;
  cum_charge_cap : list float;
  coul_eff : list float;
  coul_diff : list float;
  cum_coul_diff : list float;
  discharge_cap_loss : list float;
  charge_cap_loss : list float;
  cum_discharge_cap_loss : list float;
  cum_charge_cap_loss : list float;
  date_time_txt : option (list string)
}.

(** [dfsummary]: the selected raw rows and, once the summary is made, the
    derived columns. *)
Record summary_frame : Type := {
  summary_rows : list sample;
  summary_derived : option summary_columns
}.

(** Class [dataset], with the attributes the summary needs. *)
Record dataset : Type := {
  mass : float;
  mass_given : bool;
  dfdata : list sample;
  dfsummary : summary_frame;
  dfsummary_made : bool;
  step_table : option (list step_row);
  step_table_made : bool
}.

Definition new_dataset : dataset :=
  {| mass := 1.0; mass_given := false; dfdata := [];
     dfsummary := {| summary_rows := []; summary_derived := None |};
     dfsummary_made := false; step_table := None;
     step_table_made := false |}.

Definition set_mass (test : dataset) (m : float) : dataset :=
  {| mass := m; mass_given := mass_given test; dfdata := dfdata test;
     dfsummary := dfsummary test; dfsummary_made := dfsummary_made test;
     step_table := step_table test;
     step_table_made := step_table_made test |}.

Definition set_step_table (test : dataset) (df : list sample)
           (df_steps : list step_row) : dataset :=
  {| mass := mass test; mass_given := mass_given test; dfdata := df;
     dfsummary := dfsummary test; dfsummary_made := dfsummary_made test;
     step_table := Some df_steps; step_table_made := true |}.

Definition set_dfsummary (test : dataset) (s : summary_frame) : dataset :=
  {| mass := mass test; mass_given := mass_given test;
     dfdata := dfdata test; dfsummary := s; dfsummary_made := true;
     step_table := step_table test;
     step_table_made := step_table_made test |}.

(** Class [cellpydata]: the list of tests, an empty test being [None]. *)
Record cellpydata : Type := {
  tests : list (option dataset);
  selected_test_number : option nat;
  ensure_step_table : bool
}.

Definition set_test (self : cellpydata) (n : nat) (test : dataset)
  : cellpydata :=
  {| tests := update_nth n (Some test) (tests self);
     selected_test_number := selected_test_number self;
     ensure_step_table := ensure_step_table self |}.

(** [_validate_test_number(n)]: the test number, or [None] for an empty
    test; [self.tests[v]] raises [IndexError] outside the list. *)
Definition _validate_test_number (self : cellpydata) (n : option nat)
  : result (option nat) :=
  let v :=
    match n with
    | Some n => n
    | None =>
        match selected_test_number self with
        | None => O
        | Some k => k
        end
    end in
  match nth_error (tests self) v with
  | None => Raise IndexError
  | Some None => Ok None
  | Some (Some _) => Ok (Some v)
  end.

(** [Series.isin(values)] and [df[mask]]. *)
Definition isin (col values : list Z) : list bool :=
  map (fun x => existsb (Z.eqb x) values) col.

Fixpoint boolean_index {A : Type} (df : list A) (mask : list bool) : list A :=
  match df, mask with
  | r :: df', b :: mask' =>
      if b then r :: boolean_index df' mask' else boolean_index df' mask'
  | _, _ => []
  end.

(** Python's [max] over integers: [ValueError] on an empty sequence. *)
Definition py_max (l : list Z) : result Z :=
  match l with
  | [] => Raise ValueError
  | x :: l' => Ok (fold_left Z.max l' x)
  end.

(** [_select_last]: a mask of the last data point of each cycle
    [1 .. max(cycle)]. *)
Definition _select_last (dfdata : list sample) : result (list bool) :=
  max_step <- py_max (map cycle_index dfdata) ;;
  steps <-
    for_each (seq 0 (Z.to_nat max_step))
      (fun j steps =>
         let in_cycle :=
           filter (fun r => (cycle_index r =? Z.of_nat j + 1)%Z) dfdata in
         last_item <- py_max (map data_point in_cycle) ;;
         Ok (steps ++ [last_item]))
      [] ;;
  Ok (isin (map data_point dfdata) steps).

Fixpoint series_sub (a b : list float) : list float :=
  match a, b with
  | x :: a', y :: b' => (x - y) :: series_sub a' b'
  | _, _ => []
  end.

(** The loop that fills a capacity-loss column: the column starts as a
    copy of the capacity column and row [j] is overwritten with the drop
    from row [j - 1] ([0.0] for the first row). *)
Definition capacity_loss (capacity : list float) : list float :=
  fold_left
    (fun loss j =>
       let value :=
         match j with
         | O => 0.0
         | S j' => nth j' capacity nan - nth j capacity nan
         end in
       update_nth j value loss)
    (seq 0 (List.length capacity))
    capacity.

Section Summary.
Context {ops : SeriesOps}.

(** [create_step_table(test_number)]. *)
Definition create_step_table (self : cellpydata) (test_number : option nat)
  : result cellpydata :=
  n <- _validate_test_number self test_number ;;
  match n with
  | None => Ok self
  | Some n =>
      match nth n (tests self) None with
      | None => Ok self
      | Some test =>
          '(df, df_steps) <- make_step_table (dfdata test) ;;
          Ok (set_test self n (set_step_table test df df_steps))
      end
  end.

(** The derived columns of the summary, in the order the code inserts
    them, from the selected rows and the mass.  The loop that converts the
    dates comes last and stops at the first stamp that cannot be
    converted. *)
Definition derive_columns (rows : list sample) (mass : float)
           (convert_date : bool) : result summary_columns :=
  let discharge_capacity :=
    map (fun r => discharge_capacity r * 1000000 / mass) rows in
  let charge_capacity :=
    map (fun r => charge_capacity r * 1000000 / mass) rows in
  let charge_capacity_cumsum := series_cumsum charge_capacity in
  let col_eff :=
    map (fun r => 100.0 * CellReader.charge_capacity r
                  / CellReader.discharge_capacity r) rows in
  let col_diff := series_sub charge_capacity discharge_capacity in
  let col_diff_cumsum := series_cumsum col_diff in
  let col_discharge_loss := capacity_loss discharge_capacity in
  let col_charge_loss := capacity_loss charge_capacity in
  date_time_txt <-
    (if convert_date
     then
       newstamps <-
         for_each rows
           (fun r newstamps =>
              newstamp <- xldate_to_string (datetime r) ;;
              Ok (newstamps ++ [newstamp]))
           [] ;;
       Ok (Some newstamps)
     else Ok None) ;;
  Ok
  {| discharge_cap := discharge_capacity;
     charge_cap := charge_capacity;
     cum_charge_cap := charge_capacity_cumsum;
     coul_eff := col_eff;
     coul_diff := col_diff;
     cum_coul_diff := col_diff_cumsum;
     discharge_cap_loss := col_discharge_loss;
     charge_cap_loss := col_charge_loss;
     cum_discharge_cap_loss := series_cumsum col_discharge_loss;
     cum_charge_cap_loss := series_cumsum col_charge_loss;
     date_time_txt := date_time_txt |}.

(** [_make_summary], with the optional extractions ([find_ocv],
    [find_ir], [find_end_voltage]) at their default, off; the choice and
    order of columns ([select_columns], [sort_my_columns]) has no
    counterpart in a record. *)
Definition _make_summary (self : cellpydata) (test_number : option nat)
           (mass : option float) (update_it convert_date
            use_cellpy_stat_file ensure_step_table : bool)
  : result cellpydata :=
  n <- _validate_test_number self test_number ;;
  match n with
  | None => Ok self
  | Some n =>
      match nth n (tests self) None with
      | None => Ok self
      | Some test =>
          let '(mass, self) :=
            match mass with
            | None => (CellReader.mass test, self)
            | Some m =>
                if m =? 0 then (CellReader.mass test, self)
                else (m, if update_it
                         then set_test self n (set_mass test m)
                         else self)
            end in
          self <-
            (if ensure_step_table
             then
               match nth n (tests self) None with
               | Some test =>
                   if step_table_made test then Ok self
                   else create_step_table self (Some n)
               | None => Ok self
               end
             else Ok self) ;;
          match nth n (tests self) None with
          | None => Ok self
          | Some test =>
              let summary_df := dfsummary test in
              let dfdata := dfdata test in
              summary_requirment <-
                (if use_cellpy_stat_file
                 then Ok (isin (map data_point dfdata)
                               (map data_point (summary_rows summary_df)))
                 else _select_last dfdata) ;;
              let rows := boolean_index dfdata summary_requirment in
              derived <- derive_columns rows mass convert_date ;;
              let dfsummary :=
                {| summary_rows := rows; summary_derived := Some derived |} in
              Ok (set_test self n (set_dfsummary test dfsummary))
          end
      end
  end.

(** [make_summary]: every test in turn ([all_tests]), stopping at the
    first empty one, or one validated test.  No mass is passed on.  The
    text the method prints on the way is not modelled. *)
Definition make_summary (self : cellpydata)
           (use_cellpy_stat_file all_tests : bool) (test_number : nat)
           (ensure_step_table : option bool) : result cellpydata :=
  let ensure_step_table :=
    match ensure_step_table with
    | None => CellReader.ensure_step_table self
    | Some b => b
    end in
  if all_tests then
    (fix loop (js : list nat) (self : cellpydata) : result cellpydata :=
       match js with
       | [] => Ok self
       | j :: js' =>
           match nth j (tests self) None with
           | None => Ok self
           | Some _ =>
               self <- _make_summary self (Some j) None false true
                         use_cellpy_stat_file ensure_step_table ;;
               loop js' self
           end
       end) (seq 0 (List.length (tests self))) self
  else
    _make_summary self (Some test_number) None false true
      use_cellpy_stat_file ensure_step_table.
End Summary.

End CellReader.

(** ** cellpy/utils/ica.py *)

Module Ica.

(** NumPy and SciPy as the converter calls them.  A call that can raise
    returns a [result]. *)
Class SciPy : Type := {
  np_mean : list float -> float;
  np_median : list float -> float;
  np_amin : list float -> result float;
  np_amax : list float -> result float;
  np_linspace : float -> float -> nat -> list float;
  np_split : list float -> Z -> result (list (list float));
  (** the [_std_err] component of [stats.linregress(c, v)] *)
  linregress : list float -> list float -> result float;
  (** [interp1d(x, y, kind, ...)], an interpolant to call on new points;
      the fourth argument is [fill_value] under [bounds_error=False],
      [None] for the default (out-of-range points raise) *)
  interp1d : list float -> list float -> string -> option float ->
             result (list float -> result (list float));
  savgol_filter : list float -> Z -> Z -> result (list float);
  gaussian_filter1d : list float -> float -> Z -> string -> float -> float ->
                      result (list float);
  simps : list float -> list float -> result float
}.

(** [np.ediff1d(x)] (and [np.diff(x)] on a vector): successive
    differences. *)
Fixpoint ediff1d (x : list float) : list float :=
  match x with
  | a :: ((b :: _) as x') => (b - a) :: ediff1d x'
  | _ => []
  end.

(** The settings of [Converter.__init__]. *)
Record settings : Type := {
  points_pr_split : Z;
  minimum_splits : Z;
  interpolation_method : string;
  increment_method : string;
  pre_smoothing : bool;
  smoothing : bool;
  post_smoothing : bool;
  savgol_filter_window_divisor_default : Z;
  savgol_filter_window_order : Z;
  voltage_fwhm : float;
  gaussian_order : Z;
  gaussian_mode : string;
  gaussian_cval : float;
  gaussian_truncate : float;
  normalise : bool;
  fixed_voltage_range : option (float * float * nat)
}.

Definition default_settings : settings :=
  {| points_pr_split := 10;
     minimum_splits := 3;
     interpolation_method := "linear";
     increment_method := "diff";
     pre_smoothing := true;
     smoothing := true;
     post_smoothing := true;
     savgol_filter_window_divisor_default := 50;
     savgol_filter_window_order := 3;
     voltage_fwhm := 0.01;
     gaussian_order := 0;
     gaussian_mode := "reflect";
     gaussian_cval := 0.0;
     gaussian_truncate := 4.0;
     normalise := true;
     fixed_voltage_range := None |}.

(** What [inspect_data] records. *)
Record inspection : Type := {
  normalising_factor : option float;
  d_capacity_mean : option float;
  d_voltage_mean : option float;
  len_capacity : option nat;
  len_voltage : option nat;
  min_capacity : option float;
  max_capacity : option float;
  start_capacity : option float;
  end_capacity : option float;
  number_of_points : option nat;
  std_err_median : option float;
  std_err_mean : option float
}.

Definition no_inspection : inspection :=
  {| normalising_factor := None; d_capacity_mean := None;
     d_voltage_mean := None; len_capacity := None; len_voltage := None;
     min_capacity := None; max_capacity := None; start_capacity := None;
     end_capacity := None; number_of_points := None;
     std_err_median := None; std_err_mean := None |}.

(** A [Converter] instance; an attribute still [None] is [None]. *)
Record Converter : Type := {
  prm : settings;
  capacity : option (list float);
  voltage : option (list float);
  capacity_preprocessed : option (list float);
  voltage_preprocessed : option (list float);
  capacity_inverted : option (list float);
  voltage_inverted : option (list float);
  incremental_capacity : option (list float);
  _incremental_capacity : option (list float);
  voltage_processed : option (list float);
  voltage_inverted_step : option float;
  seen : inspection;
  errors : list string
}.

Definition new_converter (p : settings) : Converter :=
  {| prm := p; capacity := None; voltage := None;
     capacity_preprocessed := None; voltage_preprocessed := None;
     capacity_inverted := None; voltage_inverted := None;
     incremental_capacity := None; _incremental_capacity := None;
     voltage_processed := None; voltage_inverted_step := None;
     seen := no_inspection; errors := [] |}.

Definition with_data (self : Converter) (q v : option (list float))
  : Converter :=
  {| prm := prm self; capacity := q; voltage := v;
     capacity_preprocessed := capacity_preprocessed self;
     voltage_preprocessed := voltage_preprocessed self;
     capacity_inverted := capacity_inverted self;
     voltage_inverted := voltage_inverted self;
     incremental_capacity := incremental_capacity self;
     _incremental_capacity := _incremental_capacity self;
     voltage_processed := voltage_processed self;
     voltage_inverted_step := voltage_inverted_step self;
     seen := seen self; errors := errors self |}.

Definition with_inspection (self : Converter) (i : inspection)
           (errs : list string) : Converter :=
  {| prm := prm self; capacity := capacity self; voltage := voltage self;
     capacity_preprocessed := capacity_preprocessed self;
     voltage_preprocessed := voltage_preprocessed self;
     capacity_inverted := capacity_inverted self;
     voltage_inverted := voltage_inverted self;
     incremental_capacity := incremental_capacity self;
     _incremental_capacity := _incremental_capacity self;
     voltage_processed := voltage_processed self;
     voltage_inverted_step := voltage_inverted_step self;
     seen := i; errors := errs |}.

Definition with_preprocessed (self : Converter) (q v : list float)
  : Converter :=
  {| prm := prm self; capacity := capacity self; voltage := voltage self;
     capacity_preprocessed := Some q;
     voltage_preprocessed := Some v;
     capacity_inverted := capacity_inverted self;
     voltage_inverted := voltage_inverted self;
     incremental_capacity := incremental_capacity self;
     _incremental_capacity := _incremental_capacity self;
     voltage_processed := voltage_processed self;
     voltage_inverted_step := voltage_inverted_step self;
     seen := seen self; errors := errors self |}.

Definition with_inverted (self : Converter) (v : list float) (v_step : float)
           (q : list float) : Converter :=
  {| prm := prm self; capacity := capacity self; voltage := voltage self;
     capacity_preprocessed := capacity_preprocessed self;
     voltage_preprocessed := voltage_preprocessed self;
     capacity_inverted := Some q;
     voltage_inverted := Some v;
     incremental_capacity := incremental_capacity self;
     _incremental_capacity := _incremental_capacity self;
     voltage_processed := voltage_processed self;
     voltage_inverted_step := Some v_step;
     seen := seen self; errors := errors self |}.

Definition with_increment (self : Converter) (dq v : list float)
  : Converter :=
  {| prm := prm self; capacity := capacity self; voltage := voltage self;
     capacity_preprocessed := capacity_preprocessed self;
     voltage_preprocessed := voltage_preprocessed self;
     capacity_inverted := capacity_inverted self;
     voltage_inverted := voltage_inverted self;
     incremental_capacity := Some dq;
     _incremental_capacity := Some dq;
     voltage_processed := Some v;
     voltage_inverted_step := voltage_inverted_step self;
     seen := seen self; errors := errors self |}.

Definition with_incremental_capacity (self : Converter) (dq : list float)
  : Converter :=
  {| prm := prm self; capacity := capacity self; voltage := voltage self;
     capacity_preprocessed := capacity_preprocessed self;
     voltage_preprocessed := voltage_preprocessed self;
     capacity_inverted := capacity_inverted self;
     voltage_inverted := voltage_inverted self;
     incremental_capacity := Some dq;
     _incremental_capacity := _incremental_capacity self;
     voltage_processed := voltage_processed self;
     voltage_inverted_step := voltage_inverted_step self;
     seen := seen self; errors := errors self |}.

Definition with_fixed_range (self : Converter) (dq v : list float)
  : Converter :=
  {| prm := prm self; capacity := capacity self; voltage := voltage self;
     capacity_preprocessed := capacity_preprocessed self;
     voltage_preprocessed := voltage_preprocessed self;
     capacity_inverted := capacity_inverted self;
     voltage_inverted := voltage_inverted self;
     incremental_capacity := Some dq;
     _incremental_capacity := _incremental_capacity self;
     voltage_processed := Some v;
     voltage_inverted_step := voltage_inverted_step self;
     seen := seen self; errors := errors self |}.

Definition with_settings (self : Converter) (p : settings) : Converter :=
  {| prm := p; capacity := capacity self; voltage := voltage self;
     capacity_preprocessed := capacity_preprocessed self;
     voltage_preprocessed := voltage_preprocessed self;
     capacity_inverted := capacity_inverted self;
     voltage_inverted := voltage_inverted self;
     incremental_capacity := incremental_capacity self;
     _incremental_capacity := _incremental_capacity self;
     voltage_processed := voltage_processed self;
     voltage_inverted_step := voltage_inverted_step self;
     seen := seen self; errors := errors self |}.

(** An attribute that is still [None] where an array or number is
    needed. *)
Definition need {A : Type} (x : option A) : result A :=
  match x with
  | Some a => Ok a
  | None => Raise TypeError
  end.

(** *** set_data *)

(** The first argument of [set_data]: a DataFrame with the two labelled
    columns, or a plain sequence. *)
Inductive capacity_arg : Type :=
| DataFrame (rows : list (float * float))
| Sequence (capacity : list float).

Definition set_data (self : Converter) (capacity : capacity_arg)
           (voltage : option (list float)) : result Converter :=
  match capacity with
  | DataFrame rows =>
      Ok (with_data self (Some (map fst rows)) (Some (map snd rows)))
  | Sequence capacity =>
      voltage_seq <- need voltage ;;
      if Nat.eqb (List.length capacity) (List.length voltage_seq)
      then Ok (with_data self (Some capacity) voltage)
      else Raise AssertionError
  end.

(** [x.iloc[0], x.iloc[-1]]. *)
Definition index_bounds (x : list float) : result (float * float) :=
  match x with
  | [] => Raise IndexError
  | a :: _ => Ok (a, List.last x a)
  end.

(** Python's [a / b] on two integers. *)
Definition int_truediv (a b : Z) : result float :=
  if (b =? 0)%Z then Raise ZeroDivisionError
  else Ok (float_of_Z a / float_of_Z b).

Definition set_post_smoothing (p : settings) (b : bool) : settings :=
  {| points_pr_split := points_pr_split p;
     minimum_splits := minimum_splits p;
     interpolation_method := interpolation_method p;
     increment_method := increment_method p;
     pre_smoothing := pre_smoothing p;
     smoothing := smoothing p;
     post_smoothing := b;
     savgol_filter_window_divisor_default :=
       savgol_filter_window_divisor_default p;
     savgol_filter_window_order := savgol_filter_window_order p;
     voltage_fwhm := voltage_fwhm p;
     gaussian_order := gaussian_order p;
     gaussian_mode := gaussian_mode p;
     gaussian_cval := gaussian_cval p;
     gaussian_truncate := gaussian_truncate p;
     normalise := normalise p;
     fixed_voltage_range := fixed_voltage_range p |}.

Section Stages.
Context {lib : SciPy}.

(** The Savitzky-Golay window both smoothing steps compute from the
    number of points: [int(n / min(50, n_div / 5))], made odd, at
    least 3. *)
Definition savgol_window (p : settings) (n n_div : nat) : result Z :=
  savgol_filter_window_divisor <-
    np_amin [float_of_Z (savgol_filter_window_divisor_default p);
             float_of_nat n_div / 5] ;;
  savgol_filter_window_length <-
    py_int (float_of_nat n / savgol_filter_window_divisor) ;;
  let savgol_filter_window_length :=
    if (savgol_filter_window_length mod 2 =? 0)%Z
    then (savgol_filter_window_length - 1)%Z
    else savgol_filter_window_length in
  Ok (Z.max 3 savgol_filter_window_length).

(** *** inspect_data

    An exception leaves the attributes assigned before it on the
    instance; here the instance is simply lost with the [Raise]. *)
Definition inspect_data (self : Converter)
           (capacity voltage : option (list float)) : result Converter :=
  let capacity :=
    match capacity with None => Ica.capacity self | Some _ => capacity end in
  let voltage :=
    match voltage with None => Ica.voltage self | Some _ => voltage end in
  match capacity, voltage with
  | Some capacity, Some voltage =>
      let len_capacity := List.length capacity in
      let len_voltage := List.length voltage in
      if (len_capacity <=? 1)%nat then Raise NullData
      else if (len_voltage <=? 1)%nat then Raise NullData
      else
        let d_capacity := ediff1d capacity in
        let d_voltage := ediff1d voltage in
        min_capacity <- np_amin capacity ;;
        max_capacity <- np_amax capacity ;;
        '(start_capacity, end_capacity) <- index_bounds capacity ;;
        let number_of_points := List.length capacity in
        q <- int_truediv (Z.of_nat number_of_points)
               (points_pr_split (prm self)) ;;
        splits <- py_int q ;;
        let rest :=
          (Z.of_nat number_of_points mod points_pr_split (prm self))%Z in
        '(std_err_median, std_err_mean, errors) <-
          (if (splits <? minimum_splits (prm self))%Z
           then Ok (Ica.std_err_median (seen self),
                    Ica.std_err_mean (seen self),
                    errors self ++ ["splitting: to few points"%string])
           else
             let keep := (number_of_points - Z.to_nat rest)%nat in
             let _cap :=
               if (0 <? rest)%Z then firstn keep capacity else capacity in
             let _vol :=
               if (0 <? rest)%Z then firstn keep voltage else voltage in
             c_pieces <- np_split _cap splits ;;
             v_pieces <- np_split _vol splits ;;
             std_err <-
               for_each (combine c_pieces v_pieces)
                 (fun cv std_err =>
                    _std_err <- linregress (fst cv) (snd cv) ;;
                    Ok (std_err ++ [_std_err]))
                 [] ;;
             Ok (Some (np_median std_err), Some (np_mean std_err),
                 errors self)) ;;
        let errors :=
          if negb (start_capacity =? min_capacity)
          then errors ++ ["capacity: start<>min"%string] else errors in
        let errors :=
          if negb (end_capacity =? max_capacity)
          then errors ++ ["capacity: end<>max"%string] else errors in
        Ok (with_inspection self
              {| normalising_factor := Some end_capacity;
                 d_capacity_mean := Some (np_mean d_capacity);
                 d_voltage_mean := Some (np_mean d_voltage);
                 len_capacity := Some len_capacity;
                 len_voltage := Some len_voltage;
                 min_capacity := Some min_capacity;
                 max_capacity := Some max_capacity;
                 start_capacity := Some start_capacity;
                 end_capacity := Some end_capacity;
                 number_of_points := Some number_of_points;
                 std_err_median := std_err_median;
                 std_err_mean := std_err_mean |}
              errors)
  | _, _ => Raise NullData
  end.

(** *** pre_process_data *)
Definition pre_process_data (self : Converter) : result Converter :=
  capacity <- need (capacity self) ;;
  voltage <- need (voltage self) ;;
  f <- interp1d capacity voltage (interpolation_method (prm self)) None ;;
  '(c1, c2) <- index_bounds capacity ;;
  len_capacity <- need (len_capacity (seen self)) ;;
  let capacity_preprocessed := np_linspace c1 c2 len_capacity in
  voltage_preprocessed <- f capacity_preprocessed ;;
  voltage_preprocessed <-
    (if pre_smoothing (prm self)
     then
       savgol_filter_window_length <-
         savgol_window (prm self) len_capacity len_capacity ;;
       savgol_filter voltage_preprocessed savgol_filter_window_length
         (savgol_filter_window_order (prm self))
     else Ok voltage_preprocessed) ;;
  Ok (with_preprocessed self capacity_preprocessed voltage_preprocessed).

(** *** increment_data *)
Definition increment_data (self : Converter) : result Converter :=
  voltage_preprocessed <- need (voltage_preprocessed self) ;;
  let len_voltage := List.length voltage_preprocessed in
  v1 <- np_amin voltage_preprocessed ;;
  v2 <- np_amax voltage_preprocessed ;;
  capacity_preprocessed <- need (capacity_preprocessed self) ;;
  f <- interp1d voltage_preprocessed capacity_preprocessed
         (interpolation_method (prm self)) None ;;
  let voltage_inverted := np_linspace v1 v2 len_voltage in
  let voltage_inverted_step :=
    (v2 - v1)
    / float_of_Z (Z.of_nat (List.length voltage_inverted) - 1) in
  capacity_inverted <- f voltage_inverted ;;
  capacity_inverted <-
    (if smoothing (prm self)
     then
       savgol_filter_window_length <-
         savgol_window (prm self) (List.length voltage_inverted)
           len_voltage ;;
       savgol_filter capacity_inverted savgol_filter_window_length
         (savgol_filter_window_order (prm self))
     else Ok capacity_inverted) ;;
  let self :=
    with_inverted self voltage_inverted voltage_inverted_step
      capacity_inverted in
  if String.eqb (increment_method (prm self)) "diff"
  then
    let incremental_capacity :=
      map (fun dq => dq / voltage_inverted_step)
          (ediff1d capacity_inverted) in
    let voltage_processed :=
      map (fun v => v + 0.5 * voltage_inverted_step)
          (List.tl voltage_inverted) in
    Ok (with_increment self incremental_capacity voltage_processed)
  else Ok self.

(** *** post_process_data *)
Definition post_process_data (self : Converter)
           (voltage incremental_capacity : option (list float))
           (voltage_step : option float) : result Converter :=
  let '(voltage, incremental_capacity, voltage_step) :=
    match voltage with
    | None => (voltage_processed self, Ica.incremental_capacity self,
               voltage_inverted_step self)
    | Some _ => (voltage, incremental_capacity, voltage_step)
    end in
  self <-
    (if post_smoothing (prm self)
     then
       voltage_step <- need voltage_step ;;
       points_fwhm <- py_int (voltage_fwhm (prm self) / voltage_step) ;;
       sigma <- np_amax [2; float_of_Z points_fwhm / 2] ;;
       incremental_capacity <- need incremental_capacity ;;
       smoothed <-
         gaussian_filter1d incremental_capacity sigma
           (gaussian_order (prm self)) (gaussian_mode (prm self))
           (gaussian_cval (prm self)) (gaussian_truncate (prm self)) ;;
       Ok (with_incremental_capacity self smoothed)
     else Ok self) ;;
  self <-
    (if normalise (prm self)
     then
       incremental_capacity <- need incremental_capacity ;;
       voltage <- need voltage ;;
       area <- simps incremental_capacity voltage ;;
       normalising_factor <- need (normalising_factor (seen self)) ;;
       Ok (with_incremental_capacity self
             (map (fun dq => dq * normalising_factor / abs area)
                  incremental_capacity))
     else Ok self) ;;
  match fixed_voltage_range (prm self) with
  | Some (v1, v2, number_of_points) =>
      let v := np_linspace v1 v2 number_of_points in
      x <- need (voltage_processed self) ;;
      y <- need (Ica.incremental_capacity self) ;;
      f <- interp1d x y (interpolation_method (prm self)) (Some nan) ;;
      incremental_capacity <- f v ;;
      Ok (with_fixed_range self incremental_capacity v)
  | None => Ok self
  end.
End Stages.

End Ica.

(** ** Plain instances and example data

    The proofs below hold for every [SeriesOps] and [SciPy].  To run the
    model on concrete inputs, these instances compute the reductions in the
    plainest way (left to right); the [SciPy] one interpolates by looking
    the nodes up, leaves the filters out and integrates by the trapezoid
    rule. *)

Module Examples.
Import CellReader Ica.

Definition fsum (l : list float) : float := fold_left PrimFloat.add l 0.

Definition fmax (l : list float) : float :=
  match l with
  | [] => nan
  | x :: l' => fold_left (fun m y => if m <? y then y else m) l' x
  end.

Definition fmin (l : list float) : float :=
  match l with
  | [] => nan
  | x :: l' => fold_left (fun m y => if y <? m then y else m) l' x
  end.

Definition fmean (l : list float) : float :=
  fsum l / float_of_nat (List.length l).

Definition fstd (l : list float) : float :=
  let m := fmean l in
  sqrt (fsum (map (fun x => (x - m) * (x - m)) l)
        / float_of_Z (Z.of_nat (List.length l) - 1)).

Fixpoint running_sum (acc : float) (l : list float) : list float :=
  match l with
  | [] => []
  | x :: l' => (acc + x) :: running_sum (acc + x) l'
  end.

Fixpoint ratios (prev : float) (l : list float) : list float :=
  match l with
  | [] => []
  | x :: l' => (x / prev - 1) :: ratios x l'
  end.

Definition plain_ops : SeriesOps :=
  {| series_mean := fmean;
     series_std := fstd;
     series_max := fmax;
     series_min := fmin;
     series_pct_change :=
       fun l => match l with [] => [] | x :: l' => nan :: ratios x l' end;
     series_cumsum := running_sum 0;
     xldate_to_string := fun _ => Ok EmptyString |}.

Fixpoint lookup (x y : list float) (x_new : float) : option float :=
  match x, y with
  | a :: x', b :: y' => if a =? x_new then Some b else lookup x' y' x_new
  | _, _ => None
  end.

Fixpoint lookup_all (x y : list float) (fill_value : option float)
         (x_new : list float) : result (list float) :=
  match x_new with
  | [] => Ok []
  | a :: x_new' =>
      ys <- lookup_all x y fill_value x_new' ;;
      match lookup x y a, fill_value with
      | Some b, _ => Ok (b :: ys)
      | None, Some b => Ok (b :: ys)
      | None, None => Raise ValueError
      end
  end.

Fixpoint trapezoid (y x : list float) : float :=
  match y, x with
  | y0 :: ((y1 :: _) as y'), x0 :: ((x1 :: _) as x') =>
      (x1 - x0) * (y0 + y1) / 2 + trapezoid y' x'
  | _, _ => 0
  end.

Definition plain_scipy : SciPy :=
  {| np_mean := fmean;
     np_median := fmean;
     np_amin := fun l => match l with [] => Raise ValueError | _ => Ok (fmin l) end;
     np_amax := fun l => match l with [] => Raise ValueError | _ => Ok (fmax l) end;
     np_linspace :=
       fun a b n =>
         map (fun i => a + float_of_nat i
                           * ((b - a) / float_of_Z (Z.of_nat n - 1)))
             (seq 0 n);
     np_split := fun l _ => Ok [l];
     linregress := fun _ _ => Ok 0;
     interp1d := fun x y _ fill_value => Ok (lookup_all x y fill_value);
     savgol_filter := fun x _ _ => Ok x;
     gaussian_filter1d := fun x _ _ _ _ _ => Ok x;
     simps := fun y x => Ok (trapezoid y x) |}.

(** A row of the time series: data point, cycle, step, step time, current,
    voltage, charge and discharge capacity. *)
Definition sample_at (p c s : Z) (t i v q d : float) : sample :=
  {| data_point := p; cycle_index := c; step_index := s;
     step_time := t; test_time := t; datetime := 42000;
     current := i; CellReader.voltage := v;
     charge_capacity := q; discharge_capacity := d;
     charge_energy := 0; discharge_energy := 0;
     internal_resistance := 0; IR_pct_change := None |}.

(** A rest step: no current, the voltage creeping from 4.0 V to
    4.03125 V (0.78 percent) in ten seconds. *)
Definition rest_step : list sample :=
  [sample_at 1 1 1 0 0 4.0 0 0; sample_at 2 1 1 10 0 4.03125 0 0].

(** A single logged row, as an internal-resistance pulse is. *)
Definition pulse_step : list sample :=
  [sample_at 1 1 1 0 0 3.5 0 0].

(** The row of the step table such a pulse gives: nothing moves. *)
Definition still (x : float) : descriptors :=
  {| avr := x; std := nan; max := x; min := x; start := x; end_ := x;
     delta := 0; rate := nan |}.

Definition pulse_row : step_row :=
  {| cycle := Some 1%Z; step := Some 1%Z;
     values :=
       Some {| I_ := still 0; V_ := still 3.5; Charge_ := still 0;
               Discharge_ := still 0; IR := 0; IR_change := nan |};
     type := None; info := None |}.

(** A step whose current doubles from 1 A to 2 A in ten seconds. *)
Definition ramp_step : list sample :=
  [set_IR_pct_change (sample_at 1 1 1 0 1 3.5 0 0) nan;
   set_IR_pct_change (sample_at 2 1 1 10 2 3.5 0 0) nan].

(** Three cycles, the last data point of each carrying the capacities of
    the cycle; the tester's statistics name data points 2, 4 and 6. *)
Definition three_cycles : list sample :=
  [sample_at 1 1 1 0 1 3.5 0.001953125 0;
   sample_at 2 1 2 0 (-1) 3.0 0.001953125 0.0009765625;
   sample_at 3 2 1 0 1 3.5 0.0009765625 0;
   sample_at 4 2 2 0 (-1) 3.0 0.0009765625 0.00048828125;
   sample_at 5 3 1 0 1 3.5 0.00048828125 0;
   sample_at 6 3 2 0 (-1) 3.0 0.00048828125 0.000244140625].

Definition three_cycle_test : dataset :=
  {| mass := 2.0; mass_given := true; dfdata := three_cycles;
     dfsummary :=
       {| summary_rows :=
            [sample_at 2 1 2 0 0 0 0 0; sample_at 4 2 2 0 0 0 0 0;
             sample_at 6 3 2 0 0 0 0 0];
          summary_derived := None |};
     dfsummary_made := false; step_table := None;
     step_table_made := false |}.

Definition one_test : cellpydata :=
  {| tests := [Some three_cycle_test]; selected_test_number := None;
     ensure_step_table := false |}.

(** A converter after [pre_process_data] on the curve Q = 10 V over
    V = 1, 2, 3, with the second smoothing off. *)
Definition ramp_settings : settings :=
  {| points_pr_split := 10; minimum_splits := 3;
     interpolation_method := "linear"; increment_method := "diff";
     pre_smoothing := false; smoothing := false; post_smoothing := true;
     savgol_filter_window_divisor_default := 50;
     savgol_filter_window_order := 3; voltage_fwhm := 0.01;
     gaussian_order := 0; gaussian_mode := "reflect";
     gaussian_cval := 0.0; gaussian_truncate := 4.0;
     normalise := true; fixed_voltage_range := None |}.

Definition ramp_preprocessed : Converter :=
  with_preprocessed (new_converter ramp_settings) [10; 20; 30] [1; 2; 3].

(** The same curve after [increment_data], as the model computes it, with
    the end capacity of 30 for the area. *)
Definition ramp_incremented : Converter :=
  {| prm := ramp_settings; capacity := Some [10; 20; 30];
     voltage := Some [1; 2; 3];
     capacity_preprocessed := Some [10; 20; 30];
     voltage_preprocessed := Some [1; 2; 3];
     capacity_inverted := Some [10; 20; 30];
     voltage_inverted := Some [1; 2; 3];
     incremental_capacity := Some [10; 10];
     _incremental_capacity := Some [10; 10];
     voltage_processed := Some [2.5; 3.5];
     voltage_inverted_step := Some 1;
     seen :=
       {| normalising_factor := Some 30; d_capacity_mean := Some 10;
          d_voltage_mean := Some 1; len_capacity := Some 3%nat;
          len_voltage := Some 3%nat; min_capacity := Some 10;
          max_capacity := Some 30; start_capacity := Some 10;
          end_capacity := Some 30; number_of_points := Some 3%nat;
          std_err_median := None; std_err_mean := None |};
     errors := ["splitting: to few points"%string] |}.

(** A converter after [increment_data] on a curve whose voltage never
    moves: the grid step is 0 and the quotient is undefined. *)
Definition flat_incremented : Converter :=
  {| prm := default_settings; capacity := Some [0; 1; 2];
     voltage := Some [3.5; 3.5; 3.5];
     capacity_preprocessed := Some [0; 1; 2];
     voltage_preprocessed := Some [3.5; 3.5; 3.5];
     capacity_inverted := Some [nan; nan; nan];
     voltage_inverted := Some [3.5; 3.5; 3.5];
     incremental_capacity := Some [nan; nan];
     _incremental_capacity := Some [nan; nan];
     voltage_processed := Some [3.5; 3.5];
     voltage_inverted_step := Some 0;
     seen :=
       {| normalising_factor := Some 2; d_capacity_mean := Some 1;
          d_voltage_mean := Some 0; len_capacity := Some 3%nat;
          len_voltage := Some 3%nat; min_capacity := Some 0;
          max_capacity := Some 2; start_capacity := Some 0;
          end_capacity := Some 2; number_of_points := Some 3%nat;
          std_err_median := None; std_err_mean := None |};
     errors := ["splitting: to few points"%string] |}.

End Examples.

(** ** The step table, seen pair by pair and row by row

    What the proofs about [make_step_table] speak of: the (cycle, step)
    pairs in the order the loops visit them, the slice of a pair, and the
    label the overwrite passes leave on one row. *)

Module StepTableView.
Import CellReader.

Definition key (r : sample) : Z * Z := (cycle_index r, step_index r).

Definition in_cycle (c : Z) (df : list sample) : list sample :=
  filter (fun r => (cycle_index r =? c)%Z) df.

Definition group (df : list sample) (p : Z * Z) : list sample :=
  filter (fun r => (step_index r =? snd p)%Z) (in_cycle (fst p) df).

Definition visited (df : list sample) : list (Z * Z) :=
  flat_map
    (fun c => map (pair c) (unique Z.eqb (map step_index (in_cycle c df))))
    (unique Z.eqb (map cycle_index df)).

Definition delta_current := column (fun v => delta (I_ v)).
Definition delta_voltage := column (fun v => delta (V_ v)).
Definition delta_charge := column (fun v => delta (Charge_ v)).
Definition delta_discharge := column (fun v => delta (Discharge_ v)).
Definition average_current := column (fun v => avr (I_ v)).

Definition no_current_hard (r : step_row) : bool :=
  abs (column (fun v => max (I_ v)) r) + abs (column (fun v => min (I_ v)) r)
  <? current_limit_value_hard.
Definition voltage_down (r : step_row) : bool :=
  delta_voltage r <? - stable_voltage_limit_hard.
Definition voltage_up (r : step_row) : bool :=
  stable_voltage_limit_hard <? delta_voltage r.
Definition voltage_stable (r : step_row) : bool :=
  abs (delta_voltage r) <? stable_voltage_limit_hard.
Definition current_down (r : step_row) : bool :=
  delta_current r <? - stable_current_limit_soft.
Definition current_negative (r : step_row) : bool :=
  average_current r <? - current_limit_value_hard.
Definition current_positive (r : step_row) : bool :=
  current_limit_value_hard <? average_current r.
Definition charge_changed (r : step_row) : bool :=
  stable_charge_limit_hard <? abs (delta_charge r).
Definition discharge_changed (r : step_row) : bool :=
  stable_charge_limit_hard <? abs (delta_discharge r).
Definition no_change (r : step_row) : bool :=
  (delta_voltage r =? 0) && (delta_current r =? 0)
  && (delta_charge r =? 0) && (delta_discharge r =? 0).

(** The label one row ends with: the last pass whose mask holds wins, and
    a row no mask holds for keeps what it had. *)
Definition final_type (r : step_row) : option step_type :=
  if no_change r then Some ir
  else if voltage_stable r && current_positive r && current_down r
  then Some cv_charge
  else if voltage_stable r && current_negative r && current_down r
  then Some cv_discharge
  else if charge_changed r && current_positive r then Some charge
  else if discharge_changed r && current_negative r then Some discharge
  else if no_current_hard r && voltage_down r then Some ocvrlx_down
  else if no_current_hard r && voltage_up r then Some ocvrlx_up
  else type r.

Definition classify (r : step_row) : step_row :=
  {| cycle := cycle r; step := step r; values := values r;
     type := final_type r; info := info r |}.

Definition key_eq_dec (p q : Z * Z) : {p = q} + {p <> q}.
Proof. decide equality; apply Z.eq_dec. Defined.

(** The number of distinct (cycle, step) pairs of a time series. *)
Definition distinct_pairs (df : list sample) : nat :=
  List.length (nodup key_eq_dec (map key df)).

Section View.
Context {ops : SeriesOps}.

(** The body of the inner loop, for the pair [p]. *)
Definition step_body (df : list sample) (p : Z * Z)
           (st : list step_row * nat) : result (list step_row * nat) :=
  let '(df_steps, counter) := st in
  result <- _extract_step_values (group df p) ;;
  df_steps <- iloc_set df_steps counter (fst p) (snd p) result ;;
  Ok (df_steps, S counter).

(** A row as the loop leaves it. *)
Definition filled (df : list sample) (p : Z * Z) (r : step_row) : Prop :=
  cycle r = Some (fst p) /\ step r = Some (snd p) /\
  (exists v, _extract_step_values (group df p) = Ok v /\ values r = Some v) /\
  type r = None /\ info r = None.

Definition with_IR_pct_change (dfdata : list sample) : list sample :=
  assign_IR_pct_change dfdata
    (series_pct_change (map internal_resistance dfdata)).

End View.

End StepTableView.

(** ** The summary, seen from one test

    What [_make_summary] normalises by, the rows it selects from, and the
    selection itself. *)

Module SummaryView.
Import CellReader StepTableView.

(** [loss] is the cycle-over-cycle loss of the column [capacity]: as long,
    zero in the first row, and in row [j > 0] the capacity of row [j - 1]
    minus that of row [j]. *)
Definition is_loss_of (capacity loss : list float) : Prop :=
  List.length loss = List.length capacity
  /\ forall j, (j < List.length capacity)%nat ->
               nth j loss nan
               = match j with
                 | O => 0
                 | S j' => nth j' capacity nan - nth j capacity nan
                 end.

(** The mass the capacities are divided by: the one passed, unless it is
    missing or zero. *)
Definition effective_mass (test : dataset) (mass : option float) : float :=
  match mass with
  | None => CellReader.mass test
  | Some m => if m =? 0 then CellReader.mass test else m
  end.

Section View.
Context {ops : SeriesOps}.

(** [dfdata] when the rows are selected: with the [IR_pct_change] column if
    the step table had to be made on the way. *)
Definition summary_source (test : dataset) (ensure_step_table : bool)
  : list sample :=
  if ensure_step_table && negb (step_table_made test)
  then with_IR_pct_change (dfdata test)
  else dfdata test.

Definition selection (test : dataset)
           (ensure_step_table use_cellpy_stat_file : bool)
  : result (list bool) :=
  let dfdata := summary_source test ensure_step_table in
  if use_cellpy_stat_file
  then Ok (isin (map data_point dfdata)
                (map data_point (summary_rows (dfsummary test))))
  else _select_last dfdata.

(** The summary frame [_make_summary] builds for [test] with the mass
    [m], or the exception that stops it: the selection of the rows, then
    the derived columns. *)
Definition summary_made (test : dataset) (m : float)
           (convert_date ensure_step_table use_cellpy_stat_file : bool)
  : result summary_frame :=
  mask <- selection test ensure_step_table use_cellpy_stat_file ;;
  let rows := boolean_index (summary_source test ensure_step_table) mask in
  derived <- derive_columns rows m convert_date ;;
  Ok {| summary_rows := rows; summary_derived := Some derived |}.

(** The statements of [_make_summary] that follow the choice of the mass,
    from the state [self] and mass [m] reached there. *)
Definition summary_tail (self : cellpydata) (n : nat) (m : float)
           (convert_date use_cellpy_stat_file ensure_step_table : bool)
  : result cellpydata :=
  self <-
    (if ensure_step_table
     then
       match nth n (tests self) None with
       | Some test =>
           if step_table_made test then Ok self
           else create_step_table self (Some n)
       | None => Ok self
       end
     else Ok self) ;;
  match nth n (tests self) None with
  | None => Ok self
  | Some test =>
      let summary_df := dfsummary test in
      let dfdata := dfdata test in
      summary_requirment <-
        (if use_cellpy_stat_file
         then Ok (isin (map data_point dfdata)
                       (map data_point (summary_rows summary_df)))
         else _select_last dfdata) ;;
      let rows := boolean_index dfdata summary_requirment in
      derived <- derive_columns rows m convert_date ;;
      let dfsummary :=
        {| summary_rows := rows; summary_derived := Some derived |} in
      Ok (set_test self n (set_dfsummary test dfsummary))
  end.
End View.

End SummaryView.

(** ** cellpy/readers/cellreader.py: columns, masses and step numbers

    Methods of [cellpydata] around the step table and the summary: the
    order of the summary's columns, the masses of the tests, and the lookup
    of step numbers by type. *)

Module CellReaderMethods.
Import CellReader.

(** *** set_col_first *)

(** [list.index(x)]: the first position of [x], [ValueError] without
    one. *)
Fixpoint index (x : string) (l : list string) : result nat :=
  match l with
  | [] => Raise ValueError
  | y :: l' =>
      if String.eqb y x then Ok O
      else i <- index x l' ;; Ok (S i)
  end.

(** [list.pop(i)], what is left of the list. *)
Fixpoint pop (i : nat) (l : list string) : list string :=
  match l, i with
  | [], _ => []
  | _ :: l', O => l'
  | y :: l', S i' => y :: pop i' l'
  end.

(** The [try] block.  The loop changes [column_headings] in place, so what
    it has moved when an exception stops it stays moved: the headings
    reached come back with the pending exception, if any. *)
Fixpoint move_first (col_names column_headings : list string)
  : list string * option exn :=
  match col_names with
  | [] => (column_headings, None)
  | col_name :: col_names' =>
      match index col_name column_headings with
      | Raise e => (column_headings, Some e)
      | Ok i => move_first col_names' (col_name :: pop i column_headings)
      end
  end.

(** [set_col_first(df, col_names)], on the column headings of [df], a frame
    whose columns have distinct names.  The [return] of the [finally] block
    drops a pending exception, and [df.reindex(columns=...)] puts the
    columns in the order of the headings reached. *)
Definition set_col_first (df col_names : list string) : list string :=
  fst (move_first col_names df).

(** *** The column headings of the summary *)

Definition cycle_index_txt : string := "Cycle_Index".
Definition data_point_txt : string := "Data_Point".
Definition datetime_txt : string := "DateTime".
Definition test_time_txt : string := "Test_Time".
Definition charge_capacity_txt : string := "Charge_Capacity".
Definition discharge_capacity_txt : string := "Discharge_Capacity".

Definition summary_txt_discharge_cap : string := "Discharge_Capacity(mAh/g)".
Definition summary_txt_charge_cap : string := "Charge_Capacity(mAh/g)".
Definition summary_txt_cum_charge_cap : string :=
  "Cumulated_Charge_Capacity(mAh/g)".
Definition summary_txt_coul_eff : string := "Coulombic_Efficiency(percentage)".
Definition summary_txt_coul_diff : string := "Coulombic_Difference(mAh/g)".
Definition summary_txt_cum_coul_diff : string :=
  "Cumulated_Coulombic_Difference(mAh/g)".
Definition summary_txt_discharge_cap_loss : string :=
  "Discharge_Capacity_Loss(mAh/g)".
Definition summary_txt_charge_cap_loss : string :=
  "Charge_Capacity_Loss(mAh/g)".
Definition summary_txt_cum_discharge_cap_loss : string :=
  "Cumulated_Discharge_Capacity_Loss(mAh/g)".
Definition summary_txt_cum_charge_cap_loss : string :=
  "Cumulated_Charge_Capacity_Loss(mAh/g)".
Definition summary_txt_datetime_txt : string := "date_time_txt".

Definition columns_to_keep : list string :=
  ["Charge_Capacity"; "Charge_Energy"; "Current"; "Cycle_Index";
   "Data_Point"; "DateTime"; "Discharge_Capacity"; "Discharge_Energy";
   "Internal_Resistance"; "Step_Index"; "Step_Time"; "Test_ID"; "Test_Time";
   "Voltage"]%string.

Definition has_column (name : string) (columns : list string) : bool :=
  existsb (String.eqb name) columns.

(** [df[name]]: [KeyError] without such a column. *)
Definition getitem (columns : list string) (name : string) : result unit :=
  if has_column name columns then Ok tt else Raise KeyError.

(** [df.insert(0, column=title, value=...)]: [ValueError] if the frame has
    the column already. *)
Definition insert_first (columns : list string) (title : string)
  : result (list string) :=
  if has_column title columns then Raise ValueError
  else Ok (title :: columns).

(** [df.loc[:, name] = values]: a column the frame has not goes last. *)
Definition loc_set_column (columns : list string) (name : string)
  : list string :=
  if has_column name columns then columns else columns ++ [name].

(** The column headings [_make_summary] leaves on [dfsummary], from those
    of [dfdata] ([column_names]): every read of a column, every insertion
    and the closing reordering, in the order of the method, with the
    optional extractions ([find_ocv], [find_ir], [find_end_voltage]) off. *)
Definition _make_summary_columns (column_names : list string)
           (select_columns convert_date sort_my_columns : bool)
  : result (list string) :=
  'tt <- (match column_names with
          | [] => Raise IndexError
          | _ :: _ => Ok tt
          end) ;;
  let dfsummary :=
    if select_columns
    then filter (fun column_name => has_column column_name columns_to_keep)
                column_names
    else column_names in
  'tt <- getitem dfsummary discharge_capacity_txt ;;
  dfsummary <- insert_first dfsummary summary_txt_discharge_cap ;;
  'tt <- getitem dfsummary charge_capacity_txt ;;
  dfsummary <- insert_first dfsummary summary_txt_charge_cap ;;
  'tt <- getitem dfsummary summary_txt_charge_cap ;;
  dfsummary <- insert_first dfsummary summary_txt_cum_charge_cap ;;
  'tt <- getitem dfsummary charge_capacity_txt ;;
  'tt <- getitem dfsummary discharge_capacity_txt ;;
  dfsummary <- insert_first dfsummary summary_txt_coul_eff ;;
  'tt <- getitem dfsummary summary_txt_charge_cap ;;
  'tt <- getitem dfsummary summary_txt_discharge_cap ;;
  dfsummary <- insert_first dfsummary summary_txt_coul_diff ;;
  'tt <- getitem dfsummary summary_txt_coul_diff ;;
  dfsummary <- insert_first dfsummary summary_txt_cum_coul_diff ;;
  'tt <- getitem dfsummary summary_txt_discharge_cap ;;
  dfsummary <- insert_first dfsummary summary_txt_discharge_cap_loss ;;
  'tt <- getitem dfsummary summary_txt_charge_cap ;;
  dfsummary <- insert_first dfsummary summary_txt_charge_cap_loss ;;
  'tt <- getitem dfsummary summary_txt_discharge_cap_loss ;;
  dfsummary <- insert_first dfsummary summary_txt_cum_discharge_cap_loss ;;
  'tt <- getitem dfsummary summary_txt_charge_cap_loss ;;
  dfsummary <- insert_first dfsummary summary_txt_cum_charge_cap_loss ;;
  dfsummary <-
    (if convert_date
     then
       'tt <- getitem dfsummary datetime_txt ;;
       Ok (loc_set_column dfsummary summary_txt_datetime_txt)
     else Ok dfsummary) ;;
  if sort_my_columns
  then
    let new_first_col_list :=
      if convert_date
      then [summary_txt_datetime_txt; test_time_txt; data_point_txt;
            cycle_index_txt]
      else [datetime_txt; test_time_txt; data_point_txt; cycle_index_txt] in
    Ok (set_col_first dfsummary new_first_col_list)
  else Ok dfsummary.

(** *** set_mass and get_mass *)

(** [test.mass = m; test.mass_given = True]. *)
Definition give_mass (test : dataset) (m : float) : dataset :=
  {| mass := m; mass_given := true; dfdata := dfdata test;
     dfsummary := dfsummary test; dfsummary_made := dfsummary_made test;
     step_table := step_table test;
     step_table_made := step_table_made test |}.

(** A call that returns or raises, or leaves through [sys.exit]. *)
Inductive run (A : Type) : Type :=
| Finished (r : result A)
| SystemExit (code : Z).

Arguments Finished {A} r.
Arguments SystemExit {A} code.

(** The argument [test_numbers]: [None], one number or a list. *)
Inductive test_numbers_arg : Type :=
| NoNumbers
| OneNumber (t : nat)
| Numbers (ts : list nat).

(** The argument [masses]: one mass or a list. *)
Inductive masses_arg : Type :=
| OneMass (m : float)
| Masses (ms : list float).

(** The body of the [try]: an empty test has no attribute to set
    ([AttributeError], caught); a number outside the list of tests raises
    [IndexError], which is not. *)
Definition set_one_mass (self : cellpydata) (t : nat) (m : float)
  : result cellpydata :=
  match nth_error (tests self) t with
  | None => Raise IndexError
  | Some None => Ok self
  | Some (Some test) => Ok (set_test self t (give_mass test m))
  end.

Definition set_mass (self : cellpydata) (masses : masses_arg)
           (test_numbers : test_numbers_arg) (validated : option (list bool))
  : run cellpydata :=
  let number_of_tests := List.length (tests self) in
  if Nat.eqb number_of_tests 0 then SystemExit (-1)
  else
    let test_numbers :=
      match test_numbers with
      | NoNumbers | OneNumber O | Numbers [] => seq 0 number_of_tests
      | OneNumber t => [t]
      | Numbers ts => ts
      end in
    let masses :=
      match masses with
      | OneMass m => [m]
      | Masses ms => ms
      end in
    Finished
      match validated with
      | None =>
          for_each (combine test_numbers masses)
            (fun tm self => set_one_mass self (fst tm) (snd tm))
            self
      | Some validated =>
          for_each (combine (combine test_numbers masses) validated)
            (fun tmv self =>
               if snd tmv
               then set_one_mass self (fst (fst tmv)) (snd (fst tmv))
               else Ok self)
            self
      end.

(** [get_mass(test_number)]: [None] for an empty test. *)
Definition get_mass (self : cellpydata) (test_number : option nat)
  : result (option float) :=
  n <- _validate_test_number self test_number ;;
  match n with
  | None => Ok None
  | Some n =>
      match nth n (tests self) None with
      | None => Ok None
      | Some test => Ok (Some (mass test))
      end
  end.

(** *** Cycle numbers *)

(** [np.unique] on integers: the distinct values, ascending. *)
Fixpoint insert_unique (x : Z) (l : list Z) : list Z :=
  match l with
  | [] => [x]
  | y :: l' =>
      if (x <? y)%Z then x :: l
      else if (x =? y)%Z then l
      else y :: insert_unique x l'
  end.

Definition np_unique (l : list Z) : list Z := fold_right insert_unique [] l.

(** [np.amax] on a column of integers.  NumPy hands the reduction to
    pandas; on a column with values it is their maximum, and on an empty
    column the outcome (an exception, or a value that is no integer) is
    left to the library at hand. *)
Class ColumnMax : Type := {
  np_amax_int : list Z -> result Z;
  np_amax_int_values :
    forall x l, np_amax_int (x :: l) = Ok (fold_left Z.max l x)
}.

Definition get_cycle_numbers {lib : ColumnMax} (self : cellpydata)
           (test_number : option nat) : result (option (list Z)) :=
  n <- _validate_test_number self test_number ;;
  match n with
  | None => Ok None
  | Some n =>
      match nth n (tests self) None with
      | None => Ok None
      | Some test =>
          let d := dfdata test in
          no_cycles <- np_amax_int (map cycle_index d) ;;
          let cycles := np_unique (map cycle_index d) in
          Ok (Some cycles)
      end
  end.

(** *** get_step_numbers *)

(** The step types as the strings the step table holds. *)
Definition step_type_name (t : step_type) : string :=
  match t with
  | charge => "charge"
  | discharge => "discharge"
  | cv_charge => "cv_charge"
  | cv_discharge => "cv_discharge"
  | charge_cv => "charge_cv"
  | discharge_cv => "discharge_cv"
  | ocvrlx_up => "ocvrlx_up"
  | ocvrlx_down => "ocvrlx_down"
  | ir => "ir"
  | rest => "rest"
  | not_known => "not_known"
  end.

Definition in_strings (s : string) (l : list string) : bool :=
  existsb (String.eqb s) l.

(** [str.lower()] on a byte string. *)
Definition lower_ascii (c : ascii) : ascii :=
  let n := nat_of_ascii c in
  if ((65 <=? n) && (n <=? 90))%nat then ascii_of_nat (n + 32) else c.

Fixpoint lower (s : string) : string :=
  match s with
  | EmptyString => EmptyString
  | String c s' => String (lower_ascii c) (lower s')
  end.

(** What [get_step_numbers] returns: [None], a part of the step table
    ([pdtype]) or a dict from cycle to step numbers.  The dict is kept as
    an association list with one entry for each key.  Python iterates a
    dict in the order of its hash table, so the order of the list stands
    for nothing: a dict is read through [dict_get] alone. *)
Inductive step_numbers : Type :=
| NoSteps
| StepFrame (rows : list step_row)
| StepDict (out : list (Z * list Z)).

(** [out[key] = value] and [out[key]]. *)
Fixpoint dict_set (out : list (Z * list Z)) (key : Z) (value : list Z)
  : list (Z * list Z) :=
  match out with
  | [] => [(key, value)]
  | (k, v) :: out' =>
      if (k =? key)%Z then (k, value) :: out'
      else (k, v) :: dict_set out' key value
  end.

Fixpoint dict_get (out : list (Z * list Z)) (key : Z) : option (list Z) :=
  match out with
  | [] => None
  | (k, v) :: out' => if (k =? key)%Z then Some v else dict_get out' key
  end.

(** [st['type'] == s] and [st['cycle'] == cycle], a missing cell equal to
    nothing. *)
Definition type_is (s : string) (r : step_row) : bool :=
  match type r with
  | Some t => String.eqb (step_type_name t) s
  | None => false
  end.

Definition cycle_is (c : Z) (r : step_row) : bool :=
  match cycle r with
  | Some c' => (c' =? c)%Z
  | None => false
  end.

(** The names asked for: the core type itself or what a helper type stands
    for, [None] for anything else. *)
Definition requested_step_types (steptype : string) : option (list string) :=
  if in_strings steptype (map step_type_name list_of_step_types)
  then Some [steptype]
  else if String.eqb steptype "ocv"
  then Some ["ocvrlx_up"; "ocvrlx_down"]%string
  else if String.eqb steptype "charge_discharge"
  then Some ["charge"; "discharge"]%string
  else None.

Section StepNumbers.
Context {ops : SeriesOps} {lib : ColumnMax}.

(** [get_step_numbers]; [force] is
    [self.force_step_table_creation or self.force_all].  The instance comes
    back with the result, as the method may make the step table. *)
Definition get_step_numbers (self : cellpydata) (force : bool)
           (steptype : string) (allctypes pdtype : bool)
           (cycle_number : option Z) (test_number : option nat)
  : result (cellpydata * step_numbers) :=
  n <- _validate_test_number self test_number ;;
  match n with
  | None => Ok (self, NoSteps)
  | Some n =>
      match nth n (tests self) None with
      | None => Ok (self, NoSteps)
      | Some test =>
          made <-
            (if step_table_made test then Ok (Some self)
             else if force
             then self <- create_step_table self (Some n) ;; Ok (Some self)
             else Ok None) ;;
          match made with
          | None => Ok (self, NoSteps)
          | Some self =>
              let steptype := lower steptype in
              match requested_step_types steptype with
              | None => Ok (self, NoSteps)
              | Some steptypes =>
                  let steptypes :=
                    if allctypes
                    then
                      steptypes
                      ++ flat_map
                           (fun st =>
                              if in_strings st ["charge"; "discharge"]%string
                              then [(st ++ "_cv")%string; ("cv_" ++ st)%string]
                              else [])
                           steptypes
                    else steptypes in
                  let st :=
                    match nth n (tests self) None with
                    | Some test => step_table test
                    | None => None
                    end in
                  cycle_numbers <-
                    match cycle_number with
                    | None =>
                        cycles <- get_cycle_numbers self (Some n) ;;
                        match cycles with
                        | Some cycles => Ok cycles
                        | None => Raise TypeError
                        end
                    | Some c => Ok [c]
                    end ;;
                  if pdtype
                  then
                    st <- match st with
                          | Some st => Ok st
                          | None => Raise TypeError
                          end ;;
                    Ok (self,
                        StepFrame
                          (filter
                             (fun r =>
                                match type r with
                                | Some t =>
                                    in_strings (step_type_name t) steptypes
                                | None => false
                                end
                                && match cycle r with
                                   | Some c => existsb (Z.eqb c) cycle_numbers
                                   | None => false
                                   end)
                             st))
                  else
                    out <-
                      for_each cycle_numbers
                        (fun cycle out =>
                           steplist <-
                             for_each steptypes
                               (fun s steplist =>
                                  st <- match st with
                                        | Some st => Ok st
                                        | None => Raise TypeError
                                        end ;;
                                  let step :=
                                    filter
                                      (fun r => type_is s r && cycle_is cycle r)
                                      st in
                                  for_each step
                                    (fun newstep steplist =>
                                       match CellReader.step newstep with
                                       | Some z => Ok (steplist ++ [z])
                                       | None => Raise ValueError
                                       end)
                                    steplist)
                               [] ;;
                           let steplist :=
                             match steplist with
                             | [] => [0%Z]
                             | _ :: _ => steplist
                             end in
                           Ok (dict_set out cycle steplist))
                        [] ;;
                    Ok (self, StepDict out)
              end
          end
      end
  end.
End StepNumbers.

End CellReaderMethods.

(** ** cellpy/utils/ica.py: the functions around the converter *)

Module IcaFunctions.
Import Ica.

Definition set_fixed_voltage_range (p : settings)
           (r : option (float * float * nat)) : settings :=
  {| points_pr_split := points_pr_split p;
     minimum_splits := minimum_splits p;
     interpolation_method := interpolation_method p;
     increment_method := increment_method p;
     pre_smoothing := pre_smoothing p;
     smoothing := smoothing p;
     post_smoothing := post_smoothing p;
     savgol_filter_window_divisor_default :=
       savgol_filter_window_divisor_default p;
     savgol_filter_window_order := savgol_filter_window_order p;
     voltage_fwhm := voltage_fwhm p;
     gaussian_order := gaussian_order p;
     gaussian_mode := gaussian_mode p;
     gaussian_cval := gaussian_cval p;
     gaussian_truncate := gaussian_truncate p;
     normalise := normalise p;
     fixed_voltage_range := r |}.

(** One row of a cycle frame: the columns ["voltage"], ["capacity"] and
    ["direction"] (1 or -1). *)
Record curve_row : Type := {
  row_voltage : float;
  row_capacity : float;
  direction : Z
}.

(** The frames [_make_ica_charge_curves] builds: one column, and a [name]
    that is the text ["voltage"] or a cycle number. *)
Inductive frame_name : Type :=
| Text (s : string)
| Number (n : Z).

Record curve_frame : Type := {
  name : frame_name;
  label : string;
  column : list float
}.

(** [pd.DataFrame({label: x})]: a single [None] is no column
    ([ValueError]). *)
Definition one_column (x : option (list float)) : result (list float) :=
  match x with
  | Some x => Ok x
  | None => Raise ValueError
  end.

Section Functions.
Context {lib : SciPy}.

(** *** dqdv *)
Definition dqdv (voltage capacity : list float)
  : result (option (list float) * option (list float)) :=
  let converter := new_converter default_settings in
  converter <- set_data converter (Sequence capacity) (Some voltage) ;;
  converter <- inspect_data converter None None ;;
  converter <- pre_process_data converter ;;
  converter <- increment_data converter ;;
  converter <- post_process_data converter None None None ;;
  Ok (voltage_processed converter, incremental_capacity converter).

(** *** dqdv_cycle

    [np.append] and [[::-1]] are applied to the arrays the converter
    holds after [post_process_data]; with the settings of a new
    [Converter], [increment_data] has set both. *)
Definition dqdv_cycle (cycle : list curve_row) (splitter : bool)
  : result (list float * list float) :=
  let c_first := filter (fun r => (direction r =? -1)%Z) cycle in
  let c_last := filter (fun r => (direction r =? 1)%Z) cycle in
  let converter := new_converter default_settings in
  converter <- set_data converter (Sequence (map row_capacity c_first))
                 (Some (map row_voltage c_first)) ;;
  converter <- inspect_data converter None None ;;
  converter <- pre_process_data converter ;;
  converter <- increment_data converter ;;
  converter <- post_process_data converter None None None ;;
  voltage_first <- need (voltage_processed converter) ;;
  incremental_capacity_first <- need (incremental_capacity converter) ;;
  let voltage_first :=
    if splitter then voltage_first ++ [nan] else voltage_first in
  let incremental_capacity_first :=
    if splitter then incremental_capacity_first ++ [nan]
    else incremental_capacity_first in
  let converter := new_converter default_settings in
  converter <- set_data converter (Sequence (map row_capacity c_last))
                 (Some (map row_voltage c_last)) ;;
  converter <- inspect_data converter None None ;;
  converter <- pre_process_data converter ;;
  converter <- increment_data converter ;;
  converter <- post_process_data converter None None None ;;
  voltage_last <- need (voltage_processed converter) ;;
  incremental_capacity_last <- need (incremental_capacity converter) ;;
  let voltage := voltage_first ++ rev voltage_last in
  let incremental_capacity :=
    incremental_capacity_first ++ rev incremental_capacity_last in
  Ok (voltage, incremental_capacity).

(** *** _constrained_dq_dv_using_dataframes

    [capacity] is a frame with the columns ["q"] and ["v"]. *)
Definition _constrained_dq_dv_using_dataframes
           (capacity : list (float * float)) (minimum_v maximum_v : float)
  : result (option (list float) * option (list float)) :=
  let converter := new_converter default_settings in
  converter <- set_data converter (DataFrame capacity) None ;;
  converter <- inspect_data converter None None ;;
  converter <- pre_process_data converter ;;
  converter <- increment_data converter ;;
  let converter :=
    with_settings converter
      (set_fixed_voltage_range (prm converter)
         (Some (minimum_v, maximum_v, 100%nat))) in
  converter <- post_process_data converter None None None ;;
  Ok (voltage_processed converter, incremental_capacity converter).

(** *** _make_ica_charge_curves *)
Definition _make_ica_charge_curves (cycles_dfs : list (list (float * float)))
           (cycle_numbers : list Z) (minimum_v maximum_v : float)
  : result (list curve_frame) :=
  for_each (combine cycles_dfs cycle_numbers)
    (fun cn incremental_charge_list =>
       let c := fst cn in
       let n := snd cn in
       match c with
       | _ :: _ =>
           '(v, dq) <-
             _constrained_dq_dv_using_dataframes c minimum_v maximum_v ;;
           match incremental_charge_list with
           | [] =>
               v <- one_column v ;;
               let d := {| name := Text "voltage"; label := "v";
                           column := v |} in
               let incremental_charge_list :=
                 incremental_charge_list ++ [d] in
               dq <- one_column dq ;;
               let d := {| name := Number n; label := "dq"; column := dq |} in
               Ok (incremental_charge_list ++ [d])
           | _ :: _ =>
               dq <- one_column dq ;;
               let d := {| name := Number n; label := "dq"; column := dq |} in
               Ok (incremental_charge_list ++ [d])
           end
       | [] => Ok incremental_charge_list
       end)
    [].
End Functions.

End IcaFunctions.

(** ** cellpy/utils/batch_tools/batch_core.py: Doer *)

Module BatchCore.

(** A farm is a list object.  What matters here is which object it is:
    the module-level [empty_farm], shared by whoever appends it, or a list
    of the instance's own. *)
Inductive farm : Type :=
| empty_farm
| own_farm (id : nat).

Section Doer.
Context {object : Type}.
(** [isinstance(arg, BaseExperiment)] *)
Variable is_base_experiment : object -> bool.

Record Doer : Type := {
  experiments : list object;
  farms : list farm
}.

Definition _validate_base_experiment_type (args : list object)
  : result (option (list object)) :=
  if Nat.eqb (List.length args) 0 then Ok None
  else
    'tt <- for_each args
             (fun arg _ =>
                if negb (is_base_experiment arg) then Raise TypeError
                else Ok tt)
             tt ;;
    Ok (Some args).

Definition __init__ (args : list object) : result Doer :=
  let self := {| experiments := []; farms := [] |} in
  args <- _validate_base_experiment_type args ;;
  match args with
  | Some ((_ :: _) as args) =>
      Ok {| experiments := experiments self ++ args;
            farms := farms self ++ [empty_farm] |}
  | _ => Ok self
  end.

Definition assign (self : Doer) (experiment : object) : Doer :=
  {| experiments := experiments self ++ [experiment];
     farms := farms self ++ [empty_farm] |}.

(** [self.farms = [[] for _ in self.farms]]: one new list for each farm;
    [next] counts the lists made so far. *)
Definition empty_the_farms (self : Doer) (next : nat) : Doer * nat :=
  ({| experiments := experiments self;
      farms := map own_farm (seq next (List.length (farms self))) |},
   (next + List.length (farms self))%nat).

End Doer.
End BatchCore.

(** ** More example data *)

Module MoreExamples.
Import CellReader Ica IcaFunctions.

(** Column headings of a raw time series. *)
Definition raw_columns : list string :=
  ["Data_Point"; "Test_Time"; "DateTime"; "Step_Index"; "Cycle_Index";
   "Voltage"; "Charge_Capacity"; "Discharge_Capacity"]%string.

(** Three tests, the second one empty. *)
Definition tests_around_an_empty_one : cellpydata :=
  {| tests := [Some Examples.three_cycle_test; None;
               Some Examples.three_cycle_test];
     selected_test_number := None;
     ensure_step_table := false |}.

(** The maximum of a column, as Python's [max] has it. *)
Definition plain_max : CellReaderMethods.ColumnMax :=
  {| CellReaderMethods.np_amax_int := py_max;
     CellReaderMethods.np_amax_int_values := fun x l => eq_refl |}.

(** The curve Q = 10 V over V = 1, 2, 3, as a frame with the columns
    ["q"] and ["v"]. *)
Definition ramp_frame : list (float * float) := [(10, 1); (20, 2); (30, 3)].

End MoreExamples.

(** ** The methods, seen from their loops *)

Module MethodsView.
Import CellReader CellReaderMethods StepTableView Ica IcaFunctions.

(** The titles of the derived summary columns, the last inserted
    first. *)
Definition derived_titles : list string :=
  [summary_txt_cum_charge_cap_loss; summary_txt_cum_discharge_cap_loss;
   summary_txt_charge_cap_loss; summary_txt_discharge_cap_loss;
   summary_txt_cum_coul_diff; summary_txt_coul_diff; summary_txt_coul_eff;
   summary_txt_cum_charge_cap; summary_txt_charge_cap;
   summary_txt_discharge_cap].

(** The greatest data point of cycle [c]. *)
Definition last_of_cycle (dfdata : list sample) (c : Z) : result Z :=
  py_max (map data_point (filter (fun r => (cycle_index r =? c)%Z) dfdata)).

(** A loop that appends one value for each item. *)
Definition collect {A : Type} (f : A -> result Z) (xs : list A)
           (acc : list Z) : result (list Z) :=
  for_each xs (fun j steps => last_item <- f j ;; Ok (steps ++ [last_item]))
           acc.

(** [r] has the greatest data point of its cycle. *)
Definition closes_its_cycle (dfdata : list sample) (r : sample) : Prop :=
  forall y, In y dfdata -> cycle_index y = cycle_index r ->
            (data_point y <= data_point r)%Z.

(** The mask behind each label of the step table. *)
Definition label_mask (t : step_type) (r : step_row) : bool :=
  match t with
  | ir => no_change r
  | cv_charge => voltage_stable r && current_positive r && current_down r
  | cv_discharge => voltage_stable r && current_negative r && current_down r
  | charge => charge_changed r && current_positive r
  | discharge => discharge_changed r && current_negative r
  | ocvrlx_down => no_current_hard r && voltage_down r
  | ocvrlx_up => no_current_hard r && voltage_up r
  | _ => false
  end.

(** The step types no pass of [create_step_table] writes. *)
Definition unwritten_labels : list string :=
  ["rest"; "not_known"; "charge_cv"; "discharge_cv"]%string.

Section View.
Context {ops : SeriesOps}.
Variables use_cellpy_stat_file ensure_step_table : bool.

(** The loop of [make_summary] over all tests. *)
Fixpoint summarise_tests (js : list nat) (self : cellpydata)
  : result cellpydata :=
  match js with
  | [] => Ok self
  | j :: js' =>
      match nth j (tests self) None with
      | None => Ok self
      | Some _ =>
          self <- _make_summary self (Some j) None false true
                    use_cellpy_stat_file ensure_step_table ;;
          summarise_tests js' self
      end
  end.
End View.

(** The cycle numbers of the frames that have rows. *)
Definition with_rows (cycles_dfs : list (list (float * float)))
           (cycle_numbers : list Z) : list Z :=
  map snd
      (filter (fun cn => match fst cn with [] => false | _ :: _ => true end)
              (combine cycles_dfs cycle_numbers)).

(** The one frame of voltages: the fixed grid of 100 points. *)
Definition voltage_frame {lib : SciPy} (minimum_v maximum_v : float)
  : curve_frame :=
  {| name := Text "voltage"; label := "v";
     column := np_linspace minimum_v maximum_v 100 |}.

End MethodsView.

(** * Properties *)

(** ** Loops, [unique] and list updates *)

Module PyFacts.

Section UniqueFacts.
Context {A : Type} (eqb : A -> A -> bool).
Hypothesis eqb_eq : forall x y, eqb x y = true <-> x = y.

Lemma unique_In (x : A) (l : list A) : In x (unique eqb l) <-> In x l.
Proof.
  induction l as [|a l IH]; simpl; [tauto|].
  rewrite filter_In, IH.
  destruct (eqb a x) eqn:E.
  - apply eqb_eq in E. subst. simpl. intuition congruence.
  - assert (a <> x) by (intros ->; rewrite (proj2 (eqb_eq x x) eq_refl) in E;
                        discriminate).
    simpl. intuition congruence.
Qed.

Lemma unique_NoDup (l : list A) : NoDup (unique eqb l).
Proof.
  induction l as [|a l IH]; simpl; constructor.
  - rewrite filter_In. intros [_ H].
    rewrite (proj2 (eqb_eq a a) eq_refl) in H. discriminate.
  - now apply NoDup_filter.
Qed.
End UniqueFacts.

Lemma pair_eqb_eq (p q : Z * Z) : pair_eqb p q = true <-> p = q.
Proof.
  destruct p as [a b], q as [c d]. unfold pair_eqb. simpl.
  rewrite andb_true_iff, !Z.eqb_eq. split.
  - intros [-> ->]. reflexivity.
  - intros H. inversion H. auto.
Qed.

Lemma for_each_app {A S : Type} (xs ys : list A)
      (body : A -> S -> result S) (s : S) :
  for_each (xs ++ ys) body s = bind (for_each xs body s) (for_each ys body).
Proof.
  revert s. induction xs as [|x xs IH]; intros s; simpl; [reflexivity|].
  destruct (body x s); simpl; auto.
Qed.

Lemma for_each_raise {A S : Type} (P : exn -> Prop) (xs : list A)
      (body : A -> S -> result S) (s : S) (e : exn) :
  (forall x s0 e0, body x s0 = Raise e0 -> P e0) ->
  for_each xs body s = Raise e -> P e.
Proof.
  intros Hbody. revert s. induction xs as [|x xs IH]; intros s; simpl.
  - discriminate.
  - destruct (body x s) as [s1|e1] eqn:E; simpl.
    + apply IH.
    + intros H. inversion H; subst. eapply Hbody, E.
Qed.

(** A loop nested in a loop is one loop over the pairs. *)
Lemma for_each_nested {A B S : Type} (xs : list A) (inner : A -> list B)
      (body : A -> B -> S -> result S) (s : S) :
  for_each xs (fun x => for_each (inner x) (body x)) s
  = for_each (flat_map (fun x => map (pair x) (inner x)) xs)
             (fun p => body (fst p) (snd p)) s.
Proof.
  revert s. induction xs as [|x xs IH]; intros s; simpl; [reflexivity|].
  rewrite for_each_app.
  assert (E : forall l s0,
             for_each l (body x) s0
             = for_each (map (pair x) l) (fun p => body (fst p) (snd p)) s0).
  { induction l as [|b l IHl]; intros s0; simpl; [reflexivity|].
    destruct (body x b s0); simpl; auto. }
  rewrite <- E.
  destruct (for_each (inner x) (body x) s); simpl; auto.
Qed.

Lemma update_nth_length {A : Type} (n : nat) (x : A) (l : list A) :
  List.length (CellReader.update_nth n x l) = List.length l.
Proof.
  revert n. induction l as [|a l IH]; intros [|n]; simpl; auto.
Qed.

Lemma update_nth_app {A : Type} (done : list A) (x y : A) (todo : list A) :
  CellReader.update_nth (List.length done) x (done ++ y :: todo)
  = done ++ x :: todo.
Proof.
  induction done as [|a done IH]; simpl; [reflexivity|]. now rewrite IH.
Qed.

Lemma nth_error_update_nth {A : Type} (n i : nat) (x : A) (l : list A) :
  nth_error (CellReader.update_nth n x l) i
  = if andb (Nat.eqb n i) (Nat.ltb i (List.length l)) then Some x
    else nth_error l i.
Proof.
  revert n i. induction l as [|a l IH]; intros [|n] [|i]; simpl; auto.
  now destruct (Nat.eqb n i).
Qed.

End PyFacts.

(** ** The step table *)

Module StepTableFacts.
Import CellReader StepTableView PyFacts.

(** *** The added column *)

Lemma assign_IR_pct_change_map {B : Type} (g : sample -> B)
      (df : list sample) (col : list float) :
  (forall r v, g (set_IR_pct_change r v) = g r) ->
  map g (assign_IR_pct_change df col) = map g df.
Proof.
  intros Hg. revert col.
  induction df as [|r df IH]; intros [|v col]; simpl; auto;
    now rewrite Hg, IH.
Qed.

Lemma assign_IR_pct_change_present (df : list sample) (col : list float) :
  Forall (fun r => IR_pct_change r <> None) (assign_IR_pct_change df col).
Proof.
  revert col.
  induction df as [|r df IH]; intros [|v col]; simpl; constructor;
    simpl; auto; discriminate.
Qed.

Lemma group_In (df : list sample) (p : Z * Z) (r : sample) :
  In r (group df p) <-> In r df /\ key r = p.
Proof.
  unfold group, in_cycle, key. rewrite !filter_In, !Z.eqb_eq.
  destruct p as [c s]. simpl. split.
  - intros [[H1 H2] H3]. subst. auto.
  - intros [H1 H2]. inversion H2. auto.
Qed.

Lemma visited_In (df : list sample) (p : Z * Z) :
  In p (visited df) <-> In p (map key df).
Proof.
  unfold visited. rewrite in_flat_map, in_map_iff. split.
  - intros (c & Hc & Hp). apply in_map_iff in Hp as (s & <- & Hs).
    apply (proj1 (unique_In Z.eqb Z.eqb_eq _ _)) in Hs.
    apply in_map_iff in Hs as (r & <- & Hr).
    unfold in_cycle in Hr. apply filter_In in Hr as [Hr E].
    apply Z.eqb_eq in E. subst c. exists r. auto.
  - intros (r & <- & Hr). exists (cycle_index r). split.
    + apply (proj2 (unique_In Z.eqb Z.eqb_eq _ _)). now apply in_map.
    + unfold key. apply in_map.
      apply (proj2 (unique_In Z.eqb Z.eqb_eq _ _)). apply in_map.
      unfold in_cycle. apply filter_In. split; [assumption|].
      apply Z.eqb_refl.
Qed.

Lemma NoDup_flat_map_pairs (cs : list Z) (steps : Z -> list Z) :
  NoDup cs -> (forall c, NoDup (steps c)) ->
  NoDup (flat_map (fun c => map (pair c) (steps c)) cs).
Proof.
  intros Hcs Hst. induction Hcs as [|c cs Hc Hcs IH]; simpl; [constructor|].
  apply NoDup_app; [| exact IH |].
  - apply Finite.Injective_map_NoDup_in; [| apply Hst].
    intros a b _ _ E. now inversion E.
  - intros p Hp Hq. apply in_map_iff in Hp as (s & <- & _).
    apply in_flat_map in Hq as (c' & Hc' & Hq).
    apply in_map_iff in Hq as (s' & E & _). inversion E. subst. contradiction.
Qed.

Lemma visited_NoDup (df : list sample) : NoDup (visited df).
Proof.
  apply NoDup_flat_map_pairs; intros; apply (unique_NoDup Z.eqb Z.eqb_eq).
Qed.

(** The frame has as many rows as the loops visit pairs. *)
Lemma number_of_rows_visited (df : list sample) :
  number_of_rows df = List.length (visited df).
Proof.
  unfold number_of_rows. apply Permutation_length.
  apply NoDup_Permutation.
  - apply (unique_NoDup pair_eqb pair_eqb_eq).
  - apply visited_NoDup.
  - intros p. rewrite (unique_In pair_eqb pair_eqb_eq), visited_In.
    reflexivity.
Qed.

Lemma visited_group_nonempty (df : list sample) (p : Z * Z) :
  In p (visited df) -> group df p <> [].
Proof.
  intros H. apply visited_In in H. apply in_map_iff in H as (r & E & Hr).
  intros Hnil. assert (H : In r (group df p)) by (apply group_In; auto).
  rewrite Hnil in H. contradiction.
Qed.

(** *** Filling the frame *)

Section Populate.
Context {ops : SeriesOps}.

Lemma _extract_step_values_ok (f : list sample) :
  f <> [] -> Forall (fun r => IR_pct_change r <> None) f ->
  exists v, _extract_step_values f = Ok v.
Proof.
  intros Hf Hir. destruct f as [|first f']; [contradiction|].
  inversion Hir as [|? ? H1 _]; subst. unfold _extract_step_values.
  destruct (IR_pct_change first); [eauto | contradiction].
Qed.

Lemma populate_visited (df : list sample) (df_steps : list step_row) :
  populate df df_steps = for_each (visited df) (step_body df) (df_steps, O).
Proof.
  unfold populate, visited.
  exact (for_each_nested
           (unique Z.eqb (map cycle_index df))
           (fun c => unique Z.eqb (map step_index (in_cycle c df)))
           (fun c s => step_body df (c, s))
           (df_steps, O)).
Qed.

Lemma for_each_step_body (df : list sample) (ps : list (Z * Z)) :
  (forall p, In p ps -> exists v, _extract_step_values (group df p) = Ok v) ->
  forall (done : list step_row) (m : nat),
    (List.length ps <= m)%nat ->
    exists rows,
      for_each ps (step_body df)
               (done ++ repeat empty_step_row m, List.length done)
      = Ok (done ++ rows ++ repeat empty_step_row (m - List.length ps)%nat,
            (List.length done + List.length ps)%nat)
      /\ Forall2 (filled df) ps rows.
Proof.
  induction ps as [|p ps IH]; intros Hok done m Hm; simpl.
  - exists []. simpl. rewrite Nat.sub_0_r, Nat.add_0_r. auto.
  - destruct m as [|m]; [simpl in Hm; lia|].
    destruct (Hok p (or_introl eq_refl)) as [v Hv].
    rewrite Hv. simpl. unfold iloc_set.
    rewrite nth_error_app2, Nat.sub_diag by lia. simpl.
    rewrite update_nth_app.
    set (r := {| cycle := Some (fst p); step := Some (snd p);
                 values := Some v; type := None; info := None |}).
    destruct (IH (fun q Hq => Hok q (or_intror Hq)) (done ++ [r]) m)
      as (rows & E & Hrows); [simpl in Hm; lia|].
    rewrite <- app_assoc, length_app, Nat.add_1_r in E. simpl in E.
    exists (r :: rows). split.
    + rewrite E, <- app_assoc. simpl. repeat f_equal. lia.
    + constructor; [|assumption].
      unfold filled, r. simpl. repeat split; eauto.
Qed.

Lemma populate_ok (df : list sample) :
  Forall (fun r => IR_pct_change r <> None) df ->
  exists rows,
    populate df (repeat empty_step_row (number_of_rows df))
    = Ok (rows, number_of_rows df)
    /\ Forall2 (filled df) (visited df) rows.
Proof.
  intros Hir. rewrite populate_visited, number_of_rows_visited.
  destruct (for_each_step_body df (visited df)) with
    (done := @nil step_row) (m := List.length (visited df))
    as (rows & E & Hrows); [| lia |].
  - intros p Hp. apply _extract_step_values_ok.
    + now apply visited_group_nonempty.
    + apply Forall_forall. intros r Hr. apply group_In in Hr as [Hr _].
      revert r Hr. now apply Forall_forall.
  - simpl in E. rewrite Nat.sub_diag, app_nil_r in E. eauto.
Qed.
End Populate.

(** *** The overwrite passes, row by row *)

Lemma mask_and_map {A : Type} (p q : A -> bool) (l : list A) :
  mask_and (map p l) (map q l) = map (fun r => p r && q r) l.
Proof. induction l as [|a l IH]; simpl; [reflexivity | now rewrite IH]. Qed.

Lemma loc_set_type_map {A : Type} (p : A -> bool) (t : step_type)
      (g : A -> step_row) (l : list A) :
  loc_set_type (map p l) t (map g l)
  = map (fun r => if p r then set_type (g r) t else g r) l.
Proof. induction l as [|a l IH]; simpl; [reflexivity | now rewrite IH]. Qed.

Lemma loc_set_type_id (p : step_row -> bool) (t : step_type)
      (l : list step_row) :
  loc_set_type (map p l) t l
  = map (fun r => if p r then set_type r t else r) l.
Proof.
  induction l as [|a l IH]; simpl; [reflexivity | now rewrite IH].
Qed.

Lemma check_step_type_map (df_steps : list step_row) :
  check_step_type df_steps = map classify df_steps.
Proof.
  unfold check_step_type. cbv zeta.
  rewrite !mask_and_map, loc_set_type_id, !loc_set_type_map.
  apply map_ext. intros [c s v t i].
  unfold classify, final_type, no_change, voltage_stable, current_positive,
    current_negative, current_down, charge_changed, discharge_changed,
    no_current_hard, voltage_down, voltage_up, delta_voltage, delta_current,
    delta_charge, delta_discharge, average_current, set_type.
  cbn [cycle step values type info].
  repeat match goal with
         | |- context [if ?b then _ else _] => destruct b
         end; reflexivity.
Qed.

Lemma final_type_in_list (r : step_row) (t : step_type) :
  type r = None -> final_type r = Some t ->
  In t [ir; cv_charge; cv_discharge; charge; discharge;
        ocvrlx_down; ocvrlx_up].
Proof.
  unfold final_type. intros Hr.
  repeat match goal with
         | |- context [if ?b then _ else _] => destruct b
         end; rewrite ?Hr; intros E; inversion E; simpl; tauto.
Qed.

(** *** The table as a whole *)

Section Table.
Context {ops : SeriesOps}.

Lemma make_step_table_rows (dfdata : list sample) :
  exists rows,
    make_step_table dfdata
    = Ok (with_IR_pct_change dfdata, map classify rows)
    /\ Forall2 (filled (with_IR_pct_change dfdata))
               (visited (with_IR_pct_change dfdata)) rows.
Proof.
  unfold make_step_table. fold (with_IR_pct_change dfdata).
  destruct (populate_ok (with_IR_pct_change dfdata)) as (rows & E & H).
  - apply assign_IR_pct_change_present.
  - exists rows. rewrite E. simpl. now rewrite check_step_type_map.
Qed.

Lemma with_IR_pct_change_keys (dfdata : list sample) :
  map key (with_IR_pct_change dfdata) = map key dfdata.
Proof. now apply assign_IR_pct_change_map. Qed.
End Table.

Lemma filled_keys {ops : SeriesOps} (df : list sample) (ps : list (Z * Z))
      (rows : list step_row) :
  Forall2 (filled df) ps rows ->
  map (fun r => (cycle r, step r)) (map classify rows)
  = map (fun p => (Some (fst p), Some (snd p))) ps.
Proof.
  induction 1 as [|p r ps rows (Hc & Hs & _) _ IH]; simpl; [reflexivity|].
  now rewrite Hc, Hs, IH.
Qed.

Lemma distinct_pairs_visited (df : list sample) :
  distinct_pairs df = List.length (visited df).
Proof.
  unfold distinct_pairs. apply Permutation_length, NoDup_Permutation.
  - apply NoDup_nodup.
  - apply visited_NoDup.
  - intros p. now rewrite nodup_In, visited_In.
Qed.

(** C7.  For every time series the step table is built without an error
    and has exactly as many rows as the series has distinct (cycle, step)
    pairs: no pair heads two rows, the pairs heading a row are exactly those
    present in the series, and every row carries its step values. *)
Theorem step_table_one_row_per_pair {ops : SeriesOps} (dfdata : list sample) :
  exists df df_steps,
    make_step_table dfdata = Ok (df, df_steps)
    /\ List.length df_steps = distinct_pairs dfdata
    /\ NoDup (map (fun r => (cycle r, step r)) df_steps)
    /\ (forall c s,
          In (Some c, Some s) (map (fun r => (cycle r, step r)) df_steps)
          <-> exists x, In x dfdata /\ cycle_index x = c /\ step_index x = s)
    /\ Forall (fun r => exists c s v,
                 cycle r = Some c /\ step r = Some s /\ values r = Some v)
              df_steps.
Proof.
  destruct (make_step_table_rows dfdata) as (rows & E & H).
  exists (with_IR_pct_change dfdata), (map classify rows).
  pose proof (filled_keys _ _ _ H) as Hkeys.
  assert (Hvis : forall p, In p (visited (with_IR_pct_change dfdata))
                           <-> In p (map key dfdata)).
  { intros p. now rewrite visited_In, with_IR_pct_change_keys. }
  split; [exact E|]. split; [|split; [|split]].
  - rewrite length_map, <- (Forall2_length H).
    unfold distinct_pairs. apply Permutation_length, NoDup_Permutation.
    + apply visited_NoDup.
    + apply NoDup_nodup.
    + intros p. now rewrite nodup_In, Hvis.
  - rewrite Hkeys. apply Finite.Injective_map_NoDup_in; [|apply visited_NoDup].
    intros [a b] [c d] _ _ Heq. simpl in Heq. now inversion Heq.
  - intros c s. rewrite Hkeys, in_map_iff. split.
    + intros ([a b] & Heq & Hp). simpl in Heq. inversion Heq. subst.
      apply Hvis, in_map_iff in Hp as (x & Hx & Hin).
      unfold key in Hx. inversion Hx. eauto.
    + intros (x & Hin & <- & <-). exists (key x). split; [reflexivity|].
      apply Hvis. now apply in_map.
  - apply Forall_forall. intros r Hr. apply in_map_iff in Hr as (r0 & <- & Hr0).
    assert (Hex : exists p, filled (with_IR_pct_change dfdata) p r0).
    { clear -H Hr0. induction H as [|p r ps rows Hp _ IH]; [contradiction|].
      destruct Hr0 as [<- | Hr0]; eauto. }
    destruct Hex as (p & Hc & Hs & (v & _ & Hv) & _).
    exists (fst p), (snd p), v. auto.
Qed.

(** C8.  A step whose deltas of voltage, current, charge and discharge
    capacity are all exactly zero (with a maximal and minimal current of
    zero) leaves the overwrite passes with the label [ir], whatever the
    other rows of the table are. *)
Theorem zero_delta_step_is_ir (df_steps : list step_row) (i : nat)
        (r : step_row) (v : step_values) :
  nth_error df_steps i = Some r ->
  values r = Some v ->
  (max (I_ v) =? 0) = true -> (min (I_ v) =? 0) = true ->
  (delta (V_ v) =? 0) = true -> (delta (I_ v) =? 0) = true ->
  (delta (Charge_ v) =? 0) = true -> (delta (Discharge_ v) =? 0) = true ->
  exists r',
    nth_error (check_step_type df_steps) i = Some r'
    /\ type r' = Some ir
    /\ cycle r' = cycle r /\ step r' = step r /\ values r' = Some v.
Proof.
  intros Hi Hv _ _ HV HI HC HD.
  exists (classify r). rewrite check_step_type_map, nth_error_map, Hi.
  split; [reflexivity|]. split; [|now rewrite <- Hv].
  unfold classify, final_type, no_change, delta_voltage, delta_current,
    delta_charge, delta_discharge, column. simpl.
  now rewrite Hv, HV, HI, HC, HD.
Qed.

(** The same for a row of the table [make_step_table] returns. *)
Lemma step_table_zero_delta_is_ir {ops : SeriesOps} (dfdata df : list sample)
      (df_steps : list step_row) (r : step_row) (v : step_values) :
  make_step_table dfdata = Ok (df, df_steps) ->
  In r df_steps -> values r = Some v ->
  (delta (V_ v) =? 0) = true -> (delta (I_ v) =? 0) = true ->
  (delta (Charge_ v) =? 0) = true -> (delta (Discharge_ v) =? 0) = true ->
  type r = Some ir.
Proof.
  intros E Hr Hv HV HI HC HD.
  destruct (make_step_table_rows dfdata) as (rows & E' & _).
  rewrite E' in E. inversion E; subst. clear E.
  apply in_map_iff in Hr as (r0 & <- & _). simpl in Hv |- *.
  unfold final_type, no_change, delta_voltage, delta_current, delta_charge,
    delta_discharge, column.
  now rewrite Hv, HV, HI, HC, HD.
Qed.

Lemma zero_delta_step_is_ir_witness :
  exists r', nth_error (check_step_type [Examples.pulse_row]) 0 = Some r'
             /\ type r' = Some ir.
Proof.
  destruct (zero_delta_step_is_ir [Examples.pulse_row] 0 Examples.pulse_row
              {| I_ := Examples.still 0; V_ := Examples.still 3.5;
                 Charge_ := Examples.still 0; Discharge_ := Examples.still 0;
                 IR := 0; IR_change := nan |}
              eq_refl eq_refl eq_refl eq_refl eq_refl eq_refl eq_refl eq_refl)
    as (r' & H1 & H2 & _).
  exists r'. split; assumption.
Defined.

(** Whatever the time series, a label of the step table is one of the seven
    the passes write. *)
Lemma step_table_labels {ops : SeriesOps} (dfdata df : list sample)
      (df_steps : list step_row) (r : step_row) (t : step_type) :
  make_step_table dfdata = Ok (df, df_steps) ->
  In r df_steps -> type r = Some t ->
  In t [ir; cv_charge; cv_discharge; charge; discharge;
        ocvrlx_down; ocvrlx_up].
Proof.
  intros E Hr Ht.
  destruct (make_step_table_rows dfdata) as (rows & E' & H).
  rewrite E' in E. inversion E; subst. clear E.
  apply in_map_iff in Hr as (r0 & <- & Hr0).
  assert (Hnone : type r0 = None).
  { clear -H Hr0. induction H as [|p r ps rows Hp _ IH]; [contradiction|].
    destruct Hr0 as [<- | Hr0]; [apply Hp | auto]. }
  now apply (final_type_in_list r0).
Qed.

Lemma with_IR_pct_change_two {ops : SeriesOps} (x y : sample) :
  exists a b,
    with_IR_pct_change [x; y]
    = [set_IR_pct_change x a; set_IR_pct_change y b].
Proof.
  unfold with_IR_pct_change.
  destruct (series_pct_change _) as [|a [|b col]]; simpl; eauto.
Qed.

(** C1.  The rest step of [Examples.rest_step] (no current, the voltage up
    by 0.78 percent, no capacity passed) is matched by no mask: its row is
    built, with its step values, and its [type] cell stays missing.  No
    time series at all gets the label [not_known]. *)
Theorem unmatched_step_has_no_type {ops : SeriesOps} :
  (exists df r,
      make_step_table Examples.rest_step = Ok (df, [r])
      /\ values r <> None /\ type r = None)
  /\ (forall dfdata df df_steps r,
        make_step_table dfdata = Ok (df, df_steps) ->
        In r df_steps -> type r <> Some not_known).
Proof.
  split.
  - destruct (make_step_table_rows Examples.rest_step) as (rows & E & H).
    unfold Examples.rest_step in *.
    destruct (with_IR_pct_change_two
                (Examples.sample_at 1 1 1 0 0 4.0 0 0)
                (Examples.sample_at 2 1 1 10 0 4.03125 0 0)) as (a & b & Hdf).
    rewrite Hdf in H. rewrite E.
    change (visited _) with [(1, 1)%Z] in H.
    inversion H as [|p r0 ps rows' Hfill Hrest]; subst.
    inversion Hrest; subst. clear H Hrest.
    destruct Hfill as (_ & _ & (v & Hv & Hvals) & Htype & _).
    vm_compute in Hv. injection Hv as Hv.
    exists (with_IR_pct_change
              [Examples.sample_at 1 1 1 0 0 4.0 0 0;
               Examples.sample_at 2 1 1 10 0 4.03125 0 0]), (classify r0).
    split; [reflexivity|]. split; [simpl; rewrite Hvals; discriminate|].
    destruct r0 as [c0 s0 vals t0 i0]. simpl in *. subst.
    unfold final_type.
    assert (Hnc : forall b, false && b = false) by reflexivity.
    unfold no_change, current_down, charge_changed, discharge_changed,
      voltage_down, voltage_up, delta_voltage, delta_current, delta_charge,
      delta_discharge, column. simpl.
    change (0.78125 =? 0) with false.
    change (0 <? - stable_current_limit_soft) with false.
    change (stable_charge_limit_hard <? abs 0) with false.
    change (0.78125 <? - stable_voltage_limit_hard) with false.
    change (stable_voltage_limit_hard <? 0.78125) with false.
    now rewrite !andb_false_r.
  - intros dfdata df df_steps r E Hr Ht.
    pose proof (step_table_labels _ _ _ _ _ E Hr Ht) as Hin.
    simpl in Hin. intuition discriminate.
Qed.

End StepTableFacts.

(** ** Percent change, rate and the extractor *)

Module ExtractorFacts.
Import CellReader.

(** Two floats that [==] tells apart, one of them not NaN, differ. *)
Lemma float_neq (x y : float) :
  (y =? y) = true -> (x =? y) = false -> x <> y.
Proof. intros Hy Hxy E. subst. congruence. Qed.

(** C3, as the code has it.  With a non-zero start the helper returns the
    percent change.  With a zero start it returns zero under
    [default_zero=True] (the default, and what the extractor passes),
    whatever the end value is, and the raw difference only under
    [default_zero=False].  [percentage_change(0.0, 5.0)] is [0.0], not
    NaN. *)
Theorem percentage_change_cases (x0 x1 : float) :
  ((x0 =? 0) = false ->
   forall default_zero,
     _percentage_change x0 x1 default_zero = (x1 - x0) * 100 / x0)
  /\ ((x0 =? 0) = true ->
      (_percentage_change x0 x1 true =? 0) = true
      /\ ((x1 - x0 =? 0) = false -> _percentage_change x0 x1 true = 0)
      /\ _percentage_change x0 x1 false = x1 - x0)
  /\ _percentage_change 0 5 true = 0
  /\ PrimFloat.is_nan (_percentage_change 0 5 true) = false.
Proof.
  unfold _percentage_change. repeat split.
  - intros H dz. now rewrite H.
  - rewrite H. destruct (x1 - x0 =? 0) eqn:E; simpl; [exact E | reflexivity].
  - intros E. now rewrite H, E.
  - rewrite H. simpl. now rewrite andb_false_r.
Qed.

Lemma percentage_change_cases_witness :
  _percentage_change 2 3 true = (3 - 2) * 100 / 2
  /\ _percentage_change 0 5 true = 0
  /\ _percentage_change 0 5 false = 5 - 0.
Proof.
  destruct (percentage_change_cases 2 3) as (H1 & _).
  destruct (percentage_change_cases 0 5) as (_ & H2 & _).
  destruct (H2 eq_refl) as (_ & H3 & H4).
  split; [exact (H1 eq_refl true)|]. split; [exact (H3 eq_refl) | exact H4].
Defined.

(** C3 as stated fails: called the way the extractor calls it, the helper
    gives 0 for a start of 0.0 and an end of 5.0, not the raw difference
    5.0. *)
Lemma percentage_change_zero_start_counterexample :
  _percentage_change 0 5 true = 0
  /\ 5 - 0 = 5
  /\ _percentage_change 0 5 true <> 5 - 0.
Proof.
  split; [reflexivity|]. split; [reflexivity|].
  apply float_neq; reflexivity.
Qed.

Section Rates.
Context {ops : SeriesOps}.

(** C9, as the code has it.  For a slice with at least one row the
    extractor succeeds, and the rate of each quantity is its percent change
    [delta] (not its start value) over the duration, the last step time
    minus the first; over a duration of zero the rate is NaN.  The helper
    returns 0 there only when called with [default_zero=True], which the
    extractor does not do. *)
Theorem step_rate_is_delta_over_duration (first : sample)
        (more : list sample) (ir_change : float) :
  IR_pct_change first = Some ir_change ->
  let f := first :: more in
  let last := List.last f first in
  let t_delta := step_time last - step_time first in
  exists v,
    _extract_step_values f = Ok v
    /\ delta (I_ v) = _percentage_change (current first) (current last) true
    /\ delta (V_ v) = _percentage_change (voltage first) (voltage last) true
    /\ delta (Charge_ v)
       = _percentage_change (charge_capacity first) (charge_capacity last) true
    /\ delta (Discharge_ v)
       = _percentage_change (discharge_capacity first)
                            (discharge_capacity last) true
    /\ (forall q, In q [I_; V_; Charge_; Discharge_] ->
                  rate (q v) = if t_delta =? 0 then nan
                               else delta (q v) / t_delta)
    /\ (forall x0 x1, (x1 =? 0) = true ->
                      _fractional_change x0 x1 false = nan
                      /\ _fractional_change x0 x1 true = 0).
Proof.
  intros Hir f last t_delta. unfold _extract_step_values, f.
  rewrite Hir. eexists. split; [reflexivity|]. simpl.
  repeat split; try reflexivity.
  - intros q [<- | [<- | [<- | [<- | []]]]]; reflexivity.
  - unfold _fractional_change. now rewrite H.
  - unfold _fractional_change. now rewrite H.
Qed.
End Rates.

Lemma step_rate_is_delta_over_duration_witness :
  exists v,
    @_extract_step_values Examples.plain_ops Examples.ramp_step = Ok v
    /\ rate (I_ v) = delta (I_ v) / (10 - 0).
Proof.
  destruct (@step_rate_is_delta_over_duration Examples.plain_ops
              (set_IR_pct_change (Examples.sample_at 1 1 1 0 1 3.5 0 0) nan)
              [set_IR_pct_change (Examples.sample_at 2 1 1 10 2 3.5 0 0) nan]
              nan eq_refl)
    as (v & Hv & _ & _ & _ & _ & Hrate & _).
  exists v. split; [exact Hv|].
  exact (Hrate I_ (or_introl eq_refl)).
Defined.

(** C9 as stated fails: for a current going from 1 A to 2 A in ten seconds
    the rate is 10 (the percent change, 100, over the duration), while the
    start value over the duration is 0.1. *)
Lemma rate_is_not_start_over_duration_counterexample :
  exists v,
    @_extract_step_values Examples.plain_ops Examples.ramp_step = Ok v
    /\ start (I_ v) = 1
    /\ rate (I_ v) = 10
    /\ rate (I_ v) <> start (I_ v) / (10 - 0).
Proof.
  eexists. split; [reflexivity|]. simpl.
  split; [reflexivity|]. split; [reflexivity|].
  apply float_neq; reflexivity.
Qed.

End ExtractorFacts.

(** ** The cycle summary *)

Module SummaryFacts.
Import CellReader StepTableView SummaryView PyFacts StepTableFacts.

Lemma validated_test (self : cellpydata) (test_number : option nat) (n : nat) :
  _validate_test_number self test_number = Ok (Some n) ->
  exists test, nth_error (tests self) n = Some (Some test).
Proof.
  unfold _validate_test_number. intros H.
  destruct (nth_error (tests self) _) as [[test|]|] eqn:E; inversion H.
  subst. eauto.
Qed.

Lemma validate_some (self : cellpydata) (n : nat) (test : dataset) :
  nth_error (tests self) n = Some (Some test) ->
  _validate_test_number self (Some n) = Ok (Some n).
Proof. unfold _validate_test_number. now intros ->. Qed.

Lemma set_test_nth (self : cellpydata) (n : nat) (old new : dataset) :
  nth_error (tests self) n = Some (Some old) ->
  nth_error (tests (set_test self n new)) n = Some (Some new).
Proof.
  intros H. unfold set_test. simpl. rewrite nth_error_update_nth.
  rewrite Nat.eqb_refl. simpl.
  assert (n < List.length (tests self))%nat
    by (apply nth_error_Some; congruence).
  destruct (Nat.ltb_spec n (List.length (tests self))); [reflexivity | lia].
Qed.

Section Outcome.
Context {ops : SeriesOps}.

Lemma create_step_table_test (self : cellpydata) (n : nat) (test : dataset) :
  nth_error (tests self) n = Some (Some test) ->
  exists df_steps,
    create_step_table self (Some n)
    = Ok (set_test self n
            (set_step_table test (with_IR_pct_change (dfdata test)) df_steps)).
Proof.
  intros H. unfold create_step_table.
  rewrite (validate_some _ _ _ H). simpl.
  rewrite (nth_error_nth _ _ None H).
  destruct (make_step_table_rows (dfdata test)) as (rows & E & _).
  rewrite E. simpl. eauto.
Qed.

(** The last statements of [_make_summary], from a state [self2] whose
    test [n] is [test2]: the rows are selected, the columns derived and the
    summary put on the test, or the first exception comes out. *)
Lemma summary_put (self2 : cellpydata) (n : nat) (m : float)
      (convert_date use_cellpy_stat_file : bool) (test2 : dataset)
      (stat : list Z) :
  nth_error (tests self2) n = Some (Some test2) ->
  map data_point (summary_rows (dfsummary test2)) = stat ->
  match
    (mask <- (if use_cellpy_stat_file
              then Ok (isin (map data_point (dfdata test2)) stat)
              else _select_last (dfdata test2)) ;;
     derived <- derive_columns (boolean_index (dfdata test2) mask) m
                  convert_date ;;
     Ok {| summary_rows := boolean_index (dfdata test2) mask;
           summary_derived := Some derived |})
  with
  | Ok frame =>
      exists self' test',
        match nth n (tests self2) None with
        | None => Ok self2
        | Some test =>
            summary_requirment <-
              (if use_cellpy_stat_file
               then Ok (isin (map data_point (dfdata test))
                             (map data_point (summary_rows (dfsummary test))))
               else _select_last (dfdata test)) ;;
            derived <-
              derive_columns (boolean_index (dfdata test) summary_requirment)
                             m convert_date ;;
            Ok (set_test self2 n
                  (set_dfsummary test
                     {| summary_rows :=
                          boolean_index (dfdata test) summary_requirment;
                        summary_derived := Some derived |}))
        end = Ok self'
        /\ nth_error (tests self') n = Some (Some test')
        /\ dfsummary test' = frame
        /\ dfsummary_made test' = true
        /\ tests self' = update_nth n (Some test') (tests self2)
  | Raise e =>
      match nth n (tests self2) None with
      | None => Ok self2
      | Some test =>
          summary_requirment <-
            (if use_cellpy_stat_file
             then Ok (isin (map data_point (dfdata test))
                           (map data_point (summary_rows (dfsummary test))))
             else _select_last (dfdata test)) ;;
          derived <-
            derive_columns (boolean_index (dfdata test) summary_requirment)
                           m convert_date ;;
          Ok (set_test self2 n
                (set_dfsummary test
                   {| summary_rows :=
                        boolean_index (dfdata test) summary_requirment;
                      summary_derived := Some derived |}))
      end = Raise e
  end.
Proof.
  intros H2 <-. rewrite (nth_error_nth _ _ None H2).
  destruct (if use_cellpy_stat_file then _ else _) as [mask|e]; simpl;
    [|reflexivity].
  destruct (derive_columns _ _ _) as [derived|e]; simpl; [|reflexivity].
  eexists. eexists. split; [reflexivity|].
  split; [exact (set_test_nth _ _ _ _ H2)|]. repeat split.
Qed.

(** From a state whose test [n] agrees with [test] on what the summary
    reads, the rest of [_make_summary] succeeds or fails as the making of
    the summary frame does. *)
Lemma summary_tail_outcome (self : cellpydata) (n : nat) (m : float)
      (convert_date use_cellpy_stat_file ensure_step_table : bool)
      (test test1 : dataset) :
  nth_error (tests self) n = Some (Some test1) ->
  dfdata test1 = dfdata test ->
  dfsummary test1 = dfsummary test ->
  step_table_made test1 = step_table_made test ->
  match summary_made test m convert_date ensure_step_table
                     use_cellpy_stat_file with
  | Ok frame =>
      exists self' test',
        summary_tail self n m convert_date use_cellpy_stat_file
                     ensure_step_table = Ok self'
        /\ nth_error (tests self') n = Some (Some test')
        /\ dfsummary test' = frame
        /\ dfsummary_made test' = true
  | Raise e =>
      summary_tail self n m convert_date use_cellpy_stat_file
                   ensure_step_table = Raise e
  end.
Proof.
  intros H1 Hd Hs Hm.
  unfold summary_made, summary_tail, selection, summary_source.
  rewrite <- Hm, <- Hd, <- Hs.
  assert (Hfin : forall self2 test2,
             nth_error (tests self2) n = Some (Some test2) ->
             dfsummary test2 = dfsummary test1 ->
             match
               (mask <- (if use_cellpy_stat_file
                         then Ok (isin (map data_point (dfdata test2))
                                       (map data_point
                                            (summary_rows (dfsummary test1))))
                         else _select_last (dfdata test2)) ;;
                derived <- derive_columns (boolean_index (dfdata test2) mask)
                             m convert_date ;;
                Ok {| summary_rows := boolean_index (dfdata test2) mask;
                      summary_derived := Some derived |})
             with
             | Ok frame =>
                 exists self' test',
                   match nth n (tests self2) None with
                   | None => Ok self2
                   | Some test =>
                       summary_requirment <-
                         (if use_cellpy_stat_file
                          then Ok (isin (map data_point (dfdata test))
                                        (map data_point
                                             (summary_rows (dfsummary test))))
                          else _select_last (dfdata test)) ;;
                       derived <-
                         derive_columns
                           (boolean_index (dfdata test) summary_requirment)
                           m convert_date ;;
                       Ok (set_test self2 n
                             (set_dfsummary test
                                {| summary_rows :=
                                     boolean_index (dfdata test)
                                                   summary_requirment;
                                   summary_derived := Some derived |}))
                   end = Ok self'
                   /\ nth_error (tests self') n = Some (Some test')
                   /\ dfsummary test' = frame
                   /\ dfsummary_made test' = true
             | Raise e =>
                 match nth n (tests self2) None with
                 | None => Ok self2
                 | Some test =>
                     summary_requirment <-
                       (if use_cellpy_stat_file
                        then Ok (isin (map data_point (dfdata test))
                                      (map data_point
                                           (summary_rows (dfsummary test))))
                        else _select_last (dfdata test)) ;;
                     derived <-
                       derive_columns
                         (boolean_index (dfdata test) summary_requirment)
                         m convert_date ;;
                     Ok (set_test self2 n
                           (set_dfsummary test
                              {| summary_rows :=
                                   boolean_index (dfdata test)
                                                 summary_requirment;
                                 summary_derived := Some derived |}))
                 end = Raise e
             end).
  { intros self2 test2 H2 Hs2.
    pose proof (summary_put self2 n m convert_date use_cellpy_stat_file test2
                  _ H2 (f_equal (fun d => map data_point (summary_rows d))
                                Hs2)) as H.
    match type of H with
    | match ?c with _ => _ end => destruct c as [frame|e]
    end; [|exact H].
    destruct H as (self' & test' & E & Hn & Hf & Hmade & _).
    exists self', test'. auto. }
  destruct ensure_step_table; simpl.
  - rewrite (nth_error_nth _ _ None H1).
    destruct (step_table_made test1); simpl.
    + exact (Hfin self test1 H1 eq_refl).
    + destruct (create_step_table_test self n test1 H1) as (df_steps & E).
      rewrite E. simpl.
      exact (Hfin _ (set_step_table test1 (with_IR_pct_change (dfdata test1))
                                    df_steps)
                  (set_test_nth self n test1 _ H1) eq_refl).
  - exact (Hfin self test1 H1 eq_refl).
Qed.

(** [_make_summary] on a test at hand returns or raises as the making of
    the summary frame with the effective mass does, and leaves that frame
    on the test. *)
Lemma _make_summary_outcome (self : cellpydata) (test_number : option nat)
      (mass : option float)
      (update_it convert_date use_cellpy_stat_file ensure_step_table : bool)
      (n : nat) (test : dataset) :
  _validate_test_number self test_number = Ok (Some n) ->
  nth_error (tests self) n = Some (Some test) ->
  match summary_made test (effective_mass test mass) convert_date
                     ensure_step_table use_cellpy_stat_file with
  | Ok frame =>
      exists self' test',
        _make_summary self test_number mass update_it convert_date
                      use_cellpy_stat_file ensure_step_table = Ok self'
        /\ nth_error (tests self') n = Some (Some test')
        /\ dfsummary test' = frame
        /\ dfsummary_made test' = true
  | Raise e =>
      _make_summary self test_number mass update_it convert_date
                    use_cellpy_stat_file ensure_step_table = Raise e
  end.
Proof.
  intros Hval Hn. unfold _make_summary, effective_mass.
  rewrite Hval. simpl. rewrite (nth_error_nth _ _ None Hn).
  destruct mass as [m|]; [destruct (m =? 0) eqn:Em; [|destruct update_it]|].
  - exact (summary_tail_outcome self n (CellReader.mass test) convert_date
             use_cellpy_stat_file ensure_step_table test test Hn
             eq_refl eq_refl eq_refl).
  - exact (summary_tail_outcome (set_test self n (set_mass test m)) n m
             convert_date use_cellpy_stat_file ensure_step_table test
             (set_mass test m) (set_test_nth _ _ _ _ Hn)
             eq_refl eq_refl eq_refl).
  - exact (summary_tail_outcome self n m convert_date
             use_cellpy_stat_file ensure_step_table test test Hn
             eq_refl eq_refl eq_refl).
  - exact (summary_tail_outcome self n (CellReader.mass test) convert_date
             use_cellpy_stat_file ensure_step_table test test Hn
             eq_refl eq_refl eq_refl).
Qed.

(** *** The derived columns *)


(** What [derive_columns] returns when it returns. *)
Lemma derive_columns_ok (rows : list sample) (m : float)
      (convert_date : bool) (derived : summary_columns) :
  derive_columns rows m convert_date = Ok derived ->
  discharge_cap derived
  = map (fun r => discharge_capacity r * 1000000 / m) rows
  /\ charge_cap derived = map (fun r => charge_capacity r * 1000000 / m) rows
  /\ discharge_cap_loss derived = capacity_loss (discharge_cap derived)
  /\ charge_cap_loss derived = capacity_loss (charge_cap derived).
Proof.
  unfold derive_columns.
  destruct (if convert_date then _ else _) as [stamps|e]; simpl;
    [|discriminate].
  intros H. inversion H. simpl. repeat split.
Qed.



End Outcome.

(** *** The loss loop *)

Lemma fold_update_nth_length (value : nat -> float) (js : list nat)
      (loss : list float) :
  List.length (fold_left (fun loss j => update_nth j (value j) loss) js loss)
  = List.length loss.
Proof.
  revert loss. induction js as [|j js IH]; intros loss; simpl; [reflexivity|].
  now rewrite IH, update_nth_length.
Qed.

Lemma fold_update_nth_error (value : nat -> float) (n a : nat)
      (loss : list float) (j : nat) :
  nth_error
    (fold_left (fun loss j => update_nth j (value j) loss) (seq a n) loss) j
  = if ((a <=? j) && (j <? a + n) && (j <? List.length loss))%nat
    then Some (value j)
    else nth_error loss j.
Proof.
  revert a loss. induction n as [|n IH]; intros a loss; simpl.
  - destruct (Nat.leb_spec a j), (Nat.ltb_spec j (a + 0)); simpl;
      try reflexivity; lia.
  - rewrite IH, nth_error_update_nth, update_nth_length.
    destruct (Nat.leb_spec (S a) j), (Nat.leb_spec a j),
      (Nat.ltb_spec j (S a + n)), (Nat.ltb_spec j (a + S n)),
      (Nat.eqb_spec a j), (Nat.ltb_spec j (List.length loss));
      simpl; subst; try reflexivity; lia.
Qed.

Lemma capacity_loss_is_loss (capacity : list float) :
  is_loss_of capacity (capacity_loss capacity).
Proof.
  unfold is_loss_of, capacity_loss.
  set (value := fun j => match j with
                         | O => 0
                         | S j' => nth j' capacity nan - nth j capacity nan
                         end).
  change (fun (loss : list float) (j : nat) =>
            let value0 := match j with
                          | O => 0
                          | S j' => nth j' capacity nan - nth j capacity nan
                          end in
            update_nth j value0 loss)
    with (fun (loss : list float) (j : nat) => update_nth j (value j) loss).
  split; [apply fold_update_nth_length|].
  intros j Hj. apply nth_error_nth.
  rewrite fold_update_nth_error. simpl.
  destruct (Nat.ltb_spec j (List.length capacity)); [reflexivity | lia].
Qed.

(** *** Row order *)

Lemma boolean_index_In {A : Type} (l : list A) (mask : list bool) (x : A) :
  In x (boolean_index l mask) -> In x l.
Proof.
  revert mask. induction l as [|a l IH]; intros [|b mask]; simpl; try tauto.
  destruct b; simpl; intros H.
  - destruct H as [H | H]; [now left | right; eauto].
  - right. eauto.
Qed.

Lemma boolean_index_sorted {A : Type} (f : A -> Z) (l : list A)
      (mask : list bool) :
  StronglySorted Z.le (map f l) ->
  StronglySorted Z.le (map f (boolean_index l mask)).
Proof.
  revert mask. induction l as [|a l IH]; intros [|b mask] H; simpl;
    try constructor.
  simpl in H. apply StronglySorted_inv in H as [Hl Ha].
  destruct b; [|now apply IH].
  simpl. constructor; [now apply IH|].
  apply Forall_forall. intros z Hz. apply in_map_iff in Hz as (x & <- & Hx).
  apply boolean_index_In in Hx.
  rewrite Forall_forall in Ha. apply Ha. now apply in_map.
Qed.

Lemma py_max_raises (l : list Z) (e : exn) :
  py_max l = Raise e -> e = ValueError.
Proof. destruct l; simpl; intros H; now inversion H. Qed.

(** The row selection by last data points fails in one way only: a cycle
    between 1 and the largest cycle index without any row (or no row at
    all), on which [max] raises [ValueError]. *)
Lemma _select_last_raises (dfdata : list sample) (e : exn) :
  _select_last dfdata = Raise e -> e = ValueError.
Proof.
  unfold _select_last.
  destruct (py_max (map cycle_index dfdata)) as [max_step|e0] eqn:E; simpl.
  - destruct (for_each _ _ _) as [steps|e1] eqn:Eloop; simpl; [discriminate|].
    intros H. inversion H; subst e1.
    apply (for_each_raise (fun e => e = ValueError) _ _ _ _) in Eloop;
      [assumption|].
    intros j steps0 e0. cbv beta.
    destruct (py_max (map data_point _)) as [last_item|e1] eqn:Emax; simpl;
      intros H0; inversion H0; subst e1. exact (py_max_raises _ _ Emax).
  - intros H. inversion H; subst e0. exact (py_max_raises _ _ E).
Qed.

Section Claims.
Context {ops : SeriesOps}.

Lemma summary_source_cycles (test : dataset) (ensure_step_table : bool) :
  map cycle_index (summary_source test ensure_step_table)
  = map cycle_index (dfdata test).
Proof.
  unfold summary_source. destruct (_ && _); [|reflexivity].
  now apply assign_IR_pct_change_map.
Qed.



(** The summary frame, when it is made: the capacities over the mass and
    their losses. *)
Lemma summary_made_ok (test : dataset) (m : float)
      (convert_date ensure_step_table use_cellpy_stat_file : bool)
      (frame : summary_frame) :
  summary_made test m convert_date ensure_step_table use_cellpy_stat_file
  = Ok frame ->
  exists mask cols,
    selection test ensure_step_table use_cellpy_stat_file = Ok mask
    /\ summary_rows frame
       = boolean_index (summary_source test ensure_step_table) mask
    /\ summary_derived frame = Some cols
    /\ discharge_cap cols
       = map (fun r => discharge_capacity r * 1000000 / m) (summary_rows frame)
    /\ charge_cap cols
       = map (fun r => charge_capacity r * 1000000 / m) (summary_rows frame)
    /\ is_loss_of (discharge_cap cols) (discharge_cap_loss cols)
    /\ is_loss_of (charge_cap cols) (charge_cap_loss cols).
Proof.
  unfold summary_made.
  destruct (selection _ _ _) as [mask|e]; simpl; [|discriminate].
  destruct (derive_columns _ _ _) as [cols|e] eqn:Ed; simpl; [|discriminate].
  intros H. inversion H. simpl.
  destruct (derive_columns_ok _ _ _ _ Ed) as (Hd & Hc & Hdl & Hcl).
  exists mask, cols.
  split; [reflexivity|]. split; [reflexivity|]. split; [reflexivity|].
  split; [exact Hd|]. split; [exact Hc|].
  split; [rewrite Hdl | rewrite Hcl]; apply capacity_loss_is_loss.
Qed.




(** C6.  In the summary [_make_summary] leaves on the test, the discharge
    and charge capacities are the raw ones of the selected rows times 1e6
    over the mass; each loss column is as long as its capacity column, is
    0.0 in the first row and, in every later row, the capacity of the row
    before minus that of the row itself.  The rows keep the order of the
    time series, so they ascend by cycle index when the series does. *)
Theorem summary_capacity_loss (self : cellpydata) (test_number : option nat)
        (mass : option float)
        (update_it convert_date use_cellpy_stat_file ensure_step_table : bool)
        (n : nat) (test : dataset) (self' : cellpydata) :
  _validate_test_number self test_number = Ok (Some n) ->
  nth_error (tests self) n = Some (Some test) ->
  _make_summary self test_number mass update_it convert_date
                use_cellpy_stat_file ensure_step_table = Ok self' ->
  exists test' cols,
    nth_error (tests self') n = Some (Some test')
    /\ summary_derived (dfsummary test') = Some cols
    /\ discharge_cap cols
       = map (fun r => discharge_capacity r * 1000000
                       / effective_mass test mass)
             (summary_rows (dfsummary test'))
    /\ charge_cap cols
       = map (fun r => charge_capacity r * 1000000
                       / effective_mass test mass)
             (summary_rows (dfsummary test'))
    /\ is_loss_of (discharge_cap cols) (discharge_cap_loss cols)
    /\ is_loss_of (charge_cap cols) (charge_cap_loss cols)
    /\ (StronglySorted Z.le (map cycle_index (dfdata test)) ->
        StronglySorted Z.le
          (map cycle_index (summary_rows (dfsummary test')))).
Proof.
  intros Hval Hn E.
  pose proof (_make_summary_outcome self test_number mass update_it
                convert_date use_cellpy_stat_file ensure_step_table n test
                Hval Hn) as H.
  destruct (summary_made test (effective_mass test mass) convert_date
              ensure_step_table use_cellpy_stat_file) as [frame|e] eqn:Ef;
    [|congruence].
  destruct H as (self2 & test' & E2 & Hn' & Hsum & _).
  rewrite E in E2. inversion E2; subst self2. clear E2.
  apply summary_made_ok in Ef
    as (mask & cols & _ & Hrows & Hcols & Hd & Hc & Hdl & Hcl).
  exists test', cols. rewrite Hsum.
  split; [exact Hn'|]. split; [exact Hcols|].
  split; [exact Hd|]. split; [exact Hc|].
  split; [exact Hdl|]. split; [exact Hcl|].
  intros Hsorted. rewrite Hrows. apply boolean_index_sorted.
  now rewrite summary_source_cycles.
Qed.


(** [make_summary] has no mass to pass on: for one test it is
    [_make_summary] with the mass left out. *)
Lemma make_summary_passes_no_mass (self : cellpydata)
      (use_cellpy_stat_file : bool) (test_number : nat) (ensure : bool) :
  make_summary self use_cellpy_stat_file false test_number (Some ensure)
  = _make_summary self (Some test_number) None false true
                  use_cellpy_stat_file ensure.
Proof. reflexivity. Qed.
End Claims.

Lemma summary_capacity_loss_witness :
  exists self' test' cols,
    @_make_summary Examples.plain_ops Examples.one_test None None
                   false true true false = Ok self'
    /\ nth_error (tests self') 0 = Some (Some test')
    /\ summary_derived (dfsummary test') = Some cols
    /\ is_loss_of (discharge_cap cols) (discharge_cap_loss cols)
    /\ is_loss_of (charge_cap cols) (charge_cap_loss cols)
    /\ StronglySorted Z.le (map cycle_index (summary_rows (dfsummary test'))).
Proof.
  assert (E : exists self',
             @_make_summary Examples.plain_ops Examples.one_test None None
                            false true true false = Ok self')
    by (eexists; reflexivity).
  destruct E as [self' E].
  destruct (@summary_capacity_loss Examples.plain_ops Examples.one_test None
              None false true true false 0%nat Examples.three_cycle_test self'
              eq_refl eq_refl E)
    as (test' & cols & H1 & H2 & _ & _ & H3 & H4 & H5).
  exists self', test', cols. repeat split; try assumption.
  - apply H3.
  - apply H3.
  - apply H4.
  - apply H4.
  - apply H5. simpl. repeat constructor; lia.
Defined.



End SummaryFacts.

(** ** The dQ/dV converter *)

Module ConverterFacts.
Import Ica.

Lemma ediff1d_length (x : list float) :
  List.length (ediff1d x) = (List.length x - 1)%nat.
Proof.
  induction x as [|a [|b x] IH]; simpl in *; try reflexivity.
  rewrite IH. lia.
Qed.

Lemma ediff1d_nth (x : list float) (i : nat) :
  (S i < List.length x)%nat ->
  nth i (ediff1d x) nan = nth (S i) x nan - nth i x nan.
Proof.
  revert i. induction x as [|a [|b x] IH]; intros i Hi; simpl in Hi; try lia.
  destruct i as [|i]; [reflexivity|].
  change (ediff1d (a :: b :: x)) with ((b - a) :: ediff1d (b :: x)).
  change (nth (S i) ((b - a) :: ediff1d (b :: x)) nan)
    with (nth i (ediff1d (b :: x)) nan).
  rewrite IH by (simpl; lia). reflexivity.
Qed.

Lemma nth_map_in {A B : Type} (f : A -> B) (l : list A) (i : nat)
      (d : B) (d' : A) :
  (i < List.length l)%nat -> nth i (map f l) d = f (nth i l d').
Proof.
  intros H. rewrite (nth_indep _ d (f d')) by now rewrite length_map.
  apply map_nth.
Qed.

Lemma nth_tl {A : Type} (l : list A) (i : nat) (d : A) :
  nth i (List.tl l) d = nth (S i) l d.
Proof. destruct l; simpl; [now destruct i | reflexivity]. Qed.

Lemma length_tl {A : Type} (l : list A) :
  List.length (List.tl l) = (List.length l - 1)%nat.
Proof. destruct l; simpl; lia. Qed.

(** *** set_data and inspect_data *)

Section Inspect.
Context {lib : SciPy}.

Lemma inspect_data_short (self : Converter) (q v : list float) :
  capacity self = Some q -> voltage self = Some v ->
  (List.length q <= 1 \/ List.length v <= 1)%nat ->
  inspect_data self None None = Raise NullData.
Proof.
  intros Hq Hv Hlen. unfold inspect_data. rewrite Hq, Hv.
  destruct (Nat.leb_spec (List.length q) 1); [reflexivity|].
  destruct (Nat.leb_spec (List.length v) 1); [reflexivity | lia].
Qed.

(** C5, as the code has it.  [set_data] never raises [NullData]: it stores
    any two sequences of equal length, also empty or one-point ones.  The
    check is in [inspect_data], which raises [NullData] whenever a stored
    sequence is missing or has at most one point. *)
Theorem set_data_stores_short_sequences (self : Converter)
        (capacity voltage : list float) :
  List.length capacity = List.length voltage ->
  set_data self (Sequence capacity) (Some voltage)
  = Ok (with_data self (Some capacity) (Some voltage))
  /\ (forall arg v, set_data self arg v <> Raise NullData)
  /\ ((List.length capacity <= 1)%nat ->
      inspect_data (with_data self (Some capacity) (Some voltage)) None None
      = Raise NullData)
  /\ (forall c,
        Ica.capacity c = None \/ Ica.voltage c = None ->
        inspect_data c None None = Raise NullData).
Proof.
  intros Hlen. split; [|split; [|split]].
  - unfold set_data. simpl. now rewrite Hlen, Nat.eqb_refl.
  - intros [rows | q] v; unfold set_data; simpl; [discriminate|].
    destruct v as [v|]; simpl; [|discriminate].
    destruct (Nat.eqb _ _); discriminate.
  - intros H. apply (inspect_data_short _ capacity voltage); auto.
  - intros c [H | H]; unfold inspect_data; rewrite H;
      [reflexivity | now destruct (Ica.capacity c)].
Qed.
End Inspect.

Lemma set_data_stores_short_sequences_witness :
  set_data (new_converter default_settings) (Sequence []) (Some [])
  = Ok (with_data (new_converter default_settings) (Some []) (Some []))
  /\ @inspect_data Examples.plain_scipy
       (with_data (new_converter default_settings) (Some []) (Some []))
       None None
     = Raise NullData.
Proof.
  destruct (@set_data_stores_short_sequences Examples.plain_scipy
              (new_converter default_settings) [] [] eq_refl)
    as (H1 & _ & H2 & _).
  split; [exact H1 | exact (H2 (Nat.le_0_l 1))].
Defined.

(** C5 as stated fails: [set_data([], [])] and [set_data([1.0], [2.0])]
    return normally, the sequences stored. *)
Lemma set_data_empty_counterexample :
  set_data (new_converter default_settings) (Sequence []) (Some [])
  = Ok (with_data (new_converter default_settings) (Some []) (Some []))
  /\ set_data (new_converter default_settings) (Sequence [1]) (Some [2])
     = Ok (with_data (new_converter default_settings) (Some [1]) (Some [2])).
Proof. split; reflexivity. Qed.

(** *** increment_data *)

Section Increment.
Context {lib : SciPy}.

(** C4, as the code has it.  With the method ["diff"], a run of
    [increment_data] that returns leaves the evenly spaced grid
    [voltage_inverted] of [n] points, the capacity on it and the grid step;
    the quotient has [n - 1] points, the [i]-th being
    [(capacity[i+1] - capacity[i]) / step]; and the output voltage axis has
    [n - 1] points, the [i]-th being [voltage[i+1] + 0.5 * step]: half a
    step above the upper of the two samples, where the midpoint is
    [voltage[i] + 0.5 * step]. *)
Theorem increment_data_shifts_upper_sample (self self' : Converter) :
  increment_method (prm self) = "diff"%string ->
  increment_data self = Ok self' ->
  exists voltage capacity step dq v,
    voltage_inverted self' = Some voltage
    /\ capacity_inverted self' = Some capacity
    /\ voltage_inverted_step self' = Some step
    /\ incremental_capacity self' = Some dq
    /\ voltage_processed self' = Some v
    /\ List.length dq = (List.length capacity - 1)%nat
    /\ List.length v = (List.length voltage - 1)%nat
    /\ (forall i, (i < List.length dq)%nat ->
                  nth i dq nan
                  = (nth (S i) capacity nan - nth i capacity nan) / step)
    /\ (forall i, (i < List.length v)%nat ->
                  nth i v nan = nth (S i) voltage nan + 0.5 * step).
Proof.
  intros Hm. unfold increment_data.
  destruct (need (voltage_preprocessed self)) as [vp|]; simpl; [|discriminate].
  destruct (np_amin vp) as [v1|]; simpl; [|discriminate].
  destruct (np_amax vp) as [v2|]; simpl; [|discriminate].
  destruct (need (capacity_preprocessed self)) as [cp|]; simpl;
    [|discriminate].
  destruct (interp1d vp cp _ None) as [f|]; simpl; [|discriminate].
  set (grid := np_linspace v1 v2 (List.length vp)).
  set (step := (v2 - v1) / float_of_Z (Z.of_nat (List.length grid) - 1)).
  destruct (f grid) as [ci0|]; simpl; [|discriminate].
  destruct (if smoothing (prm self) then _ else _) as [ci|]; simpl;
    [|discriminate].
  rewrite Hm. simpl. intros E. inversion E; subst self'. clear E. simpl.
  exists grid, ci, step. eexists. eexists.
  repeat (split; [reflexivity|]).
  rewrite !length_map, ediff1d_length, length_tl.
  repeat (split; [reflexivity|]). split.
  - intros i Hi. rewrite (nth_map_in _ _ _ _ nan) by now rewrite ediff1d_length.
    rewrite ediff1d_nth by lia. reflexivity.
  - intros i Hi. rewrite (nth_map_in _ _ _ _ nan) by now rewrite length_tl.
    now rewrite nth_tl.
Qed.
End Increment.

Lemma increment_data_shifts_upper_sample_witness :
  exists self',
    @increment_data Examples.plain_scipy Examples.ramp_preprocessed = Ok self'
    /\ voltage_inverted self' = Some [1; 2; 3]
    /\ voltage_inverted_step self' = Some 1
    /\ incremental_capacity self' = Some [10; 10]
    /\ voltage_processed self' = Some [2.5; 3.5]
    /\ (exists voltage step v,
           voltage_inverted self' = Some voltage
           /\ voltage_inverted_step self' = Some step
           /\ voltage_processed self' = Some v
           /\ nth 0 v nan = nth 1 voltage nan + 0.5 * step).
Proof.
  assert (E : exists self',
             @increment_data Examples.plain_scipy Examples.ramp_preprocessed
             = Ok self') by (eexists; reflexivity).
  destruct E as [self' E]. exists self'.
  destruct (@increment_data_shifts_upper_sample Examples.plain_scipy
              Examples.ramp_preprocessed self' eq_refl E)
    as (voltage & capacity & step & dq & v & H1 & _ & H3 & _ & H5 & _ & Hlen
        & _ & Hv).
  split; [exact E|].
  assert (E' := E). vm_compute in E'. injection E' as <-.
  repeat (split; [reflexivity|]).
  exists voltage, step, v. repeat (split; [assumption|]).
  apply Hv. rewrite Hlen. simpl in H1. injection H1 as <-. simpl. lia.
Defined.

(** *** post_process_data *)

(** One step of a run known to return: split on the call the run is
    waiting for, and drop the case in which it raises. *)
Ltac waiting_on c :=
  lazymatch c with
  | Ok _ => fail
  | bind ?c' _ => waiting_on c'
  | match ?x with _ => _ end => waiting_on x
  | _ => destruct c eqn:?
  end.

Ltac run_step :=
  match goal with
  | |- ?c = Ok _ -> _ => waiting_on c; simpl; try discriminate
  end.

Section PostProcess.
Context {lib : SciPy}.

(** C10, as the code has it.  With [normalise] on, a run of
    [post_process_data] with the Gaussian smoothing that returns is matched
    by the run without it: same attributes, the [post_smoothing] flag
    apart, so the same [incremental_capacity] and [voltage_processed].
    (The smoothing stage can still raise, and then only the run without it
    returns.) *)
Theorem normalised_output_ignores_post_smoothing (self : Converter)
        (voltage incremental_capacity : option (list float))
        (voltage_step : option float) (smoothed : Converter) :
  normalise (prm self) = true ->
  post_process_data
    (with_settings self (set_post_smoothing (prm self) true))
    voltage incremental_capacity voltage_step = Ok smoothed ->
  exists plain,
    post_process_data
      (with_settings self (set_post_smoothing (prm self) false))
      voltage incremental_capacity voltage_step = Ok plain
    /\ plain = with_settings smoothed (set_post_smoothing (prm self) false)
    /\ Ica.incremental_capacity plain = Ica.incremental_capacity smoothed
    /\ voltage_processed plain = voltage_processed smoothed.
Proof.
  intros Hn. unfold post_process_data. simpl. rewrite Hn.
  destruct voltage as [v|]; repeat run_step;
    intros E; inversion E; subst smoothed; eexists;
    repeat split; reflexivity.
Qed.
End PostProcess.

Lemma normalised_output_ignores_post_smoothing_witness :
  exists smoothed plain,
    @post_process_data Examples.plain_scipy
      (with_settings Examples.ramp_incremented
         (set_post_smoothing Examples.ramp_settings true))
      None None None = Ok smoothed
    /\ @post_process_data Examples.plain_scipy
         (with_settings Examples.ramp_incremented
            (set_post_smoothing Examples.ramp_settings false))
         None None None = Ok plain
    /\ incremental_capacity plain = incremental_capacity smoothed
    /\ incremental_capacity smoothed = Some [30; 30].
Proof.
  assert (E : exists smoothed,
             @post_process_data Examples.plain_scipy
               (with_settings Examples.ramp_incremented
                  (set_post_smoothing Examples.ramp_settings true))
               None None None = Ok smoothed) by (eexists; reflexivity).
  destruct E as [smoothed E].
  destruct (@normalised_output_ignores_post_smoothing Examples.plain_scipy
              Examples.ramp_incremented None None None smoothed eq_refl E)
    as (plain & H1 & _ & H2 & _).
  exists smoothed, plain. split; [exact E|]. split; [exact H1|].
  split; [exact H2|].
  vm_compute in E. injection E as <-. reflexivity.
Defined.

(** C10 as stated fails on a curve whose voltage does not move.  The grid
    step is 0, so with the smoothing on [int(voltage_fwhm / voltage_step)]
    is the [int] of an infinity and raises [OverflowError], whatever the
    libraries do; with the smoothing off the run returns. *)
Lemma flat_curve_post_smoothing_counterexample :
  (forall lib : SciPy,
      @post_process_data lib
        (with_settings Examples.flat_incremented
           (set_post_smoothing default_settings true))
        None None None = Raise OverflowError)
  /\ (exists plain,
         @post_process_data Examples.plain_scipy
           (with_settings Examples.flat_incremented
              (set_post_smoothing default_settings false))
           None None None = Ok plain).
Proof.
  split; [intros lib; reflexivity | eexists; reflexivity].
Qed.

End ConverterFacts.

(** ** The order of the columns *)

Module ColumnFacts.
Import CellReader CellReaderMethods MethodsView PyFacts.

Lemma index_pop (x : string) (l : list string) (i : nat) :
  index x l = Ok i -> Permutation (x :: pop i l) l.
Proof.
  revert i. induction l as [|y l IH]; simpl; intros i H; [discriminate|].
  destruct (String.eqb_spec y x) as [->|Hne].
  - inversion H. reflexivity.
  - destruct (index x l) as [j|e]; simpl in H; inversion H. subst i. simpl.
    rewrite perm_swap. constructor. now apply IH.
Qed.

Lemma index_present (x : string) (l : list string) :
  In x l -> exists i, index x l = Ok i.
Proof.
  induction l as [|y l IH]; simpl; [contradiction|]. intros H.
  destruct (String.eqb_spec y x) as [->|Hne]; [eauto|].
  destruct H as [H|H]; [contradiction|].
  destruct (IH H) as (i & ->). simpl. eauto.
Qed.

Lemma index_absent (x : string) (l : list string) :
  ~ In x l -> index x l = Raise ValueError.
Proof.
  induction l as [|y l IH]; simpl; [reflexivity|]. intros H.
  destruct (String.eqb_spec y x) as [->|Hne]; [tauto|].
  rewrite IH by tauto. reflexivity.
Qed.

Lemma filter_all {A : Type} (p : A -> bool) (l : list A) :
  (forall c, In c l -> p c = true) -> filter p l = l.
Proof.
  induction l as [|a l IH]; simpl; intros H; [reflexivity|].
  rewrite (H a (or_introl eq_refl)), IH; auto.
Qed.

Lemma filter_keep {A : Type} (p : A -> bool) (a : A) (l : list A) :
  p a = true -> filter p (a :: l) = a :: filter p l.
Proof. intros H. simpl. now rewrite H. Qed.

Lemma has_column_In (c : string) (l : list string) :
  has_column c l = true <-> In c l.
Proof.
  unfold has_column. rewrite existsb_exists. split.
  - intros (x & Hx & E). apply String.eqb_eq in E. now subst.
  - intros H. exists c. split; [assumption | apply String.eqb_refl].
Qed.

Lemma has_column_absent (name : string) (columns : list string) :
  ~ In name columns -> has_column name columns = false.
Proof.
  intros H. destruct (has_column name columns) eqn:E; [|reflexivity].
  apply has_column_In in E. contradiction.
Qed.

Lemma pop_index_NoDup (x : string) (l : list string) (i : nat) :
  NoDup l -> index x l = Ok i ->
  pop i l = filter (fun c => negb (String.eqb c x)) l.
Proof.
  revert i. induction l as [|y l IH]; simpl; intros i Hnd H; [discriminate|].
  inversion Hnd as [|? ? Hy Hl]; subst.
  destruct (String.eqb_spec y x) as [->|Hne]; simpl.
  - inversion H. subst i. symmetry. apply filter_all.
    intros c Hc. destruct (String.eqb_spec c x); [now subst | reflexivity].
  - destruct (index x l) as [j|e]; simpl in H; inversion H. subst i. simpl.
    f_equal. now apply IH.
Qed.

Lemma move_first_Permutation (col_names column_headings : list string) :
  Permutation (fst (move_first col_names column_headings)) column_headings.
Proof.
  revert column_headings.
  induction col_names as [|c names IH]; intros cols; simpl; [reflexivity|].
  destruct (index c cols) as [i|e] eqn:E; simpl; [|reflexivity].
  rewrite IH. now apply index_pop.
Qed.

Lemma move_first_app (found later column_headings : list string) :
  move_first (found ++ later) column_headings
  = match move_first found column_headings with
    | (reached, None) => move_first later reached
    | stopped => stopped
    end.
Proof.
  revert column_headings.
  induction found as [|c found IH]; intros cols; simpl; [reflexivity|].
  destruct (index c cols) as [i|e]; [apply IH | reflexivity].
Qed.

Lemma filter_twice (c : string) (names cols : list string) :
  filter (fun c0 => negb (has_column c0 names))
         (filter (fun c0 => negb (String.eqb c0 c)) cols)
  = filter (fun c0 => negb (String.eqb c0 c || has_column c0 names)) cols.
Proof.
  induction cols as [|z cols IH]; simpl; [reflexivity|].
  destruct (String.eqb z c); simpl; [assumption|].
  destruct (has_column z names); simpl; [assumption | now rewrite IH].
Qed.

(** When every name is a column, the loop ends without an exception, the
    names in front, the last one leading, and the other columns behind
    them in the order they had. *)
Lemma move_first_present (col_names column_headings : list string) :
  NoDup column_headings -> NoDup col_names ->
  incl col_names column_headings ->
  move_first col_names column_headings
  = (rev col_names
     ++ filter (fun c => negb (has_column c col_names)) column_headings,
     None).
Proof.
  revert column_headings.
  induction col_names as [|c names IH]; intros cols Hcols Hnames Hincl.
  - simpl. now rewrite filter_all.
  - inversion Hnames as [|? ? Hc Hnd]; subst.
    assert (Hin : In c cols) by (apply Hincl; now left).
    destruct (index_present c cols Hin) as (i & E).
    simpl move_first. rewrite E, (pop_index_NoDup c cols i Hcols E).
    rewrite IH; clear IH.
    + simpl rev. rewrite <- app_assoc. simpl app. f_equal. f_equal.
      rewrite has_column_absent by assumption. simpl. f_equal.
      apply filter_twice.
    + constructor.
      * rewrite filter_In. intros [_ H]. now rewrite String.eqb_refl in H.
      * now apply NoDup_filter.
    + assumption.
    + intros a Ha. right. apply filter_In. split.
      * apply Hincl. now right.
      * destruct (String.eqb_spec a c); [subst; contradiction | reflexivity].
Qed.

(** X1.  [set_col_first] only reorders, and never fails: whatever names it
    is given, also names that are no columns or names given twice, it
    returns a frame with the columns the frame had, no more and no
    fewer. *)
Theorem set_col_first_keeps_the_columns (df col_names : list string) :
  NoDup df ->
  Permutation (set_col_first df col_names) df
  /\ NoDup (set_col_first df col_names).
Proof.
  intros Hnd.
  pose proof (move_first_Permutation col_names df) as H.
  split; [exact H|].
  apply (Permutation_NoDup (Permutation_sym H) Hnd).
Qed.

Lemma set_col_first_keeps_the_columns_witness :
  Permutation
    (set_col_first MoreExamples.raw_columns
       ["Test_Time"; "Test_Time"; "no_such_column"; "Voltage"]%string)
    MoreExamples.raw_columns
  /\ NoDup
       (set_col_first MoreExamples.raw_columns
          ["Test_Time"; "Test_Time"; "no_such_column"; "Voltage"]%string).
Proof.
  apply (set_col_first_keeps_the_columns MoreExamples.raw_columns
           ["Test_Time"; "Test_Time"; "no_such_column"; "Voltage"]%string).
  repeat constructor; simpl; intuition discriminate.
Defined.

(** X2.  On a frame with distinct columns and for distinct names that are
    all columns, [set_col_first] puts the names first in reverse order (the
    last name leads) and leaves the other columns behind them in the order
    they had. *)
Theorem set_col_first_order (df col_names : list string) :
  NoDup df -> NoDup col_names -> incl col_names df ->
  set_col_first df col_names
  = rev col_names ++ filter (fun c => negb (has_column c col_names)) df.
Proof.
  intros H1 H2 H3. unfold set_col_first.
  now rewrite move_first_present.
Qed.

Lemma set_col_first_order_witness :
  set_col_first MoreExamples.raw_columns
    ["Test_Time"; "Data_Point"; "Cycle_Index"]%string
  = ["Cycle_Index"; "Data_Point"; "Test_Time"; "DateTime"; "Step_Index";
     "Voltage"; "Charge_Capacity"; "Discharge_Capacity"]%string.
Proof.
  apply (set_col_first_order MoreExamples.raw_columns
           ["Test_Time"; "Data_Point"; "Cycle_Index"]%string).
  - repeat constructor; simpl; intuition discriminate.
  - repeat constructor; simpl; intuition discriminate.
  - intros c Hc. simpl in *. intuition auto.
Defined.

(** X3.  A name that is no column ends the reordering without an error:
    the names before it are moved, the names after it are not looked at. *)
Theorem set_col_first_stops_at_a_missing_name
        (df found later : list string) (missing : string) :
  NoDup df -> ~ In missing df ->
  set_col_first df (found ++ missing :: later) = set_col_first df found.
Proof.
  intros _ Hm. unfold set_col_first. rewrite move_first_app.
  destruct (move_first found df) as [reached [e|]] eqn:E; [reflexivity|].
  simpl. rewrite index_absent; [reflexivity|].
  intros H. apply Hm.
  apply (Permutation_in missing (move_first_Permutation found df)).
  now rewrite E.
Qed.

Lemma set_col_first_stops_at_a_missing_name_witness :
  set_col_first MoreExamples.raw_columns
    (["Test_Time"%string]
     ++ "date_time_txt"%string :: ["Data_Point"%string; "Cycle_Index"%string])
  = set_col_first MoreExamples.raw_columns ["Test_Time"]%string.
Proof.
  apply (set_col_first_stops_at_a_missing_name MoreExamples.raw_columns
           ["Test_Time"]%string ["Data_Point"; "Cycle_Index"]%string
           "date_time_txt"%string).
  - repeat constructor; simpl; intuition discriminate.
  - simpl. intuition discriminate.
Defined.

Lemma getitem_present (columns : list string) (name : string) :
  In name columns -> getitem columns name = Ok tt.
Proof.
  intros H. unfold getitem. apply has_column_In in H. now rewrite H.
Qed.

Lemma insert_first_new (columns : list string) (title : string) :
  ~ In title columns -> insert_first columns title = Ok (title :: columns).
Proof.
  intros H. unfold insert_first. now rewrite has_column_absent.
Qed.

Ltac names :=
  unfold derived_titles, cycle_index_txt, data_point_txt, datetime_txt,
    test_time_txt, charge_capacity_txt, discharge_capacity_txt,
    summary_txt_discharge_cap, summary_txt_charge_cap,
    summary_txt_cum_charge_cap, summary_txt_coul_eff, summary_txt_coul_diff,
    summary_txt_cum_coul_diff, summary_txt_discharge_cap_loss,
    summary_txt_charge_cap_loss, summary_txt_cum_discharge_cap_loss,
    summary_txt_cum_charge_cap_loss, summary_txt_datetime_txt in *.

Ltac present :=
  simpl; repeat first [assumption | left; reflexivity | right].

Ltac fresh_title Hnew :=
  let H := fresh "H" in
  simpl; intros H;
  repeat (destruct H as [H|H]; [discriminate H|]);
  refine (Hnew _ _ H); present.

(** X4.  The columns of the summary.  From a time series with distinct
    columns, among them the six the method reads, and none named like a
    derived column, [_make_summary] (dates converted, columns sorted) leaves
    a summary whose columns are: cycle index, data point, test time and the
    date as text; then the ten derived columns, the last inserted first;
    then the other columns of the time series in the order they had. *)
Theorem summary_column_order (column_names : list string) :
  NoDup column_names ->
  incl [cycle_index_txt; data_point_txt; test_time_txt; datetime_txt;
        charge_capacity_txt; discharge_capacity_txt] column_names ->
  (forall c, In c (summary_txt_datetime_txt :: derived_titles) ->
             ~ In c column_names) ->
  _make_summary_columns column_names false true true
  = Ok ([cycle_index_txt; data_point_txt; test_time_txt;
         summary_txt_datetime_txt]
        ++ derived_titles
        ++ filter
             (fun c =>
                negb (has_column c [test_time_txt; data_point_txt;
                                    cycle_index_txt]))
             column_names).
Proof.
  intros Hnd Hraw Hnew.
  assert (Hci : In cycle_index_txt column_names) by (apply Hraw; present).
  assert (Hdp : In data_point_txt column_names) by (apply Hraw; present).
  assert (Htt : In test_time_txt column_names) by (apply Hraw; present).
  assert (Hdt : In datetime_txt column_names) by (apply Hraw; present).
  assert (Hcc : In charge_capacity_txt column_names) by (apply Hraw; present).
  assert (Hdc : In discharge_capacity_txt column_names)
    by (apply Hraw; present).
  clear Hraw. unfold _make_summary_columns.
  destruct column_names as [|c0 cs] eqn:Ecols; [contradiction|].
  rewrite <- Ecols in *. clear Ecols c0 cs. names. cbn [bind].
  repeat (rewrite getitem_present by present; cbn [bind]);
  repeat (rewrite insert_first_new by fresh_title Hnew; cbn [bind];
          repeat (rewrite getitem_present by present; cbn [bind])).
  unfold loc_set_column. rewrite has_column_absent by fresh_title Hnew.
  f_equal. unfold set_col_first. rewrite move_first_present.
  - cbn [fst rev app]. do 4 f_equal.
    repeat (rewrite filter_keep by reflexivity; f_equal).
    rewrite filter_app. cbn [filter has_column existsb].
    rewrite String.eqb_refl. cbn [orb negb]. rewrite app_nil_r.
    apply filter_ext_in. intros c Hc. unfold has_column. cbn [existsb].
    destruct (String.eqb_spec c "date_time_txt"); [|reflexivity].
    subst c. exfalso. refine (Hnew _ _ Hc). present.
  - apply NoDup_app; [|repeat constructor; simpl; tauto|].
    + repeat (constructor; [fresh_title Hnew|]). assumption.
    + intros c Hc [E|[]]. subst c. revert Hc. fresh_title Hnew.
  - repeat constructor; simpl; intuition discriminate.
  - intros c Hc. simpl in Hc.
    repeat (destruct Hc as [<-|Hc]; [rewrite in_app_iff; simpl; tauto|]).
    contradiction.
Qed.

Lemma summary_column_order_witness :
  _make_summary_columns MoreExamples.raw_columns false true true
  = Ok ["Cycle_Index"; "Data_Point"; "Test_Time"; "date_time_txt";
        "Cumulated_Charge_Capacity_Loss(mAh/g)";
        "Cumulated_Discharge_Capacity_Loss(mAh/g)";
        "Charge_Capacity_Loss(mAh/g)"; "Discharge_Capacity_Loss(mAh/g)";
        "Cumulated_Coulombic_Difference(mAh/g)";
        "Coulombic_Difference(mAh/g)"; "Coulombic_Efficiency(percentage)";
        "Cumulated_Charge_Capacity(mAh/g)"; "Charge_Capacity(mAh/g)";
        "Discharge_Capacity(mAh/g)";
        "DateTime"; "Step_Index"; "Voltage"; "Charge_Capacity";
        "Discharge_Capacity"]%string.
Proof.
  apply (summary_column_order MoreExamples.raw_columns).
  - repeat constructor; simpl; intuition discriminate.
  - intros c Hc. simpl in *. intuition auto.
  - intros c Hc Hin. simpl in *.
    repeat (destruct Hc as [<-|Hc]; [intuition discriminate|]).
    contradiction.
Defined.

End ColumnFacts.

(** ** The rows of the summary *)

Module SelectionFacts.
Import CellReader SummaryView MethodsView PyFacts SummaryFacts.

Lemma fold_max_bounds (l : list Z) (x : Z) :
  (x <= fold_left Z.max l x)%Z
  /\ (forall y, In y l -> (y <= fold_left Z.max l x)%Z)
  /\ In (fold_left Z.max l x) (x :: l).
Proof.
  revert x. induction l as [|a l IH]; intros x; simpl.
  - repeat split; [lia | tauto | now left].
  - destruct (IH (Z.max x a)) as (H1 & H2 & H3). repeat split.
    + lia.
    + intros y [<-|Hy]; [lia | auto].
    + destruct H3 as [H3|H3]; [|now right; right].
      rewrite <- H3. destruct (Z.max_spec x a) as [[_ ->]|[_ ->]]; auto.
Qed.

(** [max] returns an element that no other exceeds. *)
Lemma py_max_greatest (l : list Z) (m : Z) :
  py_max l = Ok m -> In m l /\ forall y, In y l -> (y <= m)%Z.
Proof.
  destruct l as [|x l]; simpl; intros H; inversion H. subst m.
  destruct (fold_max_bounds l x) as (H1 & H2 & H3). split; [assumption|].
  intros y [<-|Hy]; auto.
Qed.

Lemma py_max_empty (l : list Z) (e : exn) : py_max l = Raise e -> l = [].
Proof. destruct l; simpl; [reflexivity | discriminate]. Qed.

Lemma collect_ok {A : Type} (f : A -> result Z) (xs : list A)
      (acc r : list Z) :
  collect f xs acc = Ok r ->
  exists vs, r = acc ++ vs /\ Forall2 (fun j v => f j = Ok v) xs vs.
Proof.
  unfold collect. revert acc.
  induction xs as [|x xs IH]; simpl; intros acc H.
  - inversion H. exists []. now rewrite app_nil_r.
  - destruct (f x) as [v|e] eqn:E; simpl in H; [|discriminate].
    destruct (IH _ H) as (vs & -> & Hvs). exists (v :: vs).
    rewrite <- app_assoc. auto.
Qed.

Lemma collect_raise {A : Type} (f : A -> result Z) (xs : list A)
      (acc : list Z) (e : exn) :
  collect f xs acc = Raise e -> exists j, In j xs /\ f j = Raise e.
Proof.
  unfold collect. revert acc.
  induction xs as [|x xs IH]; simpl; intros acc H; [discriminate|].
  destruct (f x) as [v|e'] eqn:E; simpl in H.
  - destruct (IH _ H) as (j & Hj & Ej). eauto.
  - inversion H; subst. eauto.
Qed.

Lemma Forall2_left {A B : Type} (R : A -> B -> Prop) (xs : list A)
      (ys : list B) (x : A) :
  Forall2 R xs ys -> In x xs -> exists y, In y ys /\ R x y.
Proof.
  induction 1 as [|a b xs ys Hab _ IH]; simpl; [contradiction|].
  intros [<-|Hx]; [eauto|]. destruct (IH Hx) as (y & Hy & Hr). eauto.
Qed.

Lemma Forall2_right {A B : Type} (R : A -> B -> Prop) (xs : list A)
      (ys : list B) (y : B) :
  Forall2 R xs ys -> In y ys -> exists x, In x xs /\ R x y.
Proof.
  induction 1 as [|a b xs ys Hab _ IH]; simpl; [contradiction|].
  intros [<-|Hy]; [eauto|]. destruct (IH Hy) as (x & Hx & Hr). eauto.
Qed.

Lemma _select_last_collect (dfdata : list sample) :
  _select_last dfdata
  = (max_step <- py_max (map cycle_index dfdata) ;;
     steps <- collect (fun j => last_of_cycle dfdata (Z.of_nat j + 1))
                      (seq 0 (Z.to_nat max_step)) [] ;;
     Ok (isin (map data_point dfdata) steps)).
Proof. reflexivity. Qed.

Lemma last_of_cycle_spec (dfdata : list sample) (c v : Z) :
  last_of_cycle dfdata c = Ok v ->
  (exists x, In x dfdata /\ cycle_index x = c /\ data_point x = v)
  /\ forall y, In y dfdata -> cycle_index y = c -> (data_point y <= v)%Z.
Proof.
  intros H. apply py_max_greatest in H as [Hin Hmax]. split.
  - apply in_map_iff in Hin as (x & Hx & Hin).
    apply filter_In in Hin as [Hin Hc]. apply Z.eqb_eq in Hc. eauto.
  - intros y Hy Hc. apply Hmax, in_map, filter_In. split; [assumption|].
    now apply Z.eqb_eq.
Qed.

Lemma last_of_cycle_missing (dfdata : list sample) (c : Z) :
  (forall x, In x dfdata -> cycle_index x <> c) <->
  last_of_cycle dfdata c = Raise ValueError.
Proof.
  unfold last_of_cycle. split.
  - intros H.
    assert (E : filter (fun r => (cycle_index r =? c)%Z) dfdata = []).
    { destruct (filter _ dfdata) as [|x l] eqn:E; [reflexivity|].
      assert (Hx : In x (filter (fun r => (cycle_index r =? c)%Z) dfdata))
        by (rewrite E; now left).
      apply filter_In in Hx as [Hx Hc]. apply Z.eqb_eq in Hc.
      now apply H in Hx. }
    now rewrite E.
  - intros H x Hx Hc. apply py_max_empty in H.
    apply map_eq_nil in H.
    assert (Hin : In x (filter (fun r => (cycle_index r =? c)%Z) dfdata)).
    { apply filter_In. split; [assumption | now apply Z.eqb_eq]. }
    now rewrite H in Hin.
Qed.

(** X5.  The selection of the last data points fails, with [ValueError],
    exactly when the time series has no row at all or skips a cycle: some
    number between 1 and the cycle index of a row is the cycle index of no
    row. *)
Theorem select_last_fails_on_a_missing_cycle (dfdata : list sample) :
  _select_last dfdata = Raise ValueError
  <-> dfdata = []
      \/ exists r j, In r dfdata /\ (1 <= j <= cycle_index r)%Z
                     /\ forall x, In x dfdata -> cycle_index x <> j.
Proof.
  split.
  - rewrite _select_last_collect.
    destruct (py_max (map cycle_index dfdata)) as [max_step|e] eqn:E; simpl.
    + destruct (collect _ _ _) as [steps|e] eqn:Eloop; simpl; [discriminate|].
      intros H. inversion H; subst e. right.
      apply collect_raise in Eloop as (j & Hj & Ej).
      apply py_max_greatest in E as [Hin _].
      apply in_map_iff in Hin as (r & Hr & Hin).
      apply in_seq in Hj. exists r, (Z.of_nat j + 1)%Z.
      split; [assumption|]. split; [lia|].
      now apply last_of_cycle_missing.
    + intros _. left. apply py_max_empty in E. now apply map_eq_nil in E.
  - intros [->|(r & j & Hr & Hj & Hgap)]; [reflexivity|].
    destruct (_select_last dfdata) as [mask|e] eqn:Esel;
      [|now rewrite (_select_last_raises _ _ Esel)].
    exfalso. rewrite _select_last_collect in Esel.
    destruct (py_max (map cycle_index dfdata)) as [max_step|e] eqn:E;
      simpl in Esel; [|discriminate].
    destruct (collect _ _ _) as [steps|e] eqn:Eloop; simpl in Esel;
      [|discriminate].
    apply collect_ok in Eloop as (vs & _ & Hvs).
    apply py_max_greatest in E as [_ Hmax].
    assert (Hle : (cycle_index r <= max_step)%Z) by now apply Hmax, in_map.
    destruct (Forall2_left _ _ _ (Z.to_nat (j - 1)) Hvs) as (v & _ & Ev).
    { apply in_seq. lia. }
    replace (Z.of_nat (Z.to_nat (j - 1)) + 1)%Z with j in Ev by lia.
    apply last_of_cycle_missing in Hgap. congruence.
Qed.

(** The mask of [_select_last] marks the rows whose data point is among
    the greatest data points of the cycles numbered from 1. *)
Lemma _select_last_steps (dfdata : list sample) (mask : list bool) :
  _select_last dfdata = Ok mask ->
  exists steps,
    mask = map (fun r => existsb (Z.eqb (data_point r)) steps) dfdata
    /\ forall d,
         In d steps
         <-> exists x, In x dfdata /\ (1 <= cycle_index x)%Z
                       /\ data_point x = d /\ closes_its_cycle dfdata x.
Proof.
  rewrite _select_last_collect.
  destruct (py_max (map cycle_index dfdata)) as [max_step|e] eqn:E; simpl;
    [|discriminate].
  destruct (collect _ _ _) as [steps|e] eqn:Eloop; simpl; [|discriminate].
  intros H. inversion H; subst mask. clear H.
  apply collect_ok in Eloop as (vs & -> & Hvs). simpl.
  apply py_max_greatest in E as [_ Hmax].
  exists vs. split; [unfold isin; now rewrite map_map|].
  intros d. split.
  - intros Hd. destruct (Forall2_right _ _ _ _ Hvs Hd) as (j & Hj & Ej).
    apply last_of_cycle_spec in Ej as [(x & Hx & Hc & Hdx) Hy].
    exists x. repeat split; try assumption; [lia|].
    intros y Hin Hcy. rewrite Hdx. apply Hy; [assumption | congruence].
  - intros (x & Hx & Hc & <- & Hy).
    assert (Hle : (cycle_index x <= max_step)%Z) by now apply Hmax, in_map.
    destruct (Forall2_left _ _ _ (Z.to_nat (cycle_index x - 1)) Hvs)
      as (v & Hv & Ev); [apply in_seq; lia|].
    replace (Z.of_nat (Z.to_nat (cycle_index x - 1)) + 1)%Z
      with (cycle_index x) in Ev by lia.
    apply last_of_cycle_spec in Ev as [(x' & Hx' & Hc' & Hd') Hy'].
    specialize (Hy x' Hx' Hc'). specialize (Hy' x Hx eq_refl).
    replace (data_point x) with v by lia. assumption.
Qed.

(** X6.  When the selection of the last data points returns, its mask is as
    long as the time series, and it marks a row exactly when the data point
    of the row is the greatest data point of some cycle with a cycle index
    of 1 or more.  (The row itself need not belong to that cycle: the
    comparison is on data points alone.) *)
Theorem select_last_marks_last_data_points (dfdata : list sample)
        (mask : list bool) :
  _select_last dfdata = Ok mask ->
  List.length mask = List.length dfdata
  /\ forall i r,
       nth_error dfdata i = Some r ->
       (nth i mask false = true
        <-> exists x,
              In x dfdata /\ (1 <= cycle_index x)%Z
              /\ data_point x = data_point r /\ closes_its_cycle dfdata x).
Proof.
  intros H. apply _select_last_steps in H as (steps & -> & Hsteps).
  split; [apply length_map|]. intros i r Hi.
  rewrite (nth_indep _ false (existsb (Z.eqb (data_point r)) steps))
    by (rewrite length_map; apply nth_error_Some; congruence).
  rewrite (map_nth (fun r => existsb (Z.eqb (data_point r)) steps)).
  rewrite (nth_error_nth _ _ _ Hi), <- Hsteps, existsb_exists. split.
  - intros (v & Hv & Ev). apply Z.eqb_eq in Ev. now subst v.
  - intros Hd. exists (data_point r). split; [assumption | apply Z.eqb_refl].
Qed.

Lemma select_last_marks_last_data_points_witness :
  List.length [false; true; false; true; false; true]
  = List.length Examples.three_cycles
  /\ forall i r,
       nth_error Examples.three_cycles i = Some r ->
       (nth i [false; true; false; true; false; true] false = true
        <-> exists x,
              In x Examples.three_cycles /\ (1 <= cycle_index x)%Z
              /\ data_point x = data_point r
              /\ closes_its_cycle Examples.three_cycles x).
Proof.
  exact (select_last_marks_last_data_points Examples.three_cycles
           [false; true; false; true; false; true] eq_refl).
Defined.

Lemma boolean_index_map {A : Type} (p : A -> bool) (l : list A) :
  boolean_index l (map p l) = filter p l.
Proof.
  induction l as [|a l IH]; simpl; [reflexivity|].
  now destruct (p a); rewrite IH.
Qed.

Section Rows.
Context {ops : SeriesOps}.

(** X7.  The rows of the summary, when no step table is asked for.  With
    the tester's statistics ([use_cellpy_stat_file]) they are the rows of
    the time series whose data point is a data point of the statistics.
    Without, on a time series with distinct data points and cycle indices
    from 1, they are the rows with the greatest data point of their
    cycle. *)
Theorem summary_rows_are_the_selected_rows
        (self self' : cellpydata) (n : nat) (test : dataset)
        (mass : option float) (update_it convert_date
         use_cellpy_stat_file : bool) :
  nth_error (tests self) n = Some (Some test) ->
  _make_summary self (Some n) mass update_it convert_date
                use_cellpy_stat_file false = Ok self' ->
  exists test',
    nth_error (tests self') n = Some (Some test')
    /\ if use_cellpy_stat_file
       then
         forall r,
           In r (summary_rows (dfsummary test'))
           <-> In r (dfdata test)
               /\ In (data_point r)
                     (map data_point (summary_rows (dfsummary test)))
       else
         NoDup (map data_point (dfdata test)) ->
         (forall r, In r (dfdata test) -> (1 <= cycle_index r)%Z) ->
         forall r,
           In r (summary_rows (dfsummary test'))
           <-> In r (dfdata test) /\ closes_its_cycle (dfdata test) r.
Proof.
  intros Hn E.
  pose proof (_make_summary_outcome self (Some n) mass update_it convert_date
                use_cellpy_stat_file false n test
                (validate_some _ _ _ Hn) Hn) as H.
  destruct (summary_made test (effective_mass test mass) convert_date false
              use_cellpy_stat_file) as [frame|e] eqn:Ef; [|congruence].
  destruct H as (self1 & test' & E1 & Hn1 & Hs & _).
  rewrite E in E1. inversion E1; subst self1. exists test'.
  split; [assumption|].
  apply summary_made_ok in Ef as (mask & cols & Esel & Hrows & _).
  rewrite Hs, Hrows. clear Hs Hrows.
  unfold selection, summary_source in *. simpl in *.
  destruct use_cellpy_stat_file.
  - inversion Esel; subst mask. intros r.
    unfold isin. rewrite map_map, boolean_index_map, filter_In.
    rewrite existsb_exists. split.
    + intros [Hr (d & Hd & Ed)]. apply Z.eqb_eq in Ed.
      split; [assumption | congruence].
    + intros [Hr Hd]. split; [assumption|].
      exists (data_point r). split; [assumption | apply Z.eqb_refl].
  - intros Hnd Hcycles r.
    apply _select_last_steps in Esel as (steps & -> & Hsteps).
    rewrite boolean_index_map, filter_In, existsb_exists. split.
    + intros [Hr (d & Hd & Ed)]. apply Z.eqb_eq in Ed. subst d.
      split; [assumption|].
      apply Hsteps in Hd as (x & Hx & _ & Hdx & Hlast).
      assert (x = r); [|now subst].
      clear -Hnd Hx Hr Hdx. induction (dfdata test) as [|a l IH];
        [contradiction|].
      inversion Hnd as [|? ? Ha Hl]; subst.
      destruct Hx as [<-|Hx], Hr as [<-|Hr]; auto.
      * exfalso. apply Ha. rewrite Hdx. now apply in_map.
      * exfalso. apply Ha. rewrite <- Hdx. now apply in_map.
    + intros [Hr Hlast]. split; [assumption|].
      exists (data_point r). split; [|apply Z.eqb_refl].
      apply Hsteps. exists r. auto.
Qed.
End Rows.

Lemma summary_rows_are_the_selected_rows_witness :
  exists self' test',
    @_make_summary Examples.plain_ops Examples.one_test (Some 0%nat) None
                   false true false false = Ok self'
    /\ nth_error (tests self') 0 = Some (Some test')
    /\ (NoDup (map data_point Examples.three_cycles) ->
        (forall r, In r Examples.three_cycles -> (1 <= cycle_index r)%Z) ->
        forall r,
          In r (summary_rows (dfsummary test'))
          <-> In r Examples.three_cycles
              /\ closes_its_cycle Examples.three_cycles r).
Proof.
  destruct (@_make_summary Examples.plain_ops Examples.one_test (Some 0%nat)
              None false true false false) as [self'|e] eqn:E;
    [|vm_compute in E; discriminate].
  destruct (@summary_rows_are_the_selected_rows Examples.plain_ops
              Examples.one_test self' 0 Examples.three_cycle_test None false
              true false eq_refl E) as (test' & Hn & H).
  exists self', test'. split; [reflexivity|]. split; assumption.
Defined.

End SelectionFacts.

(** ** Step numbers by type *)

Module StepNumberFacts.
Import CellReader CellReaderMethods StepTableView MethodsView PyFacts
  StepTableFacts SummaryFacts.

(** *** np.unique *)

Lemma insert_unique_In (x y : Z) (l : list Z) :
  In y (insert_unique x l) <-> y = x \/ In y l.
Proof.
  induction l as [|a l IH]; simpl; [intuition|].
  destruct (Z.ltb_spec x a); [simpl; intuition|].
  destruct (Z.eqb_spec x a); simpl; [subst; intuition|].
  rewrite IH. intuition.
Qed.

Lemma insert_unique_sorted (x : Z) (l : list Z) :
  StronglySorted Z.lt l -> StronglySorted Z.lt (insert_unique x l).
Proof.
  induction 1 as [|a l Hl IH Ha]; simpl; [repeat constructor|].
  destruct (Z.ltb_spec x a).
  - constructor; [now constructor|]. constructor; [assumption|].
    eapply Forall_impl; [|exact Ha]. simpl. intros; lia.
  - destruct (Z.eqb_spec x a); [now constructor|].
    constructor; [assumption|]. apply Forall_forall. intros y Hy.
    apply insert_unique_In in Hy as [->|Hy]; [lia|].
    rewrite Forall_forall in Ha. auto.
Qed.

Lemma np_unique_In (y : Z) (l : list Z) : In y (np_unique l) <-> In y l.
Proof.
  induction l as [|a l IH]; simpl; [tauto|].
  rewrite insert_unique_In, IH. intuition.
Qed.

Lemma np_unique_sorted (l : list Z) : StronglySorted Z.lt (np_unique l).
Proof.
  induction l as [|a l IH]; simpl; [constructor|].
  now apply insert_unique_sorted.
Qed.

Lemma sorted_NoDup (l : list Z) : StronglySorted Z.lt l -> NoDup l.
Proof.
  induction 1 as [|a l Hl IH Ha]; constructor; [|assumption].
  intros Hin. rewrite Forall_forall in Ha. specialize (Ha a Hin). lia.
Qed.

(** *** The dict *)

Lemma dict_set_fresh (out : list (Z * list Z)) (key : Z) (value : list Z) :
  ~ In key (map fst out) -> dict_set out key value = out ++ [(key, value)].
Proof.
  induction out as [|[k v] out IH]; simpl; intros H; [reflexivity|].
  destruct (Z.eqb_spec k key); [tauto|]. rewrite IH; tauto.
Qed.



Lemma filter_none {A : Type} (p : A -> bool) (l : list A) :
  (forall x, In x l -> p x = false) -> filter p l = [].
Proof.
  induction l as [|a l IH]; simpl; intros H; [reflexivity|].
  rewrite (H a (or_introl eq_refl)). auto.
Qed.

Section Facts.
Context {ops : SeriesOps} {lib : ColumnMax}.

(** [create_step_table] on a test at hand puts the table of
    [make_step_table] on it. *)
Lemma create_step_table_made (self : cellpydata) (n : nat) (test : dataset) :
  nth_error (tests self) n = Some (Some test) ->
  exists df_steps,
    make_step_table (dfdata test)
    = Ok (with_IR_pct_change (dfdata test), df_steps)
    /\ create_step_table self (Some n)
       = Ok (set_test self n
               (set_step_table test (with_IR_pct_change (dfdata test))
                               df_steps)).
Proof.
  intros H. unfold create_step_table.
  rewrite (validate_some _ _ _ H). simpl.
  rewrite (nth_error_nth _ _ None H).
  destruct (make_step_table_rows (dfdata test)) as (rows & E & _).
  rewrite E. simpl. eauto.
Qed.

Lemma unwritten_label_rows (dfdata df : list sample)
      (df_steps : list step_row) (s : string) (r : step_row) :
  make_step_table dfdata = Ok (df, df_steps) ->
  In s unwritten_labels -> In r df_steps -> type_is s r = false.
Proof.
  intros E Hs Hr. unfold type_is. destruct (type r) as [t|] eqn:Et;
    [|reflexivity].
  pose proof (step_table_labels _ _ _ _ _ E Hr Et) as Ht.
  simpl in Hs, Ht.
  repeat (destruct Ht as [<-|Ht]; [intuition (subst; reflexivity)|]).
  contradiction.
Qed.

(** The run of [get_step_numbers] for a type no pass writes: the step
    table is made and put on the test, and the loop over the cycle numbers
    gives each of them the list [[0]]. *)
Lemma unwritten_labels_run (self : cellpydata) (n : nat)
      (test : dataset) (steptype : string) (allctypes : bool) :
  nth_error (tests self) n = Some (Some test) ->
  step_table_made test = false ->
  dfdata test <> [] ->
  In (lower steptype) unwritten_labels ->
  exists df_steps,
    make_step_table (dfdata test)
    = Ok (with_IR_pct_change (dfdata test), df_steps)
    /\ get_step_numbers self true steptype allctypes false None (Some n)
       = Ok (set_test self n
               (set_step_table test (with_IR_pct_change (dfdata test))
                               df_steps),
             StepDict (map (fun c => (c, [0%Z]))
                           (np_unique (map cycle_index (dfdata test))))).
Proof.
  intros Hn Hmade Hdata Hs. unfold get_step_numbers.
  rewrite (validate_some _ _ _ Hn). cbn [bind].
  rewrite (nth_error_nth _ _ None Hn), Hmade.
  destruct (create_step_table_made self n test Hn) as (df_steps & Etab & ->).
  cbn [bind].
  set (test' := set_step_table test (with_IR_pct_change (dfdata test))
                               df_steps).
  set (self' := set_test self n test').
  assert (Hn' : nth_error (tests self') n = Some (Some test'))
    by exact (set_test_nth _ _ _ _ Hn).
  exists df_steps. split; [exact Etab|].
  change (set_test self n
            (set_step_table test (with_IR_pct_change (dfdata test))
                            df_steps))
    with self'.
  assert (Ereq : requested_step_types (lower steptype)
                 = Some [lower steptype]
                 /\ flat_map
                      (fun st =>
                         if in_strings st ["charge"; "discharge"]%string
                         then [(st ++ "_cv")%string; ("cv_" ++ st)%string]
                         else [])
                      [lower steptype] = []).
  { unfold unwritten_labels in Hs. simpl in Hs.
    repeat (destruct Hs as [<-|Hs]; [split; reflexivity|]). contradiction. }
  destruct Ereq as [-> Eadd]. rewrite Eadd, app_nil_r.
  replace (if allctypes then [lower steptype] else [lower steptype])
    with [lower steptype] by now destruct allctypes.
  rewrite (nth_error_nth _ _ None Hn'). unfold get_cycle_numbers.
  rewrite (validate_some _ _ _ Hn'). cbn [bind].
  rewrite (nth_error_nth _ _ None Hn').
  change (dfdata test') with (with_IR_pct_change (dfdata test)).
  change (step_table test') with (Some df_steps).
  unfold with_IR_pct_change.
  rewrite (assign_IR_pct_change_map cycle_index) by reflexivity.
  destruct (dfdata test) as [|r0 d0] eqn:Ed; [contradiction|].
  cbn [map]. rewrite np_amax_int_values. cbn [bind].
  change (cycle_index r0 :: map cycle_index d0)
    with (map cycle_index (r0 :: d0)).
  rewrite <- Ed in *.
  assert (Hloop : forall cycles out,
             NoDup cycles ->
             (forall c, In c cycles -> ~ In c (map fst out)) ->
             for_each cycles
               (fun cycle out =>
                  steplist <-
                    for_each [lower steptype]
                      (fun s steplist =>
                         st <- Ok df_steps ;;
                         let step :=
                           filter (fun r => type_is s r && cycle_is cycle r)
                                  st in
                         for_each step
                           (fun newstep steplist =>
                              match CellReader.step newstep with
                              | Some z => Ok (steplist ++ [z])
                              | None => Raise ValueError
                              end)
                           steplist)
                      [] ;;
                  let steplist :=
                    match steplist with
                    | [] => [0%Z]
                    | _ :: _ => steplist
                    end in
                  Ok (dict_set out cycle steplist))
               out
             = Ok (out ++ map (fun c => (c, [0%Z])) cycles)).
  { induction cycles as [|c cycles IH]; intros out Hnd Hfresh.
    - simpl. now rewrite app_nil_r.
    - inversion Hnd as [|? ? Hc Hnd']; subst.
      cbn [for_each bind].
      rewrite filter_none.
      2:{ intros r Hr.
          now rewrite (unwritten_label_rows _ _ _ _ _ Etab Hs Hr). }
      cbn [for_each bind].
      rewrite dict_set_fresh by (apply Hfresh; now left).
      rewrite IH; [now rewrite <- app_assoc | assumption |].
      intros c' Hc'. rewrite map_app, in_app_iff. simpl.
      intros [H|[H|[]]]; [|congruence].
      revert H. apply Hfresh. now right. }
  rewrite Hloop; [reflexivity | | intros c _ []].
  apply sorted_NoDup, np_unique_sorted.
Qed.

Lemma dict_get_constant (value : list Z) (keys : list Z) (c : Z) :
  (In c keys -> dict_get (map (fun k => (k, value)) keys) c = Some value)
  /\ (~ In c keys -> dict_get (map (fun k => (k, value)) keys) c = None).
Proof.
  induction keys as [|k keys [IH1 IH2]]; simpl; [tauto|].
  destruct (Z.eqb_spec k c) as [->|Hne]; split; intros H.
  - reflexivity.
  - tauto.
  - destruct H as [H|H]; [contradiction | auto].
  - apply IH2. tauto.
Qed.

(** X8.  Steps of a type no pass writes are never found.  On a test with
    a time series and no step table yet, [get_step_numbers] for ["rest"],
    ["not_known"], ["charge_cv"] or ["discharge_cv"] (in any case of
    letters) makes the step table, leaves it on the test, and returns a
    dict in which every cycle index of the time series has the list [[0]]
    that stands for no step, and no other number is a key. *)
Theorem unwritten_labels_give_step_zero (self : cellpydata) (n : nat)
        (test : dataset) (steptype : string) (allctypes : bool) :
  nth_error (tests self) n = Some (Some test) ->
  step_table_made test = false ->
  dfdata test <> [] ->
  In (lower steptype) unwritten_labels ->
  exists self' test' df_steps out,
    get_step_numbers self true steptype allctypes false None (Some n)
    = Ok (self', StepDict out)
    /\ nth_error (tests self') n = Some (Some test')
    /\ step_table_made test' = true
    /\ step_table test' = Some df_steps
    /\ make_step_table (dfdata test) = Ok (dfdata test', df_steps)
    /\ (forall c r, In r (dfdata test) -> cycle_index r = c ->
                    dict_get out c = Some [0%Z])
    /\ (forall c, (forall r, In r (dfdata test) -> cycle_index r <> c) ->
                  dict_get out c = None).
Proof.
  intros Hn Hmade Hdata Hs.
  destruct (unwritten_labels_run self n test steptype allctypes
              Hn Hmade Hdata Hs) as (df_steps & Etab & E).
  eexists. eexists. exists df_steps. eexists.
  split; [exact E|].
  split; [exact (set_test_nth _ _ _ _ Hn)|].
  split; [reflexivity|]. split; [reflexivity|]. split; [exact Etab|].
  split.
  - intros c r Hr Hc. apply dict_get_constant, np_unique_In.
    rewrite <- Hc. now apply in_map.
  - intros c Hc. apply dict_get_constant. rewrite np_unique_In, in_map_iff.
    intros (r & E' & Hr). exact (Hc r Hr E').
Qed.

(** X9.  A step type that is neither a core type nor a helper type gives
    no result, but only after the step table has been made: on a test
    without a step table, the call returns [None] and leaves the instance
    with the step table of the test built. *)
Theorem invalid_step_type_still_makes_the_step_table
        (self : cellpydata) (n : nat) (test : dataset) (steptype : string)
        (allctypes pdtype : bool) (cycle_number : option Z) :
  nth_error (tests self) n = Some (Some test) ->
  step_table_made test = false ->
  requested_step_types (lower steptype) = None ->
  exists self' test' df_steps,
    get_step_numbers self true steptype allctypes pdtype cycle_number (Some n)
    = Ok (self', NoSteps)
    /\ nth_error (tests self') n = Some (Some test')
    /\ step_table_made test' = true
    /\ step_table test' = Some df_steps
    /\ make_step_table (dfdata test) = Ok (dfdata test', df_steps).
Proof.
  intros Hn Hmade Hreq. unfold get_step_numbers.
  rewrite (validate_some _ _ _ Hn). cbn [bind].
  rewrite (nth_error_nth _ _ None Hn), Hmade.
  destruct (create_step_table_made self n test Hn) as (df_steps & Etab & ->).
  cbn [bind]. rewrite Hreq. eexists. eexists. exists df_steps.
  split; [reflexivity|].
  split; [exact (set_test_nth _ _ _ _ Hn)|]. repeat split. exact Etab.
Qed.


End Facts.

Lemma unwritten_labels_give_step_zero_witness :
  exists self' test' out,
    @get_step_numbers Examples.plain_ops MoreExamples.plain_max
      Examples.one_test true "Rest" true false None (Some 0%nat)
    = Ok (self', StepDict out)
    /\ nth_error (tests self') 0 = Some (Some test')
    /\ step_table_made test' = true
    /\ dict_get out 2 = Some [0%Z]
    /\ dict_get out 4 = None.
Proof.
  destruct (@unwritten_labels_give_step_zero Examples.plain_ops
              MoreExamples.plain_max Examples.one_test 0
              Examples.three_cycle_test "Rest" true
              eq_refl eq_refl)
    as (self' & test' & df_steps & out & E & Hn & Hmade & _ & _ & Hin & Hout).
  - discriminate.
  - left. reflexivity.
  - exists self', test', out. split; [exact E|]. split; [exact Hn|].
    split; [exact Hmade|]. split.
    + apply (Hin 2%Z (Examples.sample_at 3 2 1 0 1 3.5 0.0009765625 0)).
      * simpl. tauto.
      * reflexivity.
    + apply Hout. intros r Hr. simpl in Hr.
      repeat (destruct Hr as [<-|Hr]; [discriminate|]). contradiction.
Defined.

Lemma invalid_step_type_still_makes_the_step_table_witness :
  exists self' test' df_steps,
    @get_step_numbers Examples.plain_ops MoreExamples.plain_max
      Examples.one_test true "charging"
                      true false None (Some 0%nat)
    = Ok (self', NoSteps)
    /\ nth_error (tests self') 0 = Some (Some test')
    /\ step_table_made test' = true
    /\ step_table test' = Some df_steps
    /\ @make_step_table Examples.plain_ops Examples.three_cycles
       = Ok (dfdata test', df_steps).
Proof.
  exact (@invalid_step_type_still_makes_the_step_table Examples.plain_ops
           MoreExamples.plain_max Examples.one_test 0
           Examples.three_cycle_test "charging" true false None
           eq_refl eq_refl eq_refl).
Defined.


End StepNumberFacts.

(** ** Masses, and the summary of every test *)

Module MassFacts.
Import CellReader CellReaderMethods StepTableView SummaryView MethodsView
  PyFacts StepTableFacts SummaryFacts.

Lemma set_masses_from (ms : list float) (k : nat) :
  forall (a : nat) (self : cellpydata),
    (a + k <= List.length (tests self))%nat ->
    exists self',
      for_each (combine (seq a k) ms)
               (fun tm self => set_one_mass self (fst tm) (snd tm)) self
      = Ok self'
      /\ forall i,
           nth_error (tests self') i
           = if ((a <=? i) && (i <? a + k))%nat
             then match nth_error (tests self) i, nth_error ms (i - a) with
                  | Some (Some test), Some m => Some (Some (give_mass test m))
                  | t, _ => t
                  end
             else nth_error (tests self) i.
Proof.
  revert ms. induction k as [|k IH]; intros ms a self Hk.
  - exists self. split; [reflexivity|]. intros i.
    destruct (Nat.leb_spec a i), (Nat.ltb_spec i (a + 0)); simpl;
      try reflexivity; lia.
  - destruct ms as [|m ms].
    + exists self. split; [reflexivity|]. intros i.
      destruct (_ && _); [|reflexivity].
      destruct (nth_error (tests self) i) as [[t|]|];
        destruct (i - a)%nat; reflexivity.
    + cbn [seq combine for_each fst snd]. unfold set_one_mass at 1.
      destruct (nth_error (tests self) a) as [[test|]|] eqn:Ea.
      * cbn [bind].
        destruct (IH ms (S a) (set_test self a (give_mass test m)))
          as (self' & -> & Hi).
        { simpl. rewrite update_nth_length. lia. }
        exists self'. split; [reflexivity|]. intros i. rewrite Hi.
        simpl tests. rewrite nth_error_update_nth.
        destruct (Nat.eqb_spec a i) as [<-|Hne].
        -- assert (a < List.length (tests self))%nat
             by (apply nth_error_Some; congruence).
           destruct (Nat.leb_spec (S a) a), (Nat.leb_spec a a),
             (Nat.ltb_spec a (a + S k)),
             (Nat.ltb_spec a (List.length (tests self))); try lia.
           simpl. now rewrite Ea, Nat.sub_diag.
        -- simpl andb at 2.
           destruct (Nat.leb_spec (S a) i), (Nat.leb_spec a i),
             (Nat.ltb_spec i (S a + k)), (Nat.ltb_spec i (a + S k));
             simpl; try reflexivity; try lia.
           replace (i - a)%nat with (S (i - S a)) by lia. reflexivity.
      * cbn [bind]. destruct (IH ms (S a) self) as (self' & -> & Hi); [lia|].
        exists self'. split; [reflexivity|]. intros i. rewrite Hi.
        destruct (Nat.eqb_spec a i) as [<-|Hne].
        -- destruct (Nat.leb_spec (S a) a); [lia|]. simpl. rewrite Ea.
           now destruct (_ && _).
        -- destruct (Nat.leb_spec (S a) i), (Nat.leb_spec a i),
             (Nat.ltb_spec i (S a + k)), (Nat.ltb_spec i (a + S k));
             simpl; try reflexivity; try lia.
           replace (i - a)%nat with (S (i - S a)) by lia. reflexivity.
      * apply nth_error_None in Ea. lia.
Qed.

(** [self.tests] after [set_mass(masses)]: test [i] gets the [i]-th mass;
    an empty test and a test past the last mass keep what they had. *)
Lemma set_mass_tests (self : cellpydata) (ms : list float) :
  tests self <> [] ->
  exists self',
    set_mass self (Masses ms) NoNumbers None = Finished (Ok self')
    /\ forall i,
         nth_error (tests self') i
         = match nth_error (tests self) i, nth_error ms i with
           | Some (Some test), Some m => Some (Some (give_mass test m))
           | t, _ => t
           end.
Proof.
  intros Hne. unfold set_mass.
  destruct (Nat.eqb_spec (List.length (tests self)) 0) as [E|_].
  { destruct (tests self); [contradiction | discriminate]. }
  destruct (set_masses_from ms (List.length (tests self)) 0 self)
    as (self' & -> & Hi); [lia|].
  exists self'. split; [reflexivity|]. intros i. rewrite Hi, Nat.sub_0_r.
  simpl. destruct (Nat.ltb_spec i (List.length (tests self)));
    [reflexivity|].
  apply nth_error_None in H. now rewrite H.
Qed.

(** X11.  [set_mass(masses)] with a list of masses, on an instance with
    tests, returns without an exception and changes nothing but masses:
    the number of tests stays, test [i] gets the [i]-th mass and is marked
    as having its mass given, and an empty test or a test past the last
    mass stays as it was. *)
Theorem set_mass_gives_each_test_its_mass (self : cellpydata)
        (ms : list float) :
  tests self <> [] ->
  exists self',
    set_mass self (Masses ms) NoNumbers None = Finished (Ok self')
    /\ List.length (tests self') = List.length (tests self)
    /\ forall i,
         nth_error (tests self') i
         = match nth_error (tests self) i, nth_error ms i with
           | Some (Some test), Some m => Some (Some (give_mass test m))
           | t, _ => t
           end.
Proof.
  intros Hne. destruct (set_mass_tests self ms Hne) as (self' & E & Hi).
  exists self'. split; [assumption|]. split; [|assumption].
  assert (Hnone : forall i, nth_error (tests self') i = None
                              <-> nth_error (tests self) i = None).
  { intros i. rewrite Hi.
    destruct (nth_error (tests self) i) as [[t|]|];
      [destruct (nth_error ms i)| |]; split; auto; discriminate. }
  apply Nat.le_antisymm.
  - apply nth_error_None, Hnone, nth_error_None. lia.
  - apply nth_error_None, Hnone, nth_error_None. lia.
Qed.

Lemma set_mass_gives_each_test_its_mass_witness :
  exists self',
    set_mass MoreExamples.tests_around_an_empty_one (Masses [0.5; 0.25])
             NoNumbers None = Finished (Ok self')
    /\ List.length (tests self') = 3%nat
    /\ forall i,
         nth_error (tests self') i
         = match nth_error (tests MoreExamples.tests_around_an_empty_one) i,
                 nth_error [0.5; 0.25] i with
           | Some (Some test), Some m => Some (Some (give_mass test m))
           | t, _ => t
           end.
Proof.
  apply (set_mass_gives_each_test_its_mass
           MoreExamples.tests_around_an_empty_one [0.5; 0.25]).
  discriminate.
Defined.

(** X12.  [get_mass] after [set_mass]: the mass read for a test that is
    not empty is the mass the list had for it. *)
Theorem get_mass_after_set_mass (self : cellpydata) (ms : list float)
        (n : nat) (test : dataset) (m : float) :
  nth_error (tests self) n = Some (Some test) ->
  nth_error ms n = Some m ->
  exists self',
    set_mass self (Masses ms) NoNumbers None = Finished (Ok self')
    /\ get_mass self' (Some n) = Ok (Some m).
Proof.
  intros Hn Hm. destruct (set_mass_tests self ms) as (self' & E & Hi).
  { intros H. rewrite H in Hn. now destruct n. }
  exists self'. split; [assumption|].
  specialize (Hi n). rewrite Hn, Hm in Hi.
  unfold get_mass. rewrite (validate_some _ _ _ Hi). simpl.
  now rewrite (nth_error_nth _ _ None Hi).
Qed.

Lemma get_mass_after_set_mass_witness :
  exists self',
    set_mass Examples.one_test (Masses [0.5]) NoNumbers None
    = Finished (Ok self')
    /\ get_mass self' (Some 0%nat) = Ok (Some 0.5).
Proof.
  exact (get_mass_after_set_mass Examples.one_test [0.5] 0
           Examples.three_cycle_test 0.5 eq_refl eq_refl).
Defined.

Section Summary.
Context {ops : SeriesOps}.


(** *** make_summary over all tests *)

Lemma make_summary_all_tests (self : cellpydata) (use_cellpy_stat_file : bool)
      (test_number : nat) (ensure_step_table : option bool) :
  make_summary self use_cellpy_stat_file true test_number ensure_step_table
  = summarise_tests use_cellpy_stat_file
      (match ensure_step_table with
       | None => CellReader.ensure_step_table self
       | Some b => b
       end)
      (seq 0 (List.length (tests self))) self.
Proof. reflexivity. Qed.

Lemma update_nth_twice {A : Type} (n : nat) (x y : A) (l : list A) :
  update_nth n y (update_nth n x l) = update_nth n y l.
Proof.
  revert n. induction l as [|a l IH]; intros [|n]; simpl; auto.
  now rewrite IH.
Qed.

Lemma update_nth_map_app {A B : Type} (f : A -> B) (n : nat) (x : A)
      (l : list A) (rest : list B) :
  (n < List.length l)%nat ->
  update_nth n (f x) (map f l ++ rest) = map f (update_nth n x l) ++ rest.
Proof.
  revert n. induction l as [|a l IH]; intros [|n] H; simpl in *; try lia;
    [reflexivity|].
  rewrite IH; [reflexivity | lia].
Qed.

(** [_make_summary] as [make_summary] calls it changes test [n] and no
    other, and leaves it with a summary. *)
Lemma _make_summary_frame (self self' : cellpydata) (n : nat)
      (test : dataset) (use_cellpy_stat_file ensure_step_table : bool) :
  nth_error (tests self) n = Some (Some test) ->
  _make_summary self (Some n) None false true use_cellpy_stat_file
                ensure_step_table = Ok self' ->
  exists test',
    tests self' = update_nth n (Some test') (tests self)
    /\ dfsummary_made test' = true.
Proof.
  intros Hn. unfold _make_summary.
  rewrite (validate_some _ _ _ Hn). cbn [bind].
  rewrite (nth_error_nth _ _ None Hn).
  assert (Hfin : forall self1 test1,
             nth_error (tests self1) n = Some (Some test1) ->
             tests self1 = tests self
             \/ tests self1 = update_nth n (Some test1) (tests self) ->
             match nth n (tests self1) None with
             | None => Ok self1
             | Some test0 =>
                 summary_requirment <-
                   (if use_cellpy_stat_file
                    then Ok (isin (map data_point (dfdata test0))
                                  (map data_point
                                       (summary_rows (dfsummary test0))))
                    else _select_last (dfdata test0)) ;;
                 derived <-
                   derive_columns
                     (boolean_index (dfdata test0) summary_requirment)
                     (mass test) true ;;
                 Ok (set_test self1 n
                       (set_dfsummary test0
                          {| summary_rows :=
                               boolean_index (dfdata test0) summary_requirment;
                             summary_derived := Some derived |}))
             end = Ok self' ->
             exists test',
               tests self' = update_nth n (Some test') (tests self)
               /\ dfsummary_made test' = true).
  { intros self1 test1 H1 Hfr E.
    pose proof (summary_put self1 n (mass test) true use_cellpy_stat_file
                  test1 _ H1 eq_refl) as H.
    match type of H with
    | match ?c with _ => _ end => destruct c as [frame|e]
    end; [|congruence].
    destruct H as (self2 & test' & E2 & _ & _ & Hmade & Hupd).
    rewrite E in E2. inversion E2; subst self2.
    exists test'. split; [|assumption]. rewrite Hupd.
    destruct Hfr as [->| ->]; [reflexivity | apply update_nth_twice]. }
  destruct ensure_step_table; cbn [bind].
  - destruct (step_table_made test) eqn:Emade; cbn [bind].
    + apply (Hfin self test); [assumption | now left].
    + destruct (create_step_table_test self n test Hn) as (df_steps & ->).
      cbn [bind].
      apply (Hfin _ _ (set_test_nth self n test _ Hn)). now right.
  - apply (Hfin self test); [assumption | now left].
Qed.

Lemma summarise_tests_stops (post : list (option dataset))
      (use_cellpy_stat_file ensure_step_table : bool) (k : nat) :
  forall (a : nat) (pre : list dataset) (self self' : cellpydata),
    tests self = map Some pre ++ None :: post ->
    (a <= List.length pre < a + k)%nat ->
    (forall i t, (i < a)%nat -> nth_error pre i = Some t ->
                 dfsummary_made t = true) ->
    summarise_tests use_cellpy_stat_file ensure_step_table (seq a k) self
    = Ok self' ->
    exists pre',
      tests self' = map Some pre' ++ None :: post
      /\ List.length pre' = List.length pre
      /\ Forall (fun t => dfsummary_made t = true) pre'.
Proof.
  induction k as [|k IH]; intros a pre self self' Ht Ha Hmade; [lia|].
  cbn [seq summarise_tests].
  destruct (Nat.eq_dec a (List.length pre)) as [->|Hlt].
  - rewrite Ht, app_nth2, length_map, Nat.sub_diag by (rewrite length_map; lia).
    simpl. intros H. inversion H; subst self'. exists pre.
    split; [assumption|]. split; [reflexivity|].
    apply Forall_forall. intros t Hin.
    apply In_nth_error in Hin as (i & Hi).
    apply (Hmade i t); [|assumption]. apply nth_error_Some. congruence.
  - assert (Hlen : (a < List.length pre)%nat) by lia.
    destruct (nth_error pre a) as [t|] eqn:Et;
      [|apply nth_error_None in Et; lia].
    assert (Hn : nth_error (tests self) a = Some (Some t)).
    { rewrite Ht, nth_error_app1 by (rewrite length_map; lia).
      now rewrite nth_error_map, Et. }
    rewrite (nth_error_nth _ _ None Hn).
    destruct (_make_summary self (Some a) None false true
                use_cellpy_stat_file ensure_step_table) as [self1|e] eqn:E;
      cbn [bind]; [|discriminate].
    destruct (_make_summary_frame _ _ _ _ _ _ Hn E) as (t1 & Ht1 & Hm1).
    rewrite Ht, (update_nth_map_app Some) in Ht1 by assumption.
    intros Hrest.
    destruct (IH (S a) (update_nth a t1 pre) self1 self' Ht1) as
      (pre' & H1 & H2 & H3).
    + rewrite update_nth_length. lia.
    + intros i t0 Hi. rewrite nth_error_update_nth.
      destruct (Nat.eqb_spec a i) as [<-|Hne].
      * destruct (Nat.ltb_spec a (List.length pre)); [|lia]. simpl.
        intros Eq. inversion Eq. now subst.
      * simpl. apply Hmade. lia.
    + assumption.
    + exists pre'. rewrite update_nth_length in H2. auto.
Qed.

(** X14.  [make_summary] over all tests stops at the first empty test:
    when it returns, every test before that one has its summary, and the
    empty test and every test after it are as they were (a test with data
    after an empty one gets no summary). *)
Theorem make_summary_stops_at_the_first_empty_test
        (self self' : cellpydata) (pre : list dataset)
        (post : list (option dataset)) (use_cellpy_stat_file : bool)
        (test_number : nat) (ensure_step_table : option bool) :
  tests self = map Some pre ++ None :: post ->
  make_summary self use_cellpy_stat_file true test_number ensure_step_table
  = Ok self' ->
  exists pre',
    tests self' = map Some pre' ++ None :: post
    /\ List.length pre' = List.length pre
    /\ Forall (fun t => dfsummary_made t = true) pre'.
Proof.
  intros Ht. rewrite make_summary_all_tests.
  apply (summarise_tests_stops post _ _ _ 0 pre self self' Ht).
  - rewrite Ht, length_app, length_map. simpl. lia.
  - intros i t Hi. lia.
Qed.

End Summary.


Lemma make_summary_stops_at_the_first_empty_test_witness :
  exists self' pre',
    @make_summary Examples.plain_ops MoreExamples.tests_around_an_empty_one
                  true true 0 None = Ok self'
    /\ tests self'
       = map Some pre' ++ None :: [Some Examples.three_cycle_test]
    /\ List.length pre' = 1%nat
    /\ Forall (fun t => dfsummary_made t = true) pre'.
Proof.
  destruct (@make_summary Examples.plain_ops
              MoreExamples.tests_around_an_empty_one true true 0 None)
    as [self'|e] eqn:E; [|vm_compute in E; discriminate].
  destruct (@make_summary_stops_at_the_first_empty_test Examples.plain_ops
              MoreExamples.tests_around_an_empty_one self'
              [Examples.three_cycle_test] [Some Examples.three_cycle_test]
              true 0 None eq_refl E) as (pre' & H).
  exists self', pre'. split; [reflexivity | exact H].
Defined.

End MassFacts.

(** ** The step table: labels and a second call *)

Module StepTableMoreFacts.
Import CellReader StepTableView MethodsView PyFacts StepTableFacts
  SummaryFacts.

Lemma final_type_mask (r : step_row) (t : step_type) :
  type r = None -> final_type r = Some t -> label_mask t r = true.
Proof.
  unfold final_type, label_mask. intros Hr.
  destruct (no_change r) eqn:E1; [intros H; inversion H; subst; reflexivity|].
  destruct (voltage_stable r && current_positive r && current_down r) eqn:E2;
    [intros H; inversion H; subst; reflexivity|].
  destruct (voltage_stable r && current_negative r && current_down r) eqn:E3;
    [intros H; inversion H; subst; reflexivity|].
  destruct (charge_changed r && current_positive r) eqn:E4;
    [intros H; inversion H; subst; reflexivity|].
  destruct (discharge_changed r && current_negative r) eqn:E5;
    [intros H; inversion H; subst; reflexivity|].
  destruct (no_current_hard r && voltage_down r) eqn:E6;
    [intros H; inversion H; subst; reflexivity|].
  destruct (no_current_hard r && voltage_up r) eqn:E7;
    [intros H; inversion H; subst; reflexivity|].
  rewrite Hr. discriminate.
Qed.

Lemma final_type_none (r : step_row) :
  type r = None ->
  (final_type r = None <-> forall t, label_mask t r = false).
Proof.
  unfold final_type. intros Hr. split.
  - intros H t.
    destruct (no_change r) eqn:E1; [discriminate|].
    destruct (voltage_stable r && current_positive r && current_down r)
      eqn:E2; [discriminate|].
    destruct (voltage_stable r && current_negative r && current_down r)
      eqn:E3; [discriminate|].
    destruct (charge_changed r && current_positive r) eqn:E4; [discriminate|].
    destruct (discharge_changed r && current_negative r) eqn:E5;
      [discriminate|].
    destruct (no_current_hard r && voltage_down r) eqn:E6; [discriminate|].
    destruct (no_current_hard r && voltage_up r) eqn:E7; [discriminate|].
    destruct t; simpl; auto.
  - intros H.
    rewrite (H ir : no_change r = false).
    rewrite (H cv_charge : _ && _ && _ = false).
    rewrite (H cv_discharge : _ && _ && _ = false).
    rewrite (H charge : _ && _ = false).
    rewrite (H discharge : _ && _ = false).
    rewrite (H ocvrlx_down : _ && _ = false).
    rewrite (H ocvrlx_up : _ && _ = false). assumption.
Qed.

Lemma label_mask_classify (t : step_type) (r : step_row) :
  label_mask t (classify r) = label_mask t r.
Proof. destruct t; reflexivity. Qed.

Section Facts.
Context {ops : SeriesOps}.

(** X15.  Every label of the step table is backed by its mask: a row
    labelled [ir] has all four deltas at zero, a row labelled [charge] has
    a changed charge capacity and a positive average current, and so on for
    the seven labels the passes write; and a row has no label exactly when
    none of the seven masks holds for it. *)
Theorem step_table_labels_are_backed_by_their_masks
        (dfdata df : list sample) (df_steps : list step_row) (r : step_row) :
  make_step_table dfdata = Ok (df, df_steps) ->
  In r df_steps ->
  (forall t, type r = Some t -> label_mask t r = true)
  /\ (type r = None <-> forall t, label_mask t r = false).
Proof.
  intros E Hr.
  destruct (make_step_table_rows dfdata) as (rows & E' & H).
  rewrite E' in E. inversion E; subst. clear E.
  apply in_map_iff in Hr as (r0 & <- & Hr0).
  assert (Hnone : type r0 = None).
  { clear -H Hr0. induction H as [|p r ps rows Hp _ IH]; [contradiction|].
    destruct Hr0 as [<- | Hr0]; [apply Hp | auto]. }
  split.
  - intros t Ht. rewrite label_mask_classify.
    now apply final_type_mask.
  - simpl. rewrite (final_type_none r0 Hnone).
    split; intros Hm t;
      [rewrite label_mask_classify | rewrite <- label_mask_classify];
      apply Hm.
Qed.

Lemma assign_IR_pct_change_twice (df : list sample) (col : list float) :
  assign_IR_pct_change (assign_IR_pct_change df col) col
  = assign_IR_pct_change df col.
Proof.
  revert col. induction df as [|r df IH]; intros [|v col]; simpl;
    try reflexivity; now rewrite IH.
Qed.

Lemma with_IR_pct_change_twice (dfdata : list sample) :
  with_IR_pct_change (with_IR_pct_change dfdata) = with_IR_pct_change dfdata.
Proof.
  unfold with_IR_pct_change at 1.
  unfold with_IR_pct_change at 2.
  rewrite (assign_IR_pct_change_map internal_resistance) by reflexivity.
  apply assign_IR_pct_change_twice.
Qed.

Lemma make_step_table_again (dfdata df : list sample)
      (df_steps : list step_row) :
  make_step_table dfdata = Ok (df, df_steps) ->
  make_step_table df = Ok (df, df_steps).
Proof.
  intros E.
  assert (Hdf : df = with_IR_pct_change dfdata).
  { destruct (make_step_table_rows dfdata) as (rows & E' & _).
    rewrite E' in E. now inversion E. }
  subst df. revert E. unfold make_step_table.
  fold (with_IR_pct_change dfdata).
  fold (with_IR_pct_change (with_IR_pct_change dfdata)).
  now rewrite with_IR_pct_change_twice.
Qed.

(** X16.  [create_step_table] is idempotent: called again on the instance
    it returned, it returns that instance unchanged (same time series with
    its [IR_pct_change] column, same step table). *)
Theorem create_step_table_twice (self self1 : cellpydata)
        (test_number : option nat) :
  create_step_table self test_number = Ok self1 ->
  create_step_table self1 test_number = Ok self1.
Proof.
  unfold create_step_table.
  destruct (_validate_test_number self test_number) as [[n|]|e] eqn:Ev;
    cbn [bind]; [| |discriminate].
  - destruct (validated_test _ _ _ Ev) as (test & Hn).
    rewrite (nth_error_nth _ _ None Hn).
    destruct (make_step_table (dfdata test)) as [[df df_steps]|e] eqn:E;
      cbn [bind]; [|discriminate].
    intros H. inversion H. clear H.
    set (test1 := set_step_table test df df_steps).
    assert (Hn1 : nth_error (tests (set_test self n test1)) n
                  = Some (Some test1)) by exact (set_test_nth _ _ _ _ Hn).
    assert (Ev1 : _validate_test_number (set_test self n test1) test_number
                  = Ok (Some n)).
    { revert Ev. unfold _validate_test_number. simpl selected_test_number.
      set (v := match test_number with
                | Some n0 => n0
                | None => match selected_test_number self with
                          | Some k => k
                          | None => O
                          end
                end).
      destruct (nth_error (tests self) v) as [[t|]|] eqn:E0;
        try discriminate.
      intros H. inversion H as [Hv]. fold v. rewrite Hv.
      simpl tests. simpl tests in Hn1. now rewrite Hn1. }
    rewrite Ev1. cbn [bind]. rewrite (nth_error_nth _ _ None Hn1).
    change (dfdata test1) with df.
    rewrite (make_step_table_again _ _ _ E). cbn [bind].
    unfold set_test. simpl. now rewrite MassFacts.update_nth_twice.
  - intros H. inversion H. subst. now rewrite Ev.
Qed.

End Facts.

Lemma step_table_labels_are_backed_by_their_masks_witness :
  exists df r,
    @make_step_table Examples.plain_ops Examples.pulse_step = Ok (df, [r])
    /\ (forall t, type r = Some t -> label_mask t r = true)
    /\ (type r = None <-> forall t, label_mask t r = false).
Proof.
  destruct (@make_step_table Examples.plain_ops Examples.pulse_step)
    as [[df [|r [|r' l]]]|e] eqn:E; try (vm_compute in E; discriminate).
  exists df, r. split; [reflexivity|].
  exact (@step_table_labels_are_backed_by_their_masks Examples.plain_ops
           Examples.pulse_step df [r] r E (or_introl eq_refl)).
Defined.

Lemma create_step_table_twice_witness :
  exists self1,
    @create_step_table Examples.plain_ops Examples.one_test None = Ok self1
    /\ @create_step_table Examples.plain_ops self1 None = Ok self1.
Proof.
  destruct (@create_step_table Examples.plain_ops Examples.one_test None)
    as [self1|e] eqn:E; [|vm_compute in E; discriminate].
  exists self1. split; [reflexivity|].
  exact (@create_step_table_twice Examples.plain_ops Examples.one_test self1
           None E).
Defined.

End StepTableMoreFacts.

(** ** The functions around the converter *)

Module IcaFunctionFacts.
Import Ica IcaFunctions MethodsView PyFacts ConverterFacts.

Lemma last_default {A : Type} (l : list A) (d d' : A) :
  l <> [] -> last l d = last l d'.
Proof.
  induction l as [|a [|b l] IH]; intros H; [contradiction | reflexivity |].
  change (last (b :: l) d = last (b :: l) d'). apply IH. discriminate.
Qed.

Section Facts.
Context {lib : SciPy}.

(** X17.  The window both Savitzky-Golay smoothings use is always odd and
    at least 3, whatever the number of points and the divisor, whenever it
    is computed at all. *)
Theorem savgol_window_is_odd (p : settings) (n n_div : nat) (w : Z) :
  savgol_window p n n_div = Ok w -> (3 <= w)%Z /\ Z.odd w = true.
Proof.
  unfold savgol_window.
  destruct (np_amin _) as [d|e]; simpl; [|discriminate].
  destruct (py_int _) as [l|e]; simpl; [|discriminate].
  intros H. inversion H. clear H. split; [lia|].
  assert (Hodd : Z.odd (if (l mod 2 =? 0)%Z then (l - 1)%Z else l) = true).
  { destruct (Z.eqb_spec (l mod 2) 0) as [E|E].
    - rewrite Z.odd_sub. rewrite (Zmod_odd l) in E.
      destruct (Z.odd l); [discriminate | reflexivity].
    - rewrite (Zmod_odd l) in E. destruct (Z.odd l); [reflexivity|].
      now contradiction E. }
  destruct (Z.max_spec 3 (if (l mod 2 =? 0)%Z then (l - 1)%Z else l))
    as [[_ ->]|[_ ->]]; [assumption | reflexivity].
Qed.

Lemma inspect_data_needs_two (self : Converter) (q v : list float) :
  capacity self = Some q -> voltage self = Some v ->
  (List.length q <= 1)%nat \/ (List.length v <= 1)%nat ->
  inspect_data self None None = Raise NullData.
Proof.
  intros Hq Hv H. unfold inspect_data. rewrite Hq, Hv.
  destruct (Nat.leb_spec (List.length q) 1); [reflexivity|].
  destruct (Nat.leb_spec (List.length v) 1); [reflexivity|]. lia.
Qed.

(** X20.  [dqdv] needs two points: on a voltage and a capacity curve of
    different lengths it raises [AssertionError], and on curves of the same
    length 0 or 1 it raises [NullData], before any numerical routine is
    called. *)
Theorem dqdv_needs_two_points (voltage capacity : list float) :
  (List.length capacity <> List.length voltage ->
   dqdv voltage capacity = Raise AssertionError)
  /\ (List.length capacity = List.length voltage ->
      (List.length capacity <= 1)%nat ->
      dqdv voltage capacity = Raise NullData).
Proof.
  unfold dqdv, set_data. cbn [need bind]. split.
  - intros H. apply Nat.eqb_neq in H. now rewrite H.
  - intros H Hle. rewrite H, Nat.eqb_refl. cbn [bind].
    rewrite (inspect_data_needs_two _ capacity voltage); auto.
Qed.

(** X21.  [dqdv_cycle] needs two points in each direction: a cycle with
    fewer than two rows of direction -1 raises [NullData], and a cycle with
    fewer than two rows of direction 1 never returns a curve (it raises,
    [NullData] once the first half is converted). *)
Theorem dqdv_cycle_needs_two_points_each_way (cycle : list curve_row)
        (splitter : bool) :
  ((List.length (filter (fun r => (direction r =? -1)%Z) cycle) <= 1)%nat ->
   dqdv_cycle cycle splitter = Raise NullData)
  /\ ((List.length (filter (fun r => (direction r =? 1)%Z) cycle) <= 1)%nat ->
      exists e, dqdv_cycle cycle splitter = Raise e).
Proof.
  unfold dqdv_cycle, set_data. cbn [need bind].
  set (c_first := filter (fun r => (direction r =? -1)%Z) cycle).
  set (c_last := filter (fun r => (direction r =? 1)%Z) cycle).
  rewrite !length_map, !Nat.eqb_refl. cbn [bind]. split.
  - intros H.
    rewrite (inspect_data_needs_two _ (map row_capacity c_first)
               (map row_voltage c_first));
      [reflexivity | reflexivity | reflexivity |].
    left. now rewrite length_map.
  - intros H.
    assert (Hlast : forall self,
               capacity self = Some (map row_capacity c_last) ->
               Ica.voltage self = Some (map row_voltage c_last) ->
               inspect_data self None None = Raise NullData).
    { intros self Hq Hv. apply (inspect_data_needs_two self _ _ Hq Hv).
      left. now rewrite length_map. }
    repeat match goal with
           | |- exists e,
                 bind (inspect_data
                         (with_data _ (Some (map row_capacity c_last)) _)
                         None None) _ = Raise e =>
               rewrite Hlast by reflexivity; cbn [bind]; eauto
           | |- exists e, bind ?c _ = Raise e =>
               destruct c; cbn [bind]; [|eauto]
           end.
Qed.

(** X19.  [post_process_data] writes [incremental_capacity] and, under a
    fixed voltage range only, [voltage_processed]; the settings, the curves
    of the earlier stages, the derivative kept from before smoothing
    ([_incremental_capacity]), what the inspection recorded and the error
    notes all stay as they were. *)
Theorem post_process_data_keeps_the_raw_curves (self self' : Converter)
        (voltage incremental_capacity : option (list float))
        (voltage_step : option float) :
  post_process_data self voltage incremental_capacity voltage_step = Ok self'
  ->
  prm self' = prm self
  /\ capacity self' = capacity self
  /\ Ica.voltage self' = Ica.voltage self
  /\ capacity_preprocessed self' = capacity_preprocessed self
  /\ voltage_preprocessed self' = voltage_preprocessed self
  /\ capacity_inverted self' = capacity_inverted self
  /\ voltage_inverted self' = voltage_inverted self
  /\ _incremental_capacity self' = _incremental_capacity self
  /\ voltage_inverted_step self' = voltage_inverted_step self
  /\ seen self' = seen self
  /\ errors self' = errors self
  /\ (fixed_voltage_range (prm self) = None ->
      voltage_processed self' = voltage_processed self).
Proof.
  unfold post_process_data.
  destruct voltage as [v|]; cbn [bind];
  destruct (post_smoothing (prm self)), (normalise (prm self)); simpl;
    repeat run_step;
    intros E; inversion E; subst self'; simpl;
    repeat split; try reflexivity;
    intros Hnone; first [reflexivity | congruence].
Qed.

Lemma constrained_grid
        (capacity : list (float * float)) (minimum_v maximum_v : float)
        (v dq : option (list float)) :
  _constrained_dq_dv_using_dataframes capacity minimum_v maximum_v
  = Ok (v, dq) ->
  v = Some (np_linspace minimum_v maximum_v 100)
  /\ exists y, dq = Some y.
Proof.
  unfold _constrained_dq_dv_using_dataframes.
  cbn [set_data bind].
  destruct (inspect_data _ _ _) as [c1|e]; cbn [bind]; [|discriminate].
  destruct (pre_process_data c1) as [c2|e]; cbn [bind]; [|discriminate].
  destruct (increment_data c2) as [c3|e]; cbn [bind]; [|discriminate].
  unfold post_process_data. simpl.
  destruct (post_smoothing (prm c3)), (normalise (prm c3)); simpl;
    repeat run_step;
    intros E; inversion E; subst; simpl; eauto.
Qed.


(** X22.  The constrained transform returns its curve on the fixed grid:
    whenever it returns, the voltages are the 100 evenly spaced points from
    [minimum_v] to [maximum_v], whatever the data, and the incremental
    capacity is an array. *)
Theorem constrained_dq_dv_is_on_the_fixed_grid
        (capacity : list (float * float)) (minimum_v maximum_v : float)
        (v dq : option (list float)) :
  _constrained_dq_dv_using_dataframes capacity minimum_v maximum_v
  = Ok (v, dq) ->
  v = Some (np_linspace minimum_v maximum_v 100)
  /\ exists y, dq = Some y.
Proof. apply constrained_grid. Qed.

(** X18.  What [inspect_data] records and what it leaves.  When it
    returns, both curves inspected (the ones passed, or else the ones
    stored) have at least two points; the lengths, the number of points,
    the first and the last capacity are recorded, the last capacity also as
    the normalising factor; error notes are only added; and the stored
    curves and the settings are untouched, so curves passed as arguments are
    inspected but not stored. *)
Theorem inspect_data_records_the_curve (self self' : Converter)
        (capacity voltage : option (list float)) :
  inspect_data self capacity voltage = Ok self' ->
  exists q v,
    match capacity with None => Ica.capacity self | Some _ => capacity end
    = Some q
    /\ match voltage with None => Ica.voltage self | Some _ => voltage end
       = Some v
    /\ (2 <= List.length q)%nat /\ (2 <= List.length v)%nat
    /\ len_capacity (seen self') = Some (List.length q)
    /\ len_voltage (seen self') = Some (List.length v)
    /\ number_of_points (seen self') = Some (List.length q)
    /\ start_capacity (seen self') = Some (hd nan q)
    /\ end_capacity (seen self') = Some (last q nan)
    /\ normalising_factor (seen self') = Some (last q nan)
    /\ (exists notes, errors self' = errors self ++ notes)
    /\ Ica.capacity self' = Ica.capacity self
    /\ Ica.voltage self' = Ica.voltage self
    /\ prm self' = prm self.
Proof.
  unfold inspect_data.
  destruct (match capacity with
            | None => Ica.capacity self
            | Some _ => capacity
            end) as [q|]; [|discriminate].
  destruct (match voltage with
            | None => Ica.voltage self
            | Some _ => voltage
            end) as [v|]; [|discriminate].
  destruct (Nat.leb_spec (List.length q) 1); [discriminate|].
  destruct (Nat.leb_spec (List.length v) 1); [discriminate|].
  destruct q as [|q0 q']; [simpl in *; lia|].
  cbn [index_bounds].
  repeat run_step;
    intros E; inversion E; subst self'; clear E;
    exists (q0 :: q'), v; cbn [seen with_inspection len_capacity len_voltage
      number_of_points start_capacity end_capacity normalising_factor errors
      Ica.capacity Ica.voltage prm hd];
    rewrite (last_default (q0 :: q') nan q0) by discriminate;
    repeat split; try reflexivity; try lia;
    repeat match goal with
           | |- context [if ?b then _ else _] => destruct b
           end;
    rewrite <- ?app_assoc; eexists; try reflexivity;
    symmetry; apply app_nil_r.
Qed.

Lemma charge_curves_loop (minimum_v maximum_v : float)
      (xs : list (list (float * float) * Z)) :
  forall acc frames,
    for_each xs
      (fun cn incremental_charge_list =>
         let c := fst cn in
         let n := snd cn in
         match c with
         | _ :: _ =>
             '(v, dq) <-
               _constrained_dq_dv_using_dataframes c minimum_v maximum_v ;;
             match incremental_charge_list with
             | [] =>
                 v <- one_column v ;;
                 let d := {| name := Text "voltage"; label := "v";
                             column := v |} in
                 let incremental_charge_list :=
                   incremental_charge_list ++ [d] in
                 dq <- one_column dq ;;
                 let d :=
                   {| name := Number n; label := "dq"; column := dq |} in
                 Ok (incremental_charge_list ++ [d])
             | _ :: _ =>
                 dq <- one_column dq ;;
                 let d :=
                   {| name := Number n; label := "dq"; column := dq |} in
                 Ok (incremental_charge_list ++ [d])
             end
         | [] => Ok incremental_charge_list
         end)
      acc = Ok frames ->
    let kept :=
      map snd
          (filter (fun cn => match fst cn with [] => false | _ :: _ => true end)
                  xs) in
    match acc with
    | [] =>
        match kept with
        | [] => frames = []
        | _ :: _ =>
            exists dqs,
              frames = voltage_frame minimum_v maximum_v :: dqs
              /\ map name dqs = map Number kept
              /\ Forall (fun d => label d = "dq"%string) dqs
        end
    | _ :: _ =>
        exists dqs,
          frames = acc ++ dqs
          /\ map name dqs = map Number kept
          /\ Forall (fun d => label d = "dq"%string) dqs
    end.
Proof.
  induction xs as [|[c n] xs IH]; intros acc frames.
  - simpl. intros H. inversion H. subst.
    destruct frames; [reflexivity|]. exists []. now rewrite app_nil_r.
  - cbn [for_each fst snd filter map]. destruct c as [|row c].
    + cbn [bind]. apply IH.
    + destruct (_constrained_dq_dv_using_dataframes (row :: c) _ _)
        as [[v dq]|e] eqn:Ec; cbn [bind]; [|discriminate].
      apply constrained_grid in Ec as [-> (y & ->)].
      destruct acc as [|d0 acc]; cbn [one_column bind app]; intros H;
        apply IH in H; cbn zeta in H; destruct H as (dqs & -> & Hn & Hl).
      * eexists. split; [reflexivity|]. split.
        -- simpl. now rewrite Hn.
        -- constructor; [reflexivity | assumption].
      * exists ({| name := Number n; label := "dq"; column := y |} :: dqs).
        split; [simpl; now rewrite <- app_assoc|]. split.
        -- simpl. now rewrite Hn.
        -- constructor; [reflexivity | assumption].
Qed.

(** X23.  The frames of [_make_ica_charge_curves].  When it returns,
    there is no frame at all if every cycle frame is empty; otherwise the
    first frame is the one named ["voltage"], holding the fixed grid of 100
    points, and it is followed by one ["dq"] frame for each cycle frame
    with rows, named by its cycle number, in the order given.  Empty cycle
    frames are skipped. *)
Theorem ica_charge_curves_share_one_voltage_frame
        (cycles_dfs : list (list (float * float))) (cycle_numbers : list Z)
        (minimum_v maximum_v : float) (frames : list curve_frame) :
  _make_ica_charge_curves cycles_dfs cycle_numbers minimum_v maximum_v
  = Ok frames ->
  match with_rows cycles_dfs cycle_numbers with
  | [] => frames = []
  | _ :: _ =>
      exists dqs,
        frames = voltage_frame minimum_v maximum_v :: dqs
        /\ map name dqs = map Number (with_rows cycles_dfs cycle_numbers)
        /\ Forall (fun d => label d = "dq"%string) dqs
  end.
Proof.
  intros H. exact (charge_curves_loop _ _ _ _ _ H).
Qed.

End Facts.

Lemma savgol_window_is_odd_witness :
  exists w,
    @savgol_window Examples.plain_scipy default_settings 100 100 = Ok w
    /\ (3 <= w)%Z /\ Z.odd w = true.
Proof.
  destruct (@savgol_window Examples.plain_scipy default_settings 100 100)
    as [w|e] eqn:E; [|vm_compute in E; discriminate].
  exists w. split; [reflexivity|].
  exact (@savgol_window_is_odd Examples.plain_scipy default_settings 100 100
           w E).
Defined.

Lemma inspect_data_records_the_curve_witness :
  exists self',
    @inspect_data Examples.plain_scipy (new_converter default_settings)
                  (Some [10; 20; 30]) (Some [1; 2; 3]) = Ok self'
    /\ len_capacity (seen self') = Some 3%nat
    /\ normalising_factor (seen self') = Some 30
    /\ Ica.capacity self' = None.
Proof.
  destruct (@inspect_data Examples.plain_scipy (new_converter default_settings)
              (Some [10; 20; 30]) (Some [1; 2; 3])) as [self'|e] eqn:E;
    [|vm_compute in E; discriminate].
  destruct (@inspect_data_records_the_curve Examples.plain_scipy _ _ _ _ E)
    as (q & v & Hq & _ & _ & _ & Hlen & _ & _ & _ & _ & Hnorm & _ & Hcap & _).
  inversion Hq. subst q.
  exists self'. split; [reflexivity|]. split; [exact Hlen|].
  split; [exact Hnorm | exact Hcap].
Defined.

Lemma post_process_data_keeps_the_raw_curves_witness :
  exists self',
    @post_process_data Examples.plain_scipy Examples.ramp_incremented
                       None None None = Ok self'
    /\ _incremental_capacity self' = Some [10; 10]
    /\ voltage_processed self' = Some [2.5; 3.5].
Proof.
  destruct (@post_process_data Examples.plain_scipy Examples.ramp_incremented
              None None None) as [self'|e] eqn:E;
    [|vm_compute in E; discriminate].
  destruct (@post_process_data_keeps_the_raw_curves Examples.plain_scipy
              _ _ _ _ _ E)
    as (_ & _ & _ & _ & _ & _ & _ & Hraw & _ & _ & _ & Hv).
  exists self'. split; [reflexivity|]. split; [exact Hraw|].
  exact (Hv eq_refl).
Defined.

Lemma constrained_dq_dv_is_on_the_fixed_grid_witness :
  exists v dq,
    @_constrained_dq_dv_using_dataframes Examples.plain_scipy
      MoreExamples.ramp_frame 1 3 = Ok (v, dq)
    /\ v = Some (@np_linspace Examples.plain_scipy 1 3 100)
    /\ exists y, dq = Some y.
Proof.
  destruct (@_constrained_dq_dv_using_dataframes Examples.plain_scipy
              MoreExamples.ramp_frame 1 3) as [[v dq]|e] eqn:E;
    [|vm_compute in E; discriminate].
  exists v, dq. split; [reflexivity|].
  exact (@constrained_dq_dv_is_on_the_fixed_grid Examples.plain_scipy
           _ _ _ _ _ E).
Defined.

Lemma ica_charge_curves_share_one_voltage_frame_witness :
  exists frames dqs,
    @_make_ica_charge_curves Examples.plain_scipy
      [[]; MoreExamples.ramp_frame; []; MoreExamples.ramp_frame]
      [1; 2; 3; 4]%Z 1 3 = Ok frames
    /\ frames = @voltage_frame Examples.plain_scipy 1 3 :: dqs
    /\ map name dqs = [Number 2; Number 4]
    /\ Forall (fun d => label d = "dq"%string) dqs.
Proof.
  destruct (@_make_ica_charge_curves Examples.plain_scipy
              [[]; MoreExamples.ramp_frame; []; MoreExamples.ramp_frame]
              [1; 2; 3; 4]%Z 1 3) as [frames|e] eqn:E;
    [|vm_compute in E; discriminate].
  destruct (@ica_charge_curves_share_one_voltage_frame Examples.plain_scipy
              _ _ _ _ _ E) as (dqs & H).
  exists frames, dqs. split; [reflexivity | exact H].
Defined.

End IcaFunctionFacts.

(** ** The farms of a Doer *)

Module BatchCoreFacts.
Import BatchCore PyFacts.

Section Facts.
Context {object : Type} (is_base_experiment : object -> bool).

Lemma validated_args (args : list object) (r : option (list object)) :
  _validate_base_experiment_type is_base_experiment args = Ok r ->
  Forall (fun arg => is_base_experiment arg = true) args
  /\ r = match args with [] => None | _ :: _ => Some args end.
Proof.
  unfold _validate_base_experiment_type.
  destruct args as [|a args]; [intros H; now inversion H|].
  cbn [List.length Nat.eqb].
  generalize (a :: args). clear a args. intros args.
  assert (Hloop : forall u,
             for_each args
               (fun arg (_ : unit) =>
                  if negb (is_base_experiment arg) then Raise TypeError
                  else Ok tt) u = Ok tt ->
             Forall (fun arg => is_base_experiment arg = true) args).
  { induction args as [|a args IH]; intros u; simpl; [constructor|].
    destruct (is_base_experiment a) eqn:Ea; simpl; [|discriminate].
    intros H. constructor; eauto. }
  destruct (for_each args _ tt) as [[]|e] eqn:E; cbn [bind]; [|discriminate].
  intros H. inversion H. split; [now apply (Hloop tt)|].
  destruct args; reflexivity.
Qed.

Lemma fold_assign (more : list object) (self : Doer (object := object)) :
  experiments (fold_left assign more self) = experiments self ++ more
  /\ farms (fold_left assign more self)
     = farms self ++ repeat empty_farm (List.length more).
Proof.
  revert self. induction more as [|x more IH]; intros self; simpl.
  - now rewrite !app_nil_r.
  - destruct (IH (assign self x)) as [-> ->]. simpl.
    now rewrite <- !app_assoc.
Qed.

(** X24.  The farms of a [Doer].  A [Doer] built from arguments that all
    are experiments and then given more experiments with [assign] holds all
    of these experiments, but only one farm for all the arguments of the
    constructor, and one for each experiment assigned; and every one of its
    farms is the same list, the module's [empty_farm].  Only
    [empty_the_farms] gives it lists of its own: as many as before,
    pairwise distinct, none of them the shared one. *)
Theorem doer_farms_are_one_shared_list (args more : list object)
        (self : Doer) (next : nat) :
  __init__ is_base_experiment args = Ok self ->
  Forall (fun arg => is_base_experiment arg = true) args
  /\ experiments (fold_left assign more self) = args ++ more
  /\ farms (fold_left assign more self)
     = repeat empty_farm
              (match args with [] => 0 | _ :: _ => 1 end
               + List.length more)%nat
  /\ List.length
       (farms (fst (empty_the_farms (fold_left assign more self) next)))
     = List.length (farms (fold_left assign more self))
  /\ NoDup (farms (fst (empty_the_farms (fold_left assign more self) next)))
  /\ ~ In empty_farm
          (farms (fst (empty_the_farms (fold_left assign more self) next))).
Proof.
  unfold __init__.
  destruct (_validate_base_experiment_type is_base_experiment args)
    as [r|e] eqn:Ev; cbn [bind]; [|discriminate].
  destruct (validated_args _ _ Ev) as [Hall ->].
  intros H. split; [assumption|].
  destruct (fold_assign more self) as [He Hf].
  rewrite He. split; [|split].
  - destruct args; inversion H; reflexivity.
  - rewrite Hf. destruct args; inversion H; reflexivity.
  - cbn [empty_the_farms fst farms]. rewrite length_map, length_seq.
    split; [reflexivity|]. split.
    + apply Finite.Injective_map_NoDup_in; [|apply seq_NoDup].
      intros x y _ _ E. now inversion E.
    + rewrite in_map_iff. intros (x & E & _). discriminate.
Qed.

End Facts.

Lemma doer_farms_are_one_shared_list_witness :
  experiments
    (fold_left assign [3%nat]
       {| experiments := [1%nat; 2%nat]; farms := [empty_farm] |})
  = [1; 2; 3]%nat
  /\ farms
       (fold_left assign [3%nat]
          {| experiments := [1%nat; 2%nat]; farms := [empty_farm] |})
     = [empty_farm; empty_farm].
Proof.
  destruct (doer_farms_are_one_shared_list (fun _ : nat => true)
              [1%nat; 2%nat] [3%nat]
              {| experiments := [1%nat; 2%nat]; farms := [empty_farm] |}
              0 eq_refl) as (_ & He & Hf & _).
  split; [exact He | exact Hf].
Defined.

End BatchCoreFacts.

(** ** The order of the step table *)

Module OrderFacts.
Import CellReader CellReaderMethods StepTableView MethodsView PyFacts
  StepTableFacts SummaryFacts SelectionFacts StepNumberFacts.

Lemma in_cycle_steps (c : Z) (df : list sample) :
  map step_index (in_cycle c df)
  = map snd (filter (fun p => (fst p =? c)%Z) (map key df)).
Proof.
  unfold in_cycle. induction df as [|r df IH]; simpl; [reflexivity|].
  destruct (cycle_index r =? c)%Z; simpl; now rewrite IH.
Qed.

(** The pairs visited depend on the cycle and step indices alone. *)
Lemma visited_keys (df df' : list sample) :
  map key df = map key df' -> visited df = visited df'.
Proof.
  intros H. unfold visited.
  replace (map cycle_index df) with (map fst (map key df))
    by (rewrite map_map; reflexivity).
  replace (map cycle_index df') with (map fst (map key df'))
    by (rewrite map_map; reflexivity).
  rewrite H. apply flat_map_ext. intros c.
  now rewrite !in_cycle_steps, H.
Qed.

Section Facts.
Context {ops : SeriesOps}.

(** X25.  The rows of the step table come in the order of the loops:
    cycle by cycle in the order the cycle indices first appear in the time
    series, and within a cycle step by step in the order the step indices
    first appear in that cycle.  The table is not sorted. *)
Theorem step_table_rows_follow_first_appearance
        (dfdata df : list sample) (df_steps : list step_row) :
  make_step_table dfdata = Ok (df, df_steps) ->
  map (fun r => (cycle r, step r)) df_steps
  = map (fun p => (Some (fst p), Some (snd p))) (visited dfdata).
Proof.
  intros E.
  destruct (make_step_table_rows dfdata) as (rows & E' & H).
  rewrite E' in E. inversion E; subst. clear E.
  rewrite (filled_keys _ _ _ H).
  now rewrite (visited_keys _ dfdata (with_IR_pct_change_keys dfdata)).
Qed.

End Facts.

Lemma step_table_rows_follow_first_appearance_witness :
  exists df df_steps,
    @make_step_table Examples.plain_ops Examples.three_cycles
    = Ok (df, df_steps)
    /\ map (fun r => (cycle r, step r)) df_steps
       = [(Some 1, Some 1); (Some 1, Some 2); (Some 2, Some 1);
          (Some 2, Some 2); (Some 3, Some 1); (Some 3, Some 2)]%Z.
Proof.
  destruct (@make_step_table Examples.plain_ops Examples.three_cycles)
    as [[df df_steps]|e] eqn:E; [|vm_compute in E; discriminate].
  exists df, df_steps. split; [reflexivity|].
  exact (@step_table_rows_follow_first_appearance Examples.plain_ops
           Examples.three_cycles df df_steps E).
Defined.

End OrderFacts.
